(** * sci-fi-scraper: a shallow embedding of the crawler and its classifier

    The development follows the layout of the Python package:
    - [Str]: the operations on [str] the code relies on ([lower], [in],
      [replace], [join], integer formatting);
    - [Models]: [models.py], the [TechEntry] dataclass;
    - [Runtime]: the scraper object, the checkpoint directory, the
      collaborators (clock, MediaWiki API, disk faults) and the monad that
      threads them;
    - [ScraperConfig], [Re], [ContentClassifier]: [config.py], the search
      for its regular expressions, and [classifier.py];
    - [CheckpointManager], [DataExporter]: [utils.py];
    - [WikipediaScraper]: [scraper.py];
    - [Session], [Reference]: what the statements are written with (sessions
      of calls, sample states and collaborators, the classifier in the words
      of the specification).
    The properties follow, grouped by component.

    Python [str] values are modelled as ASCII strings, Python [int] values as
    [Z], sets of strings as [gset string], dictionaries counting strings as
    [gmap string Z].  Divisions that produce a Python [float] are modelled by
    exact rationals [Q]. *)

From Stdlib Require Import ZArith QArith Qminmax Qabs String Ascii List DecimalString.
From Stdlib Require Import DecimalPos DecimalZ.
From stdpp Require Import gmap strings list.

Local Open Scope Z_scope.

(** ** Strings *)

Module Str.

(** [str.lower] on ASCII text. *)
Definition lower_char (c : ascii) : ascii :=
  let n := nat_of_ascii c in
  if ((65 <=? n) && (n <=? 90))%nat then ascii_of_nat (n + 32) else c.

Fixpoint lower (s : string) : string :=
  match s with
  | EmptyString => EmptyString
  | String c s' => String (lower_char c) (lower s')
  end.

(** [sub in s]: [sub] occurs in [s] as a contiguous substring. *)
Fixpoint contains (sub s : string) : bool :=
  String.prefix sub s ||
  match s with
  | EmptyString => false
  | String _ s' => contains sub s'
  end.

(** [s.replace(pat, '')] for a non-empty [pat]: occurrences are removed
    from left to right, without overlap.  [skip] counts the characters of
    the occurrence being removed that are still to be dropped. *)
Fixpoint remove_from (pat : string) (skip : nat) (s : string) : string :=
  match s with
  | EmptyString => EmptyString
  | String c s' =>
      match skip with
      | S k => remove_from pat k s'
      | O =>
          if String.prefix pat s
          then remove_from pat (Nat.pred (String.length pat)) s'
          else String c (remove_from pat O s')
      end
  end.

Definition remove_all (pat s : string) : string := remove_from pat O s.

(** [sep.join(l)]. *)
Fixpoint join (sep : string) (l : list string) : string :=
  match l with
  | [] => EmptyString
  | [x] => x
  | x :: l' => x +:+ sep +:+ join sep l'
  end.

(** [f"{n}"] for an [int]. *)
Definition of_Z (n : Z) : string := NilZero.string_of_int (Z.to_int n).

End Str.

(** ** models.py *)

Module Models.

Record TechEntry := {
  name : string;
  description : string;
  url : string;
  category : string;
  subcategory : string;
  content_length : Z;
  scraped_at : string;
  tech_type : string
}.

(** [len(s)] as a Python [int]. *)
Definition len (s : string) : Z := Z.of_nat (String.length s).

(** The generated [__init__] followed by [__post_init__]: whatever was
    passed for [content_length] and [scraped_at] is overwritten.  [now] is
    the value of [datetime.now().isoformat()] read by [__post_init__]. *)
Definition new_TechEntry (now : string)
    (name description url category subcategory : string)
    (content_length : Z) (scraped_at tech_type : string) : TechEntry :=
  {| name := name; description := description; url := url;
     category := category; subcategory := subcategory;
     content_length := len description;
     scraped_at := now;
     tech_type := tech_type |}.

(** [dataclasses.asdict]: a dictionary with one key per field.  The keys are
    fixed, so the dictionary is modelled as a record of its values. *)
Record EntryDict := {
  d_name : string;
  d_description : string;
  d_url : string;
  d_category : string;
  d_subcategory : string;
  d_content_length : Z;
  d_scraped_at : string;
  d_tech_type : string
}.

Definition asdict (e : TechEntry) : EntryDict :=
  {| d_name := name e; d_description := description e; d_url := url e;
     d_category := category e; d_subcategory := subcategory e;
     d_content_length := content_length e; d_scraped_at := scraped_at e;
     d_tech_type := tech_type e |}.

(** The constructor applied to the keyword arguments of a saved dictionary. *)
Definition from_dict (now : string) (d : EntryDict) : TechEntry :=
  new_TechEntry now (d_name d) (d_description d) (d_url d) (d_category d)
    (d_subcategory d) (d_content_length d) (d_scraped_at d) (d_tech_type d).

End Models.

(** ** The scraper object, its collaborators and the monad of the methods *)

Module Runtime.
Import Models.

(** The dictionary [checkpoint_data] written by [save_checkpoint]. *)
Record CheckpointData := {
  cd_visited_pages : list string;
  cd_visited_categories : list string;
  cd_scraped_entries : list EntryDict;
  cd_failed_pages : list string;
  cd_timestamp : string
}.

(** A checkpoint file on disk: either a complete dump, or what [open(.., 'w')]
    and an unfinished dump leave behind (empty or cut short), which neither
    [json.load] nor [pickle.load] accepts. *)
Inductive file :=
| Complete (d : CheckpointData)
| Partial.

(** One element of the list returned by [get_category_members]. *)
Record Member := { m_title : string; m_ns : option Z }.

(** The dictionary returned by [get_page_content]. *)
Record PageData := {
  p_title : string;
  p_extract : string;
  p_url : string;
  p_categories : list string
}.

(** What the API layer hands to [process_page]: [None], a well-formed
    dictionary, or a dictionary whose values are not strings (processing it
    raises). *)
Inductive PageReply :=
| NoPage
| Page (p : PageData)
| Malformed.

(** [Exception] stands for any instance of [Exception]; the other two are
    [BaseException]s that [except Exception] lets through. *)
Inductive exn := Exception | KeyboardInterrupt | SystemExit.

Definition is_Exception (e : exn) : bool :=
  match e with Exception => true | _ => false end.

(** The arguments of [DataExporter.export_data]. *)
Record ExportArgs := {
  x_entries : list TechEntry;
  x_visited_categories : gset string;
  x_visited_pages : gset string;
  x_failed_pages : list string
}.

(** Interactions with the outside world, oldest first.  [EvGetMembers]
    carries, besides the arguments of the request, the depth of the
    [scrape_category] call that issued it. *)
Inductive event :=
| EvNow (t : string)
| EvGetPage (title : string)
| EvGetMembers (category : string) (limit : Z) (depth : Z)
| EvSleep
| EvSave (d : CheckpointData)
| EvExport (a : ExportArgs).

(** The fields of [WikipediaScraper] that change, the two checkpoint files,
    and the history of interactions. *)
Record state := {
  visited_pages : gset string;
  visited_categories : gset string;
  scraped_entries : list TechEntry;
  failed_pages : list string;
  json_file : option file;
  pickle_file : option file;
  trace : list event
}.

Definition set_visited_pages (v : gset string) (s : state) : state :=
  {| visited_pages := v; visited_categories := visited_categories s;
     scraped_entries := scraped_entries s; failed_pages := failed_pages s;
     json_file := json_file s; pickle_file := pickle_file s; trace := trace s |}.
Definition set_visited_categories (v : gset string) (s : state) : state :=
  {| visited_pages := visited_pages s; visited_categories := v;
     scraped_entries := scraped_entries s; failed_pages := failed_pages s;
     json_file := json_file s; pickle_file := pickle_file s; trace := trace s |}.
Definition set_scraped_entries (v : list TechEntry) (s : state) : state :=
  {| visited_pages := visited_pages s; visited_categories := visited_categories s;
     scraped_entries := v; failed_pages := failed_pages s;
     json_file := json_file s; pickle_file := pickle_file s; trace := trace s |}.
Definition set_failed_pages (v : list string) (s : state) : state :=
  {| visited_pages := visited_pages s; visited_categories := visited_categories s;
     scraped_entries := scraped_entries s; failed_pages := v;
     json_file := json_file s; pickle_file := pickle_file s; trace := trace s |}.
Definition set_json_file (v : option file) (s : state) : state :=
  {| visited_pages := visited_pages s; visited_categories := visited_categories s;
     scraped_entries := scraped_entries s; failed_pages := failed_pages s;
     json_file := v; pickle_file := pickle_file s; trace := trace s |}.
Definition set_pickle_file (v : option file) (s : state) : state :=
  {| visited_pages := visited_pages s; visited_categories := visited_categories s;
     scraped_entries := scraped_entries s; failed_pages := failed_pages s;
     json_file := json_file s; pickle_file := v; trace := trace s |}.
Definition log_event (e : event) (s : state) : state :=
  {| visited_pages := visited_pages s; visited_categories := visited_categories s;
     scraped_entries := scraped_entries s; failed_pages := failed_pages s;
     json_file := json_file s; pickle_file := pickle_file s;
     trace := trace s ++ [e] |}.

(** A freshly constructed scraper in an empty checkpoint directory. *)
Definition initial : state :=
  {| visited_pages := ∅; visited_categories := ∅; scraped_entries := [];
     failed_pages := []; json_file := None; pickle_file := None; trace := [] |}.

(** The collaborators.  Each answer may depend on everything that happened
    before.
    - [env_now]: the text [datetime.now().isoformat()] returns;
    - [env_page], [env_members]: the answers of the MediaWiki API;
    - [env_signal]: an exception raised inside a blocking call (a request
      or a sleep); [KeyboardInterrupt] is the cancellation signal;
    - [env_disk_fault]: [Some k] when a write to the checkpoint directory
      fails with an [OSError] after [k] of its steps. *)
Record Env := {
  env_now : list event -> string;
  env_page : list event -> string -> PageReply;
  env_members : list event -> string -> Z -> list Member;
  env_signal : list event -> option exn;
  env_disk_fault : list event -> option nat
}.

(** The configuration a [WikipediaScraper] is constructed with. *)
Record Settings := {
  max_workers : Z;
  max_category_depth : Z;
  max_subcategories_per_category : Z;
  max_pages_per_category : Z
}.

(** Result of a method: a value, or a raised exception. *)
Inductive res (A : Type) :=
| Ok (a : A)
| Raise (e : exn).
Arguments Ok {A} a.
Arguments Raise {A} e.

Definition M (A : Type) : Type := state -> res A * state.

Definition ret {A} (a : A) : M A := fun s => (Ok a, s).
Definition raise {A} (e : exn) : M A := fun s => (Raise e, s).
Definition bind {A B} (m : M A) (k : A -> M B) : M B :=
  fun s => match m s with
           | (Ok a, s') => k a s'
           | (Raise e, s') => (Raise e, s')
           end.
Definition get : M state := fun s => (Ok s, s).
Definition modify (f : state -> state) : M unit := fun s => (Ok tt, f s).

(** [try: m except Exception: h]. *)
Definition try_except {A} (m : M A) (h : M A) : M A :=
  fun s => match m s with
           | (Raise e, s') => if is_Exception e then h s' else (Raise e, s')
           | r => r
           end.

(** [try: m finally: f]: [f] runs whatever [m] did; an exception raised by
    [f] replaces the pending one. *)
Definition try_finally {A} (m : M A) (f : M unit) : M A :=
  fun s => match m s with
           | (r, s') => match f s' with
                        | (Ok _, s'') => (r, s'')
                        | (Raise e, s'') => (Raise e, s'')
                        end
           end.

(** A [for] loop that carries a local variable. *)
Fixpoint for_each {A B} (l : list A) (body : B -> A -> M B) (acc : B) : M B :=
  match l with
  | [] => ret acc
  | x :: l' => bind (body acc x) (for_each l' body)
  end.

(** A list comprehension whose element expression has effects. *)
Fixpoint map_M {A B} (f : A -> M B) (l : list A) : M (list B) :=
  match l with
  | [] => ret []
  | x :: l' => bind (f x) (fun y => bind (map_M f l') (fun ys => ret (y :: ys)))
  end.

Declare Scope M_scope.
Delimit Scope M_scope with M.
Notation "x <- m ;; k" := (bind m (fun x => k))
  (at level 100, m at next level, right associativity) : M_scope.
Notation "m ;; k" := (bind m (fun _ => k))
  (at level 100, right associativity) : M_scope.

Section Collaborators.
Context (E : Env).

(** [datetime.now().isoformat()]. *)
Definition now : M string :=
  fun s => let t := env_now E (trace s) in (Ok t, log_event (EvNow t) s).

(** A blocking call: raises what is delivered while it waits. *)
Definition blocking : M unit :=
  fun s => match env_signal E (trace s) with
           | Some e => (Raise e, s)
           | None => (Ok tt, s)
           end.

(** [time.sleep]. *)
Definition sleep : M unit :=
  bind (modify (log_event EvSleep)) (fun _ => blocking).

(** [MediaWikiAPI.get_page_content]: an [Exception] raised by the request
    is caught there and answered by [None]. *)
Definition get_page_content (title : string) : M PageReply :=
  bind (modify (log_event (EvGetPage title))) (fun _ =>
  try_except
    (bind blocking (fun _ => fun s => (Ok (env_page E (trace s) title), s)))
    (ret NoPage)).

(** [MediaWikiAPI.get_category_members]: an [Exception] raised by a
    request ends the pagination and the members gathered so far are
    returned. *)
Definition get_category_members (category : string) (limit depth : Z)
  : M (list Member) :=
  bind (modify (log_event (EvGetMembers category limit depth))) (fun _ =>
  try_except
    (bind blocking (fun _ => fun s => (Ok (env_members E (trace s) category limit), s)))
    (fun s => (Ok (env_members E (trace s) category limit), s))).

End Collaborators.

End Runtime.

(** ** config.py *)

Module ScraperConfig.

(** One value of [TECH_CLASSIFIERS]. *)
Record TechClassifier := {
  keywords : list string;
  context : list string;
  weight : Z
}.

(** [TECH_CLASSIFIERS], in the order of the dictionary literal (the order
    in which [.items()] yields it). *)
Definition TECH_CLASSIFIERS : list (string * TechClassifier) :=
  [ ("weapon",
     {| keywords := ["weapon"; "gun"; "rifle"; "blaster"; "phaser"; "cannon";
                     "sword"; "blade"; "bomb"; "missile"; "torpedo"; "laser";
                     "plasma"; "disruptor"; "armament"; "firearm"];
        context := ["fires"; "shoots"; "armed"; "combat"; "warfare"; "damage";
                    "destructive"; "explosive"; "penetrate"; "kill"];
        weight := 3 |});
    ("vehicle",
     {| keywords := ["ship"; "vessel"; "craft"; "fighter"; "cruiser";
                     "transport"; "shuttle"; "carrier"; "destroyer"; "frigate";
                     "corvette"; "dreadnought"; "starship"; "spacecraft"];
        context := ["travels"; "flies"; "navigates"; "crew"; "passengers";
                    "pilot"; "engine"; "hull"; "bridge"; "propulsion"];
        weight := 3 |});
    ("device",
     {| keywords := ["device"; "gadget"; "tool"; "scanner"; "communicator";
                     "computer"; "console"; "terminal"; "apparatus";
                     "instrument"; "detector"; "analyzer"];
        context := ["operates"; "functions"; "displays"; "processes";
                    "controls"; "interface"; "screen"; "data"; "information"];
        weight := 2 |});
    ("robot",
     {| keywords := ["droid"; "robot"; "android"; "cyborg"; "automaton";
                     "mech"; "mecha"; "synthetic"; "artificial"];
        context := ["autonomous"; "programmed"; "intelligence"; "sentient";
                    "mechanical"; "ai"; "artificial"];
        weight := 3 |});
    ("system",
     {| keywords := ["system"; "technology"; "drive"; "engine"; "reactor";
                     "generator"; "shield"; "defense"; "network"; "grid"];
        context := ["powered"; "generates"; "operates"; "mechanism";
                    "process"; "function"; "capability"];
        weight := 2 |});
    ("equipment",
     {| keywords := ["armor"; "suit"; "equipment"; "gear"; "machinery";
                     "hardware"; "component"; "apparatus"];
        context := ["worn"; "equipped"; "protective"; "enhanced"; "designed";
                    "constructed"];
        weight := 2 |}) ]%string.

(** [SCI_FI_INDICATORS]. *)
Definition strong : list string :=
  ["fictional"; "science fiction"; "sci-fi"; "futuristic"; "space"; "alien";
   "time travel"; "cyberpunk"]%string.
Definition franchises : list string :=
  ["star trek"; "star wars"; "battlestar galactica"; "stargate";
   "doctor who"; "firefly"; "babylon 5"; "mass effect"; "halo"; "dune"]%string.
Definition tech_context : list string :=
  ["spaceship"; "energy weapon"; "force field"; "hyperdrive"; "warp drive";
   "cloaking device"; "transporter"]%string.

(** The regular expressions of [EXCLUSION_PATTERNS] all have the shape
    of a sequence of word boundaries, literal texts and alternations of
    literal texts. *)
Inductive atom :=
| Bound                     (* \b *)
| Lit (s : string)          (* literal text *)
| Alt (ws : list string).   (* (w1|w2|...) *)

Definition pattern := list atom.

Definition list_pages : pattern :=
  [Bound; Alt ["list"; "index"; "category"; "timeline"; "chronology"; "history"];
   Lit " of"; Bound]%string.

Definition person_patterns : list pattern :=
  [ [Bound; Alt ["he"; "she"; "they"]; Lit " "; Alt ["is"; "was"; "were"; "are"]; Bound];
    [Bound; Alt ["born"; "died"; "birth"; "death"]; Bound];
    [Bound; Alt ["actor"; "actress"; "character"; "person"; "individual"]; Bound];
    [Bound; Alt ["portrayed"; "played"; "voiced"]; Lit " by"; Bound];
    [Bound; Alt ["biography"; "biographical"]; Bound] ]%string.

Definition plot_patterns : list pattern :=
  [ [Bound; Lit "in the ";
     Alt ["short"; "story"; "plot"; "episode"; "film"; "movie"; "book";
          "novel"; "comic"; "television"]; Bound];
    [Bound; Alt ["appears"; "featured"; "introduced"]; Lit " in"; Bound];
    [Bound; Alt ["storyline"; "narrative"; "plot"]; Bound] ]%string.

(** [CATEGORY_PATTERNS]. *)
Definition skip_patterns : list string :=
  ["disambiguation"; "redirect"; "stub"; "cleanup"; "maintenance";
   "wikipedia"; "template"; "user"; "talk"; "project"; "portal";
   "navigation"; "infobox"]%string.
Definition biographical_patterns : list string :=
  ["biography"; "people"; "characters"; "cast"; "crew"; "actors";
   "directors"; "writers"; "producers"]%string.
Definition media_patterns : list string :=
  ["episodes"; "seasons"; "series"; "films"; "movies"; "books"; "novels";
   "comics"]%string.
Definition tech_patterns : list string :=
  ["technology"; "weapon"; "device"; "equipment"; "vehicle"; "spacecraft";
   "starship"; "robot"; "android"; "cyborg"; "computer"; "system";
   "machinery"; "apparatus"; "tool"; "gadget"; "invention"; "engineering";
   "science"; "fictional"; "armor"; "military"; "space"; "future"; "alien";
   "laser"; "energy"; "power"; "transport"; "communication"; "medical"]%string.

(** Quality thresholds. *)
Definition MIN_CONTENT_LENGTH : Z := 200.
Definition MIN_CONFIDENCE_SCORE : Q := (25 # 100)%Q.

Definition DEFAULT_CATEGORIES : list string :=
  ["Fictional technology"; "Science fiction weapons"; "Fictional spacecraft";
   "Fictional vehicles"; "Fictional robots"]%string.

End ScraperConfig.

(** ** Regular-expression search, for the patterns of the configuration *)

Module Re.
Import ScraperConfig.

(** [\w] on ASCII text: letters, digits and the underscore. *)
Definition is_word (c : ascii) : bool :=
  let n := nat_of_ascii c in
  (((48 <=? n) && (n <=? 57)) || ((65 <=? n) && (n <=? 90))
   || ((97 <=? n) && (n <=? 122)) || (n =? 95))%nat.

Definition word_before (prev : option ascii) : bool :=
  match prev with Some c => is_word c | None => false end.
Definition word_after (s : string) : bool :=
  match s with String c _ => is_word c | EmptyString => false end.

(** [\b] holds between a word character and a non-word character, the two
    ends of the text counting as non-word. *)
Definition at_boundary (prev : option ascii) (s : string) : bool :=
  xorb (word_before prev) (word_after s).

(** Consume the literal [w] at the head of [s]: the last character read and
    the rest of the text. *)
Fixpoint eat (w : string) (prev : option ascii) (s : string)
  : option (option ascii * string) :=
  match w with
  | EmptyString => Some (prev, s)
  | String a w' =>
      match s with
      | String c s' => if Ascii.eqb a c then eat w' (Some c) s' else None
      | EmptyString => None
      end
  end.

(** The pattern matches at the current position; every alternative is
    tried, as the backtracking matcher does. *)
Fixpoint match_here (p : pattern) (prev : option ascii) (s : string) : bool :=
  match p with
  | [] => true
  | Bound :: p' => at_boundary prev s && match_here p' prev s
  | Lit w :: p' =>
      match eat w prev s with
      | Some (prev', s') => match_here p' prev' s'
      | None => false
      end
  | Alt ws :: p' =>
      existsb (fun w => match eat w prev s with
                        | Some (prev', s') => match_here p' prev' s'
                        | None => false
                        end) ws
  end.

Fixpoint search_from (p : pattern) (prev : option ascii) (s : string) : bool :=
  match_here p prev s ||
  match s with
  | EmptyString => false
  | String c s' => search_from p (Some c) s'
  end.

(** [re.search(p, s)] as a truth value. *)
Definition search (p : pattern) (s : string) : bool := search_from p None s.

End Re.

(** ** classifier.py *)

Module ContentClassifier.
Import ScraperConfig.

(** [sum(1 for w in words if w in text)]. *)
Definition count_matches (words : list string) (text : string) : Z :=
  fold_right (fun w n => if Str.contains w text then 1 + n else n) 0 words.

(** The score of one label. *)
Definition type_score (classifier : TechClassifier) (text : string) : Z :=
  let type_score := 0 in
  let keyword_matches := count_matches (keywords classifier) text in
  let type_score := type_score + keyword_matches * weight classifier in
  let context_matches := count_matches (context classifier) text in
  let type_score := type_score + context_matches * 2 in
  if (keyword_matches >? 0) && (context_matches >? 0)
  then type_score + 3 else type_score.

Definition is_sci_fi_technology (title content : string) (categories : list string)
  : bool * string * Q :=
  let text := Str.lower (title +:+ " " +:+ content) in
  let category_text := Str.lower (Str.join " " categories) in
  let sci_fi_score := 0 in
  let sci_fi_score :=
    fold_left (fun score indicator =>
                 if Str.contains indicator text || Str.contains indicator category_text
                 then score + 3 else score) strong sci_fi_score in
  let sci_fi_score :=
    fold_left (fun score franchise =>
                 if Str.contains franchise text || Str.contains franchise category_text
                 then score + 4 else score) franchises sci_fi_score in
  let sci_fi_score :=
    fold_left (fun score tech =>
                 if Str.contains tech text then score + 2 else score)
              tech_context sci_fi_score in
  let '(best_type, best_score) :=
    fold_left (fun best item =>
                 let '(best_type, best_score) := best in
                 let '(tech_type, classifier) := item in
                 let score := type_score classifier text in
                 if score >? best_score then (tech_type, score)
                 else (best_type, best_score))
              TECH_CLASSIFIERS ("technology"%string, 0) in
  let is_sci_fi := sci_fi_score >=? 2 in
  let is_tech := best_score >=? 2 in
  let confidence := Qmin 1 (inject_Z (sci_fi_score + best_score) / 8) in
  (is_sci_fi && is_tech, best_type, confidence).

Definition is_excluded_content (title content : string) : bool :=
  let text := Str.lower (title +:+ " " +:+ content) in
  if Re.search list_pages text then true
  else if existsb (fun pattern => Re.search pattern text) person_patterns then true
  else
    let plot_matches :=
      fold_right (fun pattern n => if Re.search pattern text then 1 + n else n)
                 0 plot_patterns in
    if plot_matches >? 2 then true else false.

(** [any(p in s for p in patterns)]. *)
Definition any_in (patterns : list string) (s : string) : bool :=
  existsb (fun p => Str.contains p s) patterns.

Definition is_relevant_subcategory (category_name : string) : bool :=
  let category_lower := Str.lower category_name in
  if any_in skip_patterns category_lower then false
  else if any_in biographical_patterns category_lower
          && negb (any_in ["technology"; "weapon"; "device"; "equipment";
                           "vehicle"; "robot"]%string category_lower)
  then false
  else if any_in media_patterns category_lower
          && negb (any_in ["technology"; "weapon"; "device"; "equipment";
                           "vehicle"; "robot"; "fictional"]%string category_lower)
  then false
  else
    let has_tech_term := any_in tech_patterns category_lower in
    let is_fictional := Str.contains "fictional" category_lower
                        || Str.contains "science fiction" category_lower in
    has_tech_term || is_fictional.

End ContentClassifier.

(** ** utils.py *)

Module CheckpointManager.
Import Models Runtime.
Local Open Scope M_scope.

(** The writes of [save_checkpoint], in order: the JSON file is opened for
    writing (which empties it) and dumped, then the pickle file likewise.
    Both are written in place. *)
Definition write_steps (d : CheckpointData) : list (state -> state) :=
  [ set_json_file (Some Partial);
    set_json_file (Some (Complete d));
    set_pickle_file (Some Partial);
    set_pickle_file (Some (Complete d)) ].

Definition run_steps (steps : list (state -> state)) (s : state) : state :=
  fold_left (fun s step => step s) steps s.

(** The writes, cut short by an [OSError] after [k] steps when a fault is
    due. *)
Definition write_files (fault : option nat) (d : CheckpointData) : M unit :=
  fun s =>
    match fault with
    | Some k =>
        if (k <? length (write_steps d))%nat
        then (Raise Exception, run_steps (take k (write_steps d)) s)
        else (Ok tt, run_steps (write_steps d) s)
    | None => (Ok tt, run_steps (write_steps d) s)
    end.

Section Methods.
Context (E : Env).

Definition save_checkpoint (visited_pages visited_categories : gset string)
    (scraped_entries : list TechEntry) (failed_pages : list string) : M unit :=
  timestamp <- now E;;
  let checkpoint_data :=
    {| cd_visited_pages := elements visited_pages;
       cd_visited_categories := elements visited_categories;
       cd_scraped_entries := map asdict scraped_entries;
       cd_failed_pages := failed_pages;
       cd_timestamp := timestamp |} in
  modify (log_event (EvSave checkpoint_data));;
  s <- get;;
  write_files (env_disk_fault E (trace s)) checkpoint_data.

(** [None] stands for the empty dictionary.  A file that exists but does
    not load makes the method return it without trying the other file. *)
Definition load_checkpoint : M (option CheckpointData) :=
  s <- get;;
  match pickle_file s with
  | Some (Complete d) => ret (Some d)
  | Some Partial => ret None
  | None =>
      match json_file s with
      | Some (Complete d) => ret (Some d)
      | Some Partial => ret None
      | None => ret None
      end
  end.

End Methods.
End CheckpointManager.

Module DataExporter.
Import Models Runtime.
Local Open Scope M_scope.

Record Statistics := {
  total_entries : Z;
  categories : gmap string Z;
  tech_types : gmap string Z;
  min_length : Z;
  max_length : Z;
  avg_length : Q;
  quality_entries : Z;
  stat_failed_pages : Z;
  processed_pages : Z;
  stat_visited_categories : Z;
  success_rate : Q
}.

(** [d[k] = d.get(k, 0) + 1]. *)
Definition count_up (k : string) (d : gmap string Z) : gmap string Z :=
  <[k := default 0 (d !! k) + 1]> d.

(** [min(l) if l else 0] and [max(l) if l else 0]. *)
Definition min_or_zero (l : list Z) : Z :=
  match l with [] => 0 | x :: l' => fold_left Z.min l' x end.
Definition max_or_zero (l : list Z) : Z :=
  match l with [] => 0 | x :: l' => fold_left Z.max l' x end.

Definition sum (l : list Z) : Z := fold_left Z.add l 0.

Definition list_len {A} (l : list A) : Z := Z.of_nat (length l).
Definition set_len (s : gset string) : Z := Z.of_nat (size s).

(** [None] stands for the empty dictionary returned when there is no entry. *)
Definition generate_statistics (scraped_entries : list TechEntry)
    (visited_categories visited_pages : gset string)
    (failed_pages : list string) : option Statistics :=
  match scraped_entries with
  | [] => None
  | _ =>
      let '(categories, tech_types, description_lengths) :=
        fold_left (fun acc entry =>
                     let '(categories, tech_types, description_lengths) := acc in
                     (count_up (category entry) categories,
                      count_up (tech_type entry) tech_types,
                      description_lengths ++ [len (description entry)]))
                  scraped_entries (∅, ∅, []) in
      Some {|
        total_entries := list_len scraped_entries;
        categories := categories;
        tech_types := tech_types;
        min_length := min_or_zero description_lengths;
        max_length := max_or_zero description_lengths;
        avg_length :=
          match description_lengths with
          | [] => 0
          | _ => inject_Z (sum description_lengths)
                 / inject_Z (list_len description_lengths)
          end;
        quality_entries :=
          list_len (filter (fun e => 100 ≤ len (description e)) scraped_entries);
        stat_failed_pages := list_len failed_pages;
        processed_pages := set_len visited_pages;
        stat_visited_categories := set_len visited_categories;
        success_rate :=
          inject_Z (set_len visited_pages - list_len failed_pages)
          / inject_Z (Z.max (set_len visited_pages) 1) * 100
      |}
  end.

Section Methods.
Context (E : Env).

(** The four export files are written under a fresh time stamp; their
    formats are outside the model, only the call and a possible write
    failure are recorded. *)
Definition export_data (scraped_entries : list TechEntry)
    (visited_categories visited_pages : gset string)
    (failed_pages : list string) : M unit :=
  timestamp <- now E;;
  modify (log_event (EvExport
    {| x_entries := scraped_entries;
       x_visited_categories := visited_categories;
       x_visited_pages := visited_pages;
       x_failed_pages := failed_pages |}));;
  s <- get;;
  match env_disk_fault E (trace s) with
  | Some _ => raise Exception
  | None => ret tt
  end.

End Methods.
End DataExporter.

(** ** scraper.py *)

Module WikipediaScraper.
Import Models Runtime.
Local Open Scope M_scope.

(** [l[:n]] for a Python [int] [n]: a negative [n] counts from the end. *)
Definition slice_to {A} (n : Z) (l : list A) : list A :=
  if n <? 0 then take (Z.to_nat (Z.of_nat (length l) + n)) l
  else take (Z.to_nat n) l.

(** [m.get('ns', 0) == k]. *)
Definition in_namespace (k : Z) (m : Member) : bool :=
  default 0 (m_ns m) =? k.

(** The key under which a category visit is recorded. *)
Definition category_depth_key (normalized_category : string) (current_depth : Z)
  : string :=
  normalized_category +:+ "_" +:+ Str.of_Z current_depth.

(** The outcome of the block of [scrape_category] that runs under the lock. *)
Inductive verdict :=
| AlreadyVisited        (* the key was recorded before *)
| VisitedAtOtherDepth   (* the bare name is in the set *)
| Proceed.

Section Methods.
Context (E : Env) (C : Settings).

Definition load_checkpoint : M unit :=
  checkpoint_data <- CheckpointManager.load_checkpoint;;
  match checkpoint_data with
  | Some d =>
      modify (set_visited_pages (list_to_set (cd_visited_pages d)));;
      modify (set_visited_categories (list_to_set (cd_visited_categories d)));;
      modify (set_failed_pages (cd_failed_pages d));;
      entries <- map_M (fun entry => t <- now E;; ret (from_dict t entry))
                       (cd_scraped_entries d);;
      modify (set_scraped_entries entries)
  | None => ret tt
  end.

Definition save_checkpoint : M unit :=
  s <- get;;
  CheckpointManager.save_checkpoint E
    (visited_pages s) (visited_categories s) (scraped_entries s) (failed_pages s).

Definition export_data : M unit :=
  s <- get;;
  DataExporter.export_data E
    (scraped_entries s) (visited_categories s) (visited_pages s) (failed_pages s).

Definition process_page (page_title category : string) : M (list TechEntry) :=
  s <- get;;
  if bool_decide (page_title ∈ visited_pages s) then ret []
  else
    modify (set_visited_pages ({[page_title]} ∪ visited_pages s));;
    try_except
      (page_data <- get_page_content E page_title;;
       match page_data with
       | NoPage => ret []
       | Malformed => raise Exception
       | Page p =>
           let title := p_title p in
           let content := p_extract p in
           let url := p_url p in
           let categories := p_categories p in
           if len content <? ScraperConfig.MIN_CONTENT_LENGTH then ret []
           else if ContentClassifier.is_excluded_content title content then ret []
           else
             let '(is_sci_fi_tech, tech_type, confidence) :=
               ContentClassifier.is_sci_fi_technology title content categories in
             if negb is_sci_fi_tech then ret []
             else if negb (Qle_bool ScraperConfig.MIN_CONFIDENCE_SCORE confidence)
             then ret []
             else
               t <- now E;;
               ret [new_TechEntry t title content url category "" 0 "" tech_type]
       end)
      (s <- get;;
       modify (set_failed_pages (failed_pages s ++ [page_title]));;
       ret []).

(** The block under the lock: the composite key is looked up and recorded,
    then, below the top level, the bare name is looked up. *)
Definition cycle_guard (normalized_category : string) (current_depth : Z)
  : M verdict :=
  let key := category_depth_key normalized_category current_depth in
  s <- get;;
  if bool_decide (key ∈ visited_categories s) then ret AlreadyVisited
  else
    modify (set_visited_categories ({[key]} ∪ visited_categories s));;
    s <- get;;
    if (current_depth >? 0)
       && bool_decide (normalized_category ∈ visited_categories s)
    then ret VisitedAtOtherDepth
    else ret Proceed.

(** One completed unit of the page pool: the page is processed, its
    entries are merged and every tenth entry triggers a checkpoint.  The
    pool is modelled by the schedule in which the units complete one
    after the other, in the order of submission. *)
Definition page_unit (category_name : string) (entries_found : Z) (page : Member)
  : M Z :=
  entries <- process_page (m_title page) category_name;;
  match entries with
  | [] => ret entries_found
  | _ =>
      s <- get;;
      modify (set_scraped_entries (scraped_entries s ++ entries));;
      let entries_found := entries_found + Z.of_nat (length entries) in
      if entries_found mod 10 =? 0
      then try_except (save_checkpoint;; ret entries_found) (ret entries_found)
      else ret entries_found
  end.

(** One iteration of the loop over the subcategories.  The count is
    updated before the delay, so it is kept when the delay fails. *)
Definition subcategory_unit (self_call : string -> Z -> Z -> M Z)
    (current_depth : Z) (entries_found : Z) (subcat : Member) : M Z :=
  let subcat_name := m_title subcat in
  if ContentClassifier.is_relevant_subcategory subcat_name then
    try_except
      (subcat_entries <- self_call subcat_name
                           (Z.min 300 (max_pages_per_category C / 2))
                           (current_depth + 1);;
       let entries_found := entries_found + subcat_entries in
       try_except (sleep E;; ret entries_found) (ret entries_found))
      (ret entries_found)
  else ret entries_found.

(** The part of [scrape_category] that follows the block under the lock:
    the members are fetched and split, the pages are processed and the
    subcategories are visited.  [self_call] is the recursive call. *)
Definition expand_category (self_call : string -> Z -> Z -> M Z)
    (category_name normalized_category : string) (max_pages current_depth : Z)
  : M Z :=
  members <- get_category_members E normalized_category
               (Z.min max_pages (max_pages_per_category C)) current_depth;;
  match members with
  | [] => ret 0
  | _ =>
      let pages := List.filter (in_namespace 0) members in
      let subcategories := List.filter (in_namespace 14) members in
      let subcategories :=
        slice_to (max_subcategories_per_category C) subcategories in
      entries_found <-
        match pages with
        | [] => ret 0
        | _ =>
            (* ThreadPoolExecutor refuses a pool without workers *)
            if max_workers C <=? 0 then raise Exception
            else for_each pages (page_unit category_name) 0
        end;;
      if current_depth <? max_category_depth C
      then for_each subcategories
             (subcategory_unit self_call current_depth) entries_found
      else ret entries_found
  end.

(** The body of [scrape_category], with the recursive call as a
    parameter. *)
Definition scrape_category_body (self_call : string -> Z -> Z -> M Z)
    (category_name : string) (max_pages current_depth : Z) : M Z :=
  let normalized_category := Str.remove_all "Category:" category_name in
  if current_depth >? max_category_depth C then ret 0
  else
    v <- cycle_guard normalized_category current_depth;;
    match v with
    | AlreadyVisited => ret 0
    | VisitedAtOtherDepth => ret 0
    | Proceed =>
        expand_category self_call category_name normalized_category
          max_pages current_depth
    end.

(** The recursion of [scrape_category] goes one level deeper at each call
    and stops at the maximum depth; [fuel] counts the levels left. *)
Fixpoint scrape_category_rec (fuel : nat) : string -> Z -> Z -> M Z :=
  match fuel with
  | O => scrape_category_body (fun _ _ _ => ret 0)
  | S fuel' => scrape_category_body (scrape_category_rec fuel')
  end.

Definition scrape_category (category_name : string) (max_pages current_depth : Z)
  : M Z :=
  scrape_category_rec (Z.to_nat (max_category_depth C - current_depth))
    category_name max_pages current_depth.

(** The loop of [scrape_all] over the start categories. *)
Fixpoint seed_loop (start_categories : list string) (max_entries : Z) : M unit :=
  match start_categories with
  | [] => ret tt
  | category :: rest =>
      s <- get;;
      if Z.of_nat (length (scraped_entries s)) >=? max_entries then ret tt
      else
        try_except
          (entries_found <- scrape_category category 500 0;;
           save_checkpoint;;
           sleep E)
          (ret tt);;
        seed_loop rest max_entries
  end.

(** [except KeyboardInterrupt] and [except Exception] of [scrape_all]:
    both handlers only write to the log. *)
Definition caught_by_scrape_all (e : exn) : bool :=
  match e with
  | KeyboardInterrupt | Exception => true
  | SystemExit => false
  end.

Definition scrape_all (start_categories : option (list string)) (max_entries : Z)
  : M unit :=
  let start_categories :=
    default ScraperConfig.DEFAULT_CATEGORIES start_categories in
  try_finally
    (fun s => match seed_loop start_categories max_entries s with
              | (Raise e, s') =>
                  if caught_by_scrape_all e then (Ok tt, s') else (Raise e, s')
              | r => r
              end)
    (save_checkpoint;; export_data).

End Methods.
End WikipediaScraper.

(** ** Sessions and reference definitions used in the statements *)

Module Session.
Import Models Runtime.
Local Open Scope M_scope.

(** A new process on the same checkpoint directory: the scraper object is
    constructed afresh, the files and the history stay. *)
Definition restart (s : state) : state :=
  {| visited_pages := ∅; visited_categories := ∅; scraped_entries := [];
     failed_pages := []; json_file := json_file s;
     pickle_file := pickle_file s; trace := trace s |}.

(** Saving the progress state, then resuming from it in a new process. *)
Definition save_then_resume (E : Env) : M unit :=
  WikipediaScraper.save_checkpoint E;;
  modify restart;;
  WikipediaScraper.load_checkpoint E.

(** State and result of a run. *)
Definition final {A} (m : M A) (s : state) : state := snd (m s).
Definition result {A} (m : M A) (s : state) : res A := fst (m s).

(** What a session may do between two calls: any method of the scraper,
    or a resume in a new process from a checkpoint that was written
    without a fault. *)
Inductive step (E : Env) (C : Settings) : state -> state -> Prop :=
| step_process_page title category s :
    step E C s (final (WikipediaScraper.process_page E title category) s)
| step_scrape_category category_name max_pages depth s :
    step E C s (final (WikipediaScraper.scrape_category E C category_name max_pages depth) s)
| step_save_checkpoint s :
    step E C s (final (WikipediaScraper.save_checkpoint E) s)
| step_export_data s :
    step E C s (final (WikipediaScraper.export_data E) s)
| step_scrape_all start_categories max_entries s :
    step E C s (final (WikipediaScraper.scrape_all E C start_categories max_entries) s)
| step_resume s :
    result (WikipediaScraper.save_checkpoint E) s = Ok tt ->
    step E C s (final (save_then_resume E) s).

(** A clock that reads the number of interactions so far. *)
Definition tick_clock (tr : list event) : string :=
  Str.of_Z (Z.of_nat (length tr)).

(** Collaborators that never fail: no page exists, no category has members. *)
Definition quiet_env : Env :=
  {| env_now := tick_clock;
     env_page := fun _ _ => NoPage;
     env_members := fun _ _ _ => [];
     env_signal := fun _ => None;
     env_disk_fault := fun _ => None |}.

(** The same collaborators on a disk whose writes fail after [k] steps. *)
Definition faulty_disk_env (k : nat) : Env :=
  {| env_now := tick_clock;
     env_page := fun _ _ => NoPage;
     env_members := fun _ _ _ => [];
     env_signal := fun _ => None;
     env_disk_fault := fun _ => Some k |}.

Definition default_settings : Settings :=
  {| max_workers := 4; max_category_depth := 5;
     max_subcategories_per_category := 5; max_pages_per_category := 5000 |}.

Definition phaser : TechEntry :=
  new_TechEntry "2024-01-01T00:00:00" "Phaser" "A phaser is a fictional weapon."
    "https://en.wikipedia.org/wiki/Phaser" "Fictional technology" "" 0 "" "weapon".

(** A progress state with one accepted entry. *)
Definition one_entry_state : state :=
  {| visited_pages := {["Phaser"%string]};
     visited_categories := {["Fictional technology_0"%string]};
     scraped_entries := [phaser];
     failed_pages := [];
     json_file := None; pickle_file := None; trace := [] |}.

(** The snapshot [save_checkpoint] writes for the state [s] at time [t]. *)
Definition snapshot (s : state) (t : string) : CheckpointData :=
  {| cd_visited_pages := elements (visited_pages s);
     cd_visited_categories := elements (visited_categories s);
     cd_scraped_entries := map asdict (scraped_entries s);
     cd_failed_pages := failed_pages s;
     cd_timestamp := t |}.

(** The arguments [export_data] passes on for the state [s]. *)
Definition export_args (s : state) : ExportArgs :=
  {| x_entries := scraped_entries s;
     x_visited_categories := visited_categories s;
     x_visited_pages := visited_pages s;
     x_failed_pages := failed_pages s |}.

(** Two entries agree on every field but [scraped_at]. *)
Definition same_but_scraped_at (e e' : TechEntry) : Prop :=
  name e' = name e /\ description e' = description e /\ url e' = url e /\
  category e' = category e /\ subcategory e' = subcategory e /\
  content_length e' = len (description e) /\ tech_type e' = tech_type e.

(** A directory holding the snapshot [d] of an earlier, successful save. *)
Definition holds_snapshot (d : CheckpointData) (s : state) : Prop :=
  json_file s = Some (Complete d) /\ pickle_file s = Some (Complete d).

(** The state [one_entry_state] after a successful save. *)
Definition saved_state : state :=
  final (WikipediaScraper.save_checkpoint quiet_env) one_entry_state.

(** [preserves P m]: running [m] from a state that satisfies [P] ends in a
    state that satisfies [P], whether [m] returns or raises. *)
Definition preserves {A} (P : state -> Prop) (m : M A) : Prop :=
  forall s, P s -> P (final m s).

(** An invariant of the crawl, built from a property of each visited set
    and a property of every interaction. *)
Definition crawl_invariant (Ppages Pcats : gset string -> Prop)
    (Pev : event -> Prop) (s : state) : Prop :=
  Ppages (visited_pages s) /\ Pcats (visited_categories s) /\
  Forall Pev (trace s).

(** A request for category members is issued within the depth bound. *)
Definition within_depth (C : Settings) (ev : event) : Prop :=
  match ev with
  | EvGetMembers _ _ depth => depth <= max_category_depth C
  | _ => True
  end.

(** [k] is a key recorded for some category name at some depth within the
    bound. *)
Definition composite (C : Settings) (k : string) : Prop :=
  exists normalized_category depth,
    k = WikipediaScraper.category_depth_key normalized_category depth /\
    depth <= max_category_depth C.

(** Every recorded category key is composite. *)
Definition composite_keys (C : Settings) (s : state) : Prop :=
  forall k, k ∈ visited_categories s -> composite C k.

(** A text of [n] characters. *)
Fixpoint filler (n : nat) : string :=
  match n with
  | O => EmptyString
  | S k => String "x" (filler k)
  end.

(** An accepted entry with a description of [n] characters. *)
Definition entry_of_length (n : nat) (tech_type : string) : TechEntry :=
  new_TechEntry "2024-01-01T00:00:00" "Entry" (filler n)
    "https://en.wikipedia.org/wiki/Entry" "Fictional technology" "" 0 "" tech_type.

(** The interaction is a call of [export_data]. *)
Definition is_export (ev : event) : bool :=
  match ev with EvExport _ => true | _ => false end.

End Session.

(** ** The classifier as the specification words it *)

Module Reference.
Import ScraperConfig.

(** The word [w] is present in at least one of the texts. *)
Definition present_in (texts : list string) (w : string) : bool :=
  existsb (Str.contains w) texts.

(** The number of words of the vocabulary present in one of the texts. *)
Definition how_many (vocabulary : list string) (texts : list string) : Z :=
  Z.of_nat (length (List.filter (present_in texts) vocabulary)).

(** 3 per strong indicator and 4 per franchise name present in either
    text, 2 per tech-context phrase present in the title+body text. *)
Definition domain_score (text category_text : string) : Z :=
  3 * how_many strong [text; category_text]
  + 4 * how_many franchises [text; category_text]
  + 2 * how_many tech_context [text].

(** Keywords present times the weight of the label, context words present
    times 2, and 3 more when there is at least one of each. *)
Definition label_score (c : TechClassifier) (text : string) : Z :=
  how_many (keywords c) [text] * weight c
  + how_many (context c) [text] * 2
  + (if (0 <? how_many (keywords c) [text]) && (0 <? how_many (context c) [text])
     then 3 else 0).

(** The scores of the six labels, in the order of the table. *)
Definition label_scores (text : string) : list (string * Z) :=
  map (fun item => (fst item, label_score (snd item) text)) TECH_CLASSIFIERS.

(** [label] with [score] is the winner: either no label scores above zero
    and the default label is kept with score zero, or [label] is the first
    label that reaches the highest score (labels before it score strictly
    less, labels after it do not score more). *)
Definition wins (scored : list (string * Z)) (label : string) (score : Z) : Prop :=
  (Forall (fun p => snd p <= 0) scored /\ label = "technology"%string /\ score = 0)
  \/ (exists before after,
        scored = before ++ (label, score) :: after /\ 0 < score /\
        Forall (fun p => snd p < score) before /\
        Forall (fun p => snd p <= score) after).

(** One step of the loop that keeps the best label: the current best is
    replaced only by a strictly higher score. *)
Definition keep_best (best : string * Z) (item : string * Z) : string * Z :=
  if snd item >? snd best then item else best.

(** No word of any vocabulary occurs in the texts. *)
Definition no_vocabulary (text category_text : string) : Prop :=
  (forall w, In w (strong ++ franchises) ->
             Str.contains w text = false /\ Str.contains w category_text = false) /\
  (forall w, In w tech_context -> Str.contains w text = false) /\
  (forall item w, In item TECH_CLASSIFIERS ->
                  In w (keywords (snd item) ++ context (snd item)) ->
                  Str.contains w text = false).

End Reference.

(** ** Export contents and the vocabulary of the coverage properties *)

Module TrainingExport.
Import Models.

(** The value of the key [metadata] of a training example. *)
Record Metadata := {
  source : string;
  meta_category : string;
  meta_tech_type : string;
  meta_url : string
}.

(** The dictionary returned by [TechEntry.to_training_example]. *)
Record TrainingExample := {
  instruction : string;
  input : string;
  output : string;
  metadata : Metadata
}.

Definition to_training_example (e : TechEntry) : TrainingExample :=
  {| instruction := "Describe this " +:+ tech_type e +:+ " from science fiction:";
     input := name e;
     output := description e;
     metadata := {| source := "wikipedia";
                    meta_category := category e;
                    meta_tech_type := tech_type e;
                    meta_url := url e |} |}.

(** The lines [export_data] writes to the training file: one example per
    entry whose description has at least 100 characters, in order. *)
Definition training_lines (scraped_entries : list TechEntry) : list TrainingExample :=
  map to_training_example
      (List.filter (fun entry => len (description entry) >=? 100) scraped_entries).

(** The records [export_data] writes to the JSON and JSONL files. *)
Definition record_dump (scraped_entries : list TechEntry) : list EntryDict :=
  map asdict scraped_entries.

End TrainingExport.

Module Coverage.
Import Models Runtime Session.

(** The labels of [TECH_CLASSIFIERS]. *)
Definition labels : list string := map fst ScraperConfig.TECH_CLASSIFIERS.

(** The shape of an entry accepted by [process_page]. *)
Definition accepted_shape (e : TechEntry) : Prop :=
  content_length e = len (description e) /\
  ScraperConfig.MIN_CONTENT_LENGTH <= len (description e) /\
  In (tech_type e) labels /\
  subcategory e = EmptyString.

(** Every failed page is recorded once, and is a visited page. *)
Definition failures_recorded (s : state) : Prop :=
  NoDup (failed_pages s) /\ forall t, In t (failed_pages s) -> t ∈ visited_pages s.

(** Every accepted entry of the state has the accepted shape. *)
Definition entries_accepted (s : state) : Prop :=
  Forall accepted_shape (scraped_entries s).

(** The interaction is a request to the MediaWiki API. *)
Definition is_request (ev : event) : bool :=
  match ev with
  | EvGetPage _ | EvGetMembers _ _ _ => true
  | _ => false
  end.

(** A request for category members stays within the per-category cap. *)
Definition within_page_cap (C : Settings) (ev : event) : Prop :=
  match ev with
  | EvGetMembers _ limit _ => limit <= max_pages_per_category C
  | _ => True
  end.

(** The number of entries of the list with the given key. *)
Definition count_by (key : TechEntry -> string) (k : string) (l : list TechEntry) : Z :=
  Z.of_nat (length (List.filter (fun e => String.eqb (key e) k) l)).

(** Running [m] appends entries to the accepted entries, and the result and
    the appended entries are related by [Q]. *)
Definition grows (Q : res Z -> list TechEntry -> Prop) (m : M Z) : Prop :=
  forall s, exists new,
    scraped_entries (final m s) = scraped_entries s ++ new /\ Q (result m s) new.

(** [m] continues a count that stands at [acc]: it does not end with an
    [Exception], and a returned count is [acc] plus the number of entries
    appended. *)
Definition counts_from (acc : Z) : M Z -> Prop :=
  grows (fun r new =>
           r <> Raise Exception /\
           forall n, r = Ok n -> n = acc + Z.of_nat (length new)).

(** [m] counts what it appends: a returned count is the number of entries
    appended, and nothing is appended when it ends with an [Exception]. *)
Definition counts : M Z -> Prop :=
  grows (fun r new =>
           (r = Raise Exception -> new = []) /\
           forall n, r = Ok n -> n = Z.of_nat (length new)).

(** The character [c] occurs in the text. *)
Fixpoint occurs (c : ascii) (s : string) : bool :=
  match s with
  | EmptyString => false
  | String a s' => Ascii.eqb a c || occurs c s'
  end.

(** A page the classifier accepts. *)
Definition lightsaber_text : string :=
  "A lightsaber is a fictional energy sword featured in the Star Wars universe. The weapon fires a plasma blade that is used in combat and can penetrate most materials. It is powered by a kyber crystal and emits a distinct hum when it is moved.".

Definition lightsaber_page : PageData :=
  {| p_title := "Lightsaber";
     p_extract := lightsaber_text;
     p_url := "https://en.wikipedia.org/wiki/Lightsaber";
     p_categories := ["Category:Star Wars weapons"%string] |}.

(** Collaborators for which every category has the single member
    [Lightsaber] and every page is [lightsaber_page]. *)
Definition lightsaber_env : Env :=
  {| env_now := tick_clock;
     env_page := fun _ _ => Page lightsaber_page;
     env_members := fun _ _ _ => [ {| m_title := "Lightsaber"; m_ns := Some 0 |} ];
     env_signal := fun _ => None;
     env_disk_fault := fun _ => None |}.

(** The same, with a page whose processing raises. *)
Definition malformed_env : Env :=
  {| env_now := tick_clock;
     env_page := fun _ _ => Malformed;
     env_members := fun _ _ _ => [ {| m_title := "Lightsaber"; m_ns := Some 0 |} ];
     env_signal := fun _ => None;
     env_disk_fault := fun _ => None |}.

(** The state after one crawl of a category in [lightsaber_env]. *)
Definition crawled_state : state :=
  final (WikipediaScraper.scrape_category lightsaber_env default_settings
           "Category:Fictional technology" 500 0) initial.

End Coverage.

(** * Properties *)

Import Models Runtime Session.

(** ** The monad *)

Section MonadFacts.
Context {A B : Type}.

Lemma bind_ok (m : M A) (k : A -> M B) s a s' :
  m s = (Ok a, s') -> bind m k s = k a s'.
Proof. intros H. unfold bind. now rewrite H. Qed.

Lemma bind_raise (m : M A) (k : A -> M B) s e s' :
  m s = (Raise e, s') -> bind m k s = (Raise e, s').
Proof. intros H. unfold bind. now rewrite H. Qed.

Lemma for_each_ext (l : list A) (f g : B -> A -> M B) :
  (forall acc x s, f acc x s = g acc x s) ->
  forall acc s, for_each l f acc s = for_each l g acc s.
Proof.
  intros Hfg. induction l as [|x l IH]; intros acc s; simpl; [reflexivity|].
  unfold bind. rewrite Hfg. destruct (g acc x s) as [[b|e] s']; auto.
Qed.
End MonadFacts.

Section Preservation.
Context (P : state -> Prop).

Lemma preserves_ret {A} (a : A) : preserves P (ret a).
Proof. intros s H. exact H. Qed.

Lemma preserves_raise {A} (e : exn) : preserves P (@raise A e).
Proof. intros s H. exact H. Qed.

Lemma preserves_get : preserves P get.
Proof. intros s H. exact H. Qed.

Lemma preserves_bind_get {B} (k : state -> M B) :
  (forall s, P s -> P (final (k s) s)) -> preserves P (bind get k).
Proof. intros Hk s H. apply Hk, H. Qed.

Lemma preserves_modify (f : state -> state) :
  (forall s, P s -> P (f s)) -> preserves P (modify f).
Proof. intros Hf s H. apply Hf, H. Qed.

Lemma preserves_bind {A B} (m : M A) (k : A -> M B) :
  preserves P m -> (forall a, preserves P (k a)) -> preserves P (bind m k).
Proof.
  intros Hm Hk s H. unfold final, bind. specialize (Hm s H). unfold final in Hm.
  destruct (m s) as [[a|e] s']; simpl in *; [apply Hk, Hm | exact Hm].
Qed.

Lemma preserves_try_except {A} (m h : M A) :
  preserves P m -> preserves P h -> preserves P (try_except m h).
Proof.
  intros Hm Hh s H. unfold final, try_except. specialize (Hm s H). unfold final in Hm.
  destruct (m s) as [[a|e] s']; simpl in *; [exact Hm|].
  destruct (is_Exception e); [apply Hh, Hm | exact Hm].
Qed.

Lemma preserves_try_finally {A} (m : M A) (f : M unit) :
  preserves P m -> preserves P f -> preserves P (try_finally m f).
Proof.
  intros Hm Hf s H. unfold final, try_finally. specialize (Hm s H). unfold final in Hm.
  destruct (m s) as [r s']; simpl in *. specialize (Hf s' Hm). unfold final in Hf.
  destruct (f s') as [[u|e] s'']; exact Hf.
Qed.

Lemma preserves_for_each {A B} (l : list A) (body : B -> A -> M B) :
  (forall acc x, preserves P (body acc x)) ->
  forall acc, preserves P (for_each l body acc).
Proof.
  intros Hb. induction l as [|x l IH]; intros acc; simpl.
  - apply preserves_ret.
  - apply preserves_bind; [apply Hb | exact IH].
Qed.

Lemma preserves_map_M {A B} (f : A -> M B) (l : list A) :
  (forall x, preserves P (f x)) -> preserves P (map_M f l).
Proof.
  intros Hf. induction l as [|x l IH]; simpl.
  - apply preserves_ret.
  - apply preserves_bind; [apply Hf|]. intros y.
    apply preserves_bind; [exact IH|]. intros ys. apply preserves_ret.
Qed.
End Preservation.

(** ** Checkpoints: saving and resuming *)

(** The run of [save_checkpoint]: one clock read, the snapshot, the writes. *)
Lemma save_checkpoint_run (E : Env) (s : state) :
  WikipediaScraper.save_checkpoint E s =
  let t := env_now E (trace s) in
  let d := snapshot s t in
  let s2 := log_event (EvSave d) (log_event (EvNow t) s) in
  CheckpointManager.write_files (env_disk_fault E (trace s2)) d s2.
Proof. reflexivity. Qed.

(** A save that returns has written the snapshot to both files and has left
    the scraper object as it was. *)
Lemma save_checkpoint_returns (E : Env) (s : state) :
  result (WikipediaScraper.save_checkpoint E) s = Ok tt ->
  let t := env_now E (trace s) in
  let s' := final (WikipediaScraper.save_checkpoint E) s in
  pickle_file s' = Some (Complete (snapshot s t)) /\
  json_file s' = Some (Complete (snapshot s t)) /\
  visited_pages s' = visited_pages s /\
  visited_categories s' = visited_categories s /\
  scraped_entries s' = scraped_entries s /\
  failed_pages s' = failed_pages s /\
  trace s' = trace s ++ [EvNow t; EvSave (snapshot s t)].
Proof.
  unfold result, final. rewrite save_checkpoint_run. cbv zeta.
  unfold CheckpointManager.write_files.
  destruct (env_disk_fault E _) as [k|]; simpl.
  - destruct k as [|[|[|[|k]]]]; simpl; try discriminate; intros _;
      repeat split; now rewrite <- app_assoc.
  - intros _. repeat split; now rewrite <- app_assoc.
Qed.

(** Rebuilding the entries of a snapshot: each one is constructed anew, with
    the clock read at that moment; nothing else changes. *)
Lemma rebuild_entries (E : Env) (ds : list EntryDict) (s : state) :
  exists es s',
    map_M (fun entry => bind (now E) (fun t => ret (from_dict t entry))) ds s = (Ok es, s') /\
    Forall2 (fun d e => exists t, e = from_dict t d) ds es /\
    visited_pages s' = visited_pages s /\
    visited_categories s' = visited_categories s /\
    failed_pages s' = failed_pages s /\
    scraped_entries s' = scraped_entries s.
Proof.
  revert s. induction ds as [|d ds IH]; intros s; simpl.
  - exists [], s. repeat split; constructor.
  - destruct (IH (log_event (EvNow (env_now E (trace s))) s))
      as (es & s' & Hrun & Hall & Hvp & Hvc & Hfp & Hse).
    exists (from_dict (env_now E (trace s)) d :: es), s'.
    split; [|split; [constructor; eauto|auto]].
    unfold bind at 1. unfold now at 1. unfold bind at 1. unfold ret at 1.
    unfold bind at 1. rewrite Hrun. reflexivity.
Qed.

(** The run of [load_checkpoint] on a directory whose pickle file is a
    complete dump. *)
Lemma load_checkpoint_run (E : Env) (s : state) (d : CheckpointData) :
  pickle_file s = Some (Complete d) ->
  WikipediaScraper.load_checkpoint E s =
  let s1 := set_failed_pages (cd_failed_pages d)
              (set_visited_categories (list_to_set (cd_visited_categories d))
                 (set_visited_pages (list_to_set (cd_visited_pages d)) s)) in
  match map_M (fun entry => bind (now E) (fun t => ret (from_dict t entry)))
              (cd_scraped_entries d) s1 with
  | (Ok es, s2) => (Ok tt, set_scraped_entries es s2)
  | (Raise e, s2) => (Raise e, s2)
  end.
Proof.
  intros H. unfold WikipediaScraper.load_checkpoint, CheckpointManager.load_checkpoint.
  unfold bind at 1. unfold bind at 1. unfold get at 1. rewrite H. unfold ret at 1.
  cbv zeta. unfold bind at 1. unfold modify at 1.
  unfold bind at 1. unfold modify at 1.
  unfold bind at 1. unfold modify at 1.
  unfold bind at 1.
  reflexivity.
Qed.

(** What a resume restores: both visited sets, the failed pages, and every
    field of every accepted entry except [scraped_at]. *)
Lemma resume_restores_all_but_scraped_at (E : Env) (s : state) :
  result (WikipediaScraper.save_checkpoint E) s = Ok tt ->
  let s' := final (save_then_resume E) s in
  visited_pages s' = visited_pages s /\
  visited_categories s' = visited_categories s /\
  failed_pages s' = failed_pages s /\
  Forall2 same_but_scraped_at (scraped_entries s) (scraped_entries s').
Proof.
  intros Hok. pose proof (save_checkpoint_returns E s Hok) as Hs. cbv zeta in Hs.
  destruct Hs as (Hpk & _ & _ & _ & _ & _ & _).
  unfold result in Hok. unfold final in Hpk.
  destruct (WikipediaScraper.save_checkpoint E s) as [r s1] eqn:Hsave.
  simpl in Hok, Hpk. subst r.
  destruct (rebuild_entries E (cd_scraped_entries (snapshot s (env_now E (trace s))))
              (set_failed_pages (cd_failed_pages (snapshot s (env_now E (trace s))))
                 (set_visited_categories
                    (list_to_set (cd_visited_categories (snapshot s (env_now E (trace s)))))
                    (set_visited_pages
                       (list_to_set (cd_visited_pages (snapshot s (env_now E (trace s)))))
                       (restart s1)))))
    as (es & s2 & Hrun & Hall & Hvp & Hvc & Hfp & _).
  assert (Hfin : final (save_then_resume E) s = set_scraped_entries es s2).
  { unfold final, save_then_resume. rewrite (bind_ok _ _ _ _ _ Hsave).
    unfold bind at 1. unfold modify at 1.
    rewrite (load_checkpoint_run E (restart s1) _ Hpk). cbv zeta.
    rewrite Hrun. reflexivity. }
  cbv zeta. rewrite Hfin. simpl in Hvp, Hvc, Hfp |- *.
  rewrite Hvp, Hvc, Hfp, !list_to_set_elements_L. repeat split.
  simpl in Hall. clear -Hall. revert es Hall.
  induction (scraped_entries s) as [|e l IH]; intros es Hall; simpl in Hall.
  - inversion Hall. constructor.
  - inversion Hall as [|d e' ds es' [t Ht] Hrest]; subst. constructor; [|apply IH, Hrest].
    unfold same_but_scraped_at. simpl. repeat split.
Qed.

(** C1 (the code departs from the claim).  The claim asks that a saved and
    reloaded progress state has entries equal to the saved ones field for
    field, [scraped_at] included.  On the state with the single entry
    [phaser], scraped at 2024-01-01T00:00:00, saving and resuming succeeds,
    yet the reloaded entry carries the clock reading of the resume: the
    constructor's [__post_init__] overwrites the saved [scraped_at], so the
    reloaded list differs from the saved one. *)
Theorem resume_resets_scraped_at :
  let s := one_entry_state in
  let s' := final (save_then_resume quiet_env) s in
  result (save_then_resume quiet_env) s = Ok tt /\
  map scraped_at (scraped_entries s) = ["2024-01-01T00:00:00"%string] /\
  map scraped_at (scraped_entries s') = ["2"%string] /\
  scraped_entries s' <> scraped_entries s.
Proof.
  cbv zeta. split; [vm_compute; reflexivity|].
  split; [reflexivity|]. split; [vm_compute; reflexivity|].
  intros H. apply (f_equal (map scraped_at)) in H. vm_compute in H. discriminate H.
Qed.

(** ** Checkpoints: a save that fails part-way *)

(** [load_checkpoint] only reads the two files. *)
Lemma manager_load_checkpoint_run (s : state) :
  CheckpointManager.load_checkpoint s =
  (Ok match pickle_file s with
      | Some (Complete d) => Some d
      | Some Partial => None
      | None => match json_file s with
                | Some (Complete d) => Some d
                | _ => None
                end
      end, s).
Proof.
  unfold CheckpointManager.load_checkpoint, bind, get, ret.
  destruct (pickle_file s) as [[d|]|]; try reflexivity.
  destruct (json_file s) as [[d|]|]; reflexivity.
Qed.

(** C2 (counterexample).  The directory holds the snapshot of a successful
    save and [load_checkpoint] returns it.  A second save that fails while
    it dumps the pickle file (after three of its four writes) raises, and
    afterwards [load_checkpoint] returns the empty dictionary: the earlier
    snapshot is no longer loadable. *)
Lemma failed_save_loses_previous_snapshot :
  let d := snapshot one_entry_state "0" in
  holds_snapshot d saved_state /\
  result CheckpointManager.load_checkpoint saved_state = Ok (Some d) /\
  result (WikipediaScraper.save_checkpoint (faulty_disk_env 3)) saved_state
    = Raise Exception /\
  result CheckpointManager.load_checkpoint
    (final (WikipediaScraper.save_checkpoint (faulty_disk_env 3)) saved_state)
    = Ok None.
Proof. vm_compute. repeat split. Qed.

(** C2 (amended).  [save_checkpoint] rewrites both files in place, the JSON
    file first and the pickle file second; there is no write-new-then-replace
    step.  On a directory that holds an earlier snapshot [d]:
    - a save that fails before the pickle file is opened for writing (fewer
      than three of the four writes done) raises and [load_checkpoint] still
      returns [d];
    - a save that fails once the pickle file has been opened (three writes
      done) raises and [load_checkpoint] returns the empty dictionary;
    - a save that does not fail returns and [load_checkpoint] returns the new
      snapshot. *)
Theorem save_checkpoint_in_place (E : Env) (s : state) (d : CheckpointData) :
  holds_snapshot d s ->
  let s2 := log_event (EvSave (snapshot s (env_now E (trace s))))
              (log_event (EvNow (env_now E (trace s))) s) in
  let r := result (WikipediaScraper.save_checkpoint E) s in
  let loaded := result CheckpointManager.load_checkpoint
                  (final (WikipediaScraper.save_checkpoint E) s) in
  match env_disk_fault E (trace s2) with
  | Some k =>
      if (k <? 3)%nat then r = Raise Exception /\ loaded = Ok (Some d)
      else if (k <? 4)%nat then r = Raise Exception /\ loaded = Ok None
      else r = Ok tt /\ loaded = Ok (Some (snapshot s (env_now E (trace s))))
  | None => r = Ok tt /\ loaded = Ok (Some (snapshot s (env_now E (trace s))))
  end.
Proof.
  intros [Hjson Hpickle]. cbv zeta. unfold result, final.
  rewrite manager_load_checkpoint_run, save_checkpoint_run. cbv zeta.
  destruct (env_disk_fault E _) as [k|].
  - destruct k as [|[|[|[|k]]]]; simpl; rewrite ?Hpickle; auto.
  - simpl. auto.
Qed.

(** C2, an instance: the save fails after one write, the earlier snapshot is
    still loaded. *)
Lemma save_checkpoint_in_place_witness :
  holds_snapshot (snapshot one_entry_state "0") saved_state /\
  result (WikipediaScraper.save_checkpoint (faulty_disk_env 1)) saved_state
    = Raise Exception /\
  result CheckpointManager.load_checkpoint
    (final (WikipediaScraper.save_checkpoint (faulty_disk_env 1)) saved_state)
    = Ok (Some (snapshot one_entry_state "0")).
Proof.
  assert (H : holds_snapshot (snapshot one_entry_state "0") saved_state)
    by (vm_compute; split; reflexivity).
  split; [exact H|].
  exact (save_checkpoint_in_place (faulty_disk_env 1) saved_state _ H).
Defined.

(** ** The classifier *)

Section ClassifierFacts.
Import ScraperConfig ContentClassifier Reference.

Lemma fold_add_if (p : string -> bool) (k : Z) (l : list string) (a : Z) :
  fold_left (fun score w => if p w then score + k else score) l a
  = a + k * Z.of_nat (length (List.filter p l)).
Proof.
  revert a. induction l as [|w l IH]; intros a; simpl; [lia|].
  rewrite IH. destruct (p w); simpl length; lia.
Qed.

Lemma count_matches_how_many (words : list string) (text : string) :
  count_matches words text = how_many words [text].
Proof.
  unfold count_matches, how_many, present_in.
  induction words as [|w l IH]; simpl; [reflexivity|].
  rewrite IH, orb_false_r. destruct (Str.contains w text); simpl length; lia.
Qed.

Lemma how_many_nonneg (words texts : list string) : 0 <= how_many words texts.
Proof. unfold how_many. lia. Qed.

Lemma type_score_label_score (c : TechClassifier) (text : string) :
  type_score c text = label_score c text.
Proof.
  unfold type_score, label_score. rewrite !count_matches_how_many.
  rewrite !Z.gtb_ltb. destruct (_ && _); lia.
Qed.

Lemma keep_best_fold (scored : list (string * Z)) (l0 : string) (s0 : Z) :
  let r := fold_left Reference.keep_best scored (l0, s0) in
  (Forall (fun p => snd p <= s0) scored /\ r = (l0, s0))
  \/ (exists before after,
        scored = before ++ r :: after /\ s0 < snd r /\
        Forall (fun p => snd p < snd r) before /\
        Forall (fun p => snd p <= snd r) after).
Proof.
  revert l0 s0. induction scored as [|[l s] scored IH]; intros l0 s0; simpl.
  - left. split; [constructor | reflexivity].
  - replace (Reference.keep_best (l0, s0) (l, s)) with (if s >? s0 then (l, s) else (l0, s0))
      by reflexivity.
    destruct (s >? s0) eqn:Hgt.
    + apply Z.gtb_lt in Hgt. right.
      destruct (IH l s) as [[Hall Hr] | (before & after & Hsplit & Hlt & Hb & Ha)].
      * exists [], scored. cbv zeta in Hr. rewrite Hr. simpl.
        repeat split; [lia | constructor | exact Hall].
      * exists ((l, s) :: before), after. cbv zeta in Hsplit.
        repeat split; [simpl; congruence | lia | | exact Ha].
        constructor; [simpl; lia | exact Hb].
    + rewrite Z.gtb_ltb in Hgt. apply Z.ltb_ge in Hgt.
      destruct (IH l0 s0) as [[Hall Hr] | (before & after & Hsplit & Hlt & Hb & Ha)].
      * left. split; [constructor; [simpl; lia | exact Hall] | exact Hr].
      * right. exists ((l, s) :: before), after. cbv zeta in Hsplit.
        repeat split; [simpl; congruence | exact Hlt | | exact Ha].
        constructor; [simpl; lia | exact Hb].
Qed.

(** The loop of the code is [Reference.keep_best] over the table of label scores. *)
Lemma best_label_fold (text : string) (table : list (string * TechClassifier))
      (best : string * Z) :
  fold_left (fun best item =>
               let '(best_type, best_score) := best in
               let '(tech_type, classifier) := item in
               let score := type_score classifier text in
               if score >? best_score then (tech_type, score)
               else (best_type, best_score)) table best
  = fold_left Reference.keep_best
      (map (fun item => (fst item, label_score (snd item) text)) table) best.
Proof.
  revert best. induction table as [|[l c] table IH]; intros [bt bs]; simpl; [reflexivity|].
  rewrite <- IH. unfold Reference.keep_best. simpl. rewrite type_score_label_score. reflexivity.
Qed.

Lemma confidence_bounds (n : Z) :
  0 <= n -> (0 <= Qmin 1 (inject_Z n / 8) <= 1)%Q.
Proof.
  intros Hn. split.
  - apply Q.min_glb; [discriminate|].
    unfold Qle, Qdiv, Qmult, Qinv, inject_Z. simpl. lia.
  - apply Q.le_min_l.
Qed.

Lemma score_either (k : Z) (l : list string) (text category_text : string) (a : Z) :
  fold_left (fun score w =>
               if Str.contains w text || Str.contains w category_text
               then score + k else score) l a
  = a + k * how_many l [text; category_text].
Proof.
  unfold how_many, present_in. revert a.
  induction l as [|w l IH]; intros a; simpl; [lia|].
  rewrite IH, orb_false_r.
  destruct (_ || _); simpl length; lia.
Qed.

Lemma score_text (k : Z) (l : list string) (text : string) (a : Z) :
  fold_left (fun score w => if Str.contains w text then score + k else score) l a
  = a + k * how_many l [text].
Proof.
  unfold how_many, present_in. revert a.
  induction l as [|w l IH]; intros a; simpl; [lia|].
  rewrite IH, orb_false_r.
  destruct (Str.contains w text); simpl length; lia.
Qed.

Lemma how_many_absent (l texts : list string) :
  (forall w t, In w l -> In t texts -> Str.contains w t = false) ->
  how_many l texts = 0.
Proof.
  intros H. unfold how_many.
  replace (List.filter (present_in texts) l) with (@nil string); [reflexivity|].
  induction l as [|w l IH]; simpl; [reflexivity|].
  assert (Hw : present_in texts w = false).
  { unfold present_in. apply not_true_is_false. intros Hex.
    apply existsb_exists in Hex. destruct Hex as (t & Ht & Hc).
    rewrite (H w t) in Hc; [discriminate | now left | exact Ht]. }
  rewrite Hw. apply IH. intros w' t Hw' Ht. apply H; [now right | exact Ht].
Qed.

Lemma domain_score_nonneg (text category_text : string) :
  0 <= domain_score text category_text.
Proof.
  unfold domain_score.
  pose proof (how_many_nonneg strong [text; category_text]).
  pose proof (how_many_nonneg franchises [text; category_text]).
  pose proof (how_many_nonneg tech_context [text]). lia.
Qed.

Lemma no_vocabulary_domain (text category_text : string) :
  no_vocabulary text category_text -> domain_score text category_text = 0.
Proof.
  intros (Hsf & Htc & _). unfold domain_score.
  rewrite !how_many_absent; [reflexivity | | |].
  - intros w t Hw [<-|[]]. now apply Htc.
  - intros w t Hw [<-|[<-|[]]]; apply Hsf; apply in_or_app; now right.
  - intros w t Hw [<-|[<-|[]]]; apply Hsf; apply in_or_app; now left.
Qed.

Lemma no_vocabulary_labels (text category_text : string) :
  no_vocabulary text category_text ->
  Forall (fun p => snd p = 0) (label_scores text).
Proof.
  intros (_ & _ & Hkw). unfold label_scores. apply List.Forall_forall.
  intros p Hp. apply in_map_iff in Hp. destruct Hp as (item & <- & Hitem). simpl.
  unfold label_score. rewrite !how_many_absent; [reflexivity | |].
  - intros w t Hw [<-|[]]. apply (Hkw item); [exact Hitem | apply in_or_app; now right].
  - intros w t Hw [<-|[]]. apply (Hkw item); [exact Hitem | apply in_or_app; now left].
Qed.
End ClassifierFacts.

(** C3.  For every title, body and list of category titles, the result of
    [is_sci_fi_technology] is the one the reference definition gives: with
    [domain] the domain score (3 per strong indicator and 4 per franchise
    name present in the lowercased title+body text or in the lowercased
    joined category text, 2 per tech-context phrase present in the title+body
    text), and the six labels scored by keywords present times weight plus
    context words present times 2 plus 3 when both occur, the returned label
    is the first one reaching the highest positive score (the default
    "technology" with score 0 when no label scores), the decision is
    [domain >= 2] and [best >= 2], and the confidence is
    [min(1, (domain + best) / 8)].  The confidence lies between 0 and 1, and
    when no vocabulary word occurs it is 0 and the decision is false. *)
Theorem is_sci_fi_technology_reference (title content : string) (categories : list string) :
  let text := Str.lower (title +:+ " " +:+ content) in
  let category_text := Str.lower (Str.join " " categories) in
  let domain := Reference.domain_score text category_text in
  let '(is_target, label, confidence) :=
    ContentClassifier.is_sci_fi_technology title content categories in
  exists best,
    Reference.wins (Reference.label_scores text) label best /\
    is_target = (domain >=? 2) && (best >=? 2) /\
    confidence = Qmin 1 (inject_Z (domain + best) / 8) /\
    (0 <= confidence <= 1)%Q /\
    (Reference.no_vocabulary text category_text ->
     (confidence == 0)%Q /\ is_target = false).
Proof.
  cbv zeta. unfold ContentClassifier.is_sci_fi_technology. cbv zeta.
  rewrite !score_either, score_text, best_label_fold.
  fold (Reference.label_scores (Str.lower (title +:+ " " +:+ content))).
  pose proof (keep_best_fold
                (Reference.label_scores (Str.lower (title +:+ " " +:+ content)))
                "technology" 0) as Hbest.
  cbv zeta in Hbest.
  destruct (fold_left Reference.keep_best _ _) as [label best].
  set (text := Str.lower (title +:+ " " +:+ content)) in *.
  set (category_text := Str.lower (Str.join " " categories)) in *.
  replace (0 + 3 * Reference.how_many ScraperConfig.strong [text; category_text]
           + 4 * Reference.how_many ScraperConfig.franchises [text; category_text]
           + 2 * Reference.how_many ScraperConfig.tech_context [text])
    with (Reference.domain_score text category_text)
    by (unfold Reference.domain_score; lia).
  pose proof (domain_score_nonneg text category_text) as Hdom.
  assert (Hb0 : 0 <= best).
  { destruct Hbest as [[_ Heq] | (_ & _ & _ & Hlt & _)];
      [inversion Heq; lia | simpl in Hlt; lia]. }
  exists best. split; [|split; [reflexivity | split; [reflexivity | split]]].
  - destruct Hbest as [[Hall Heq] | (before & after & Hsplit & Hlt & Hb & Ha)].
    + left. inversion Heq. auto.
    + right. exists before, after. simpl in *. auto.
  - apply confidence_bounds. lia.
  - intros Hno. rewrite (no_vocabulary_domain _ _ Hno).
    assert (Hzero : best = 0).
    { pose proof (no_vocabulary_labels _ _ Hno) as Hl.
      destruct Hbest as [[_ Heq] | (before & after & Hsplit & Hlt & _)];
        [inversion Heq; reflexivity|].
      rewrite Hsplit in Hl. apply Forall_app in Hl. destruct Hl as [_ Hl].
      inversion Hl as [|? ? Hhd _]. simpl in Hhd, Hlt. lia. }
    subst best. split; reflexivity.
Qed.

(** C3, an instance: the empty title and body contain no vocabulary word. *)
Lemma is_sci_fi_technology_reference_witness :
  Reference.no_vocabulary " " "" /\
  fst (ContentClassifier.is_sci_fi_technology "" "" []) = (false, "technology"%string) /\
  (snd (ContentClassifier.is_sci_fi_technology "" "" []) == 0)%Q.
Proof.
  assert (Hno : Reference.no_vocabulary " " "").
  { split; [|split].
    - intros w Hw. simpl in Hw.
      repeat (destruct Hw as [<-|Hw]; [split; reflexivity|]). destruct Hw.
    - intros w Hw. simpl in Hw.
      repeat (destruct Hw as [<-|Hw]; [reflexivity|]). destruct Hw.
    - intros item w Hi Hw. simpl in Hi.
      repeat (destruct Hi as [<-|Hi];
              [simpl in Hw; repeat (destruct Hw as [<-|Hw]; [reflexivity|]);
               destruct Hw|]).
      destruct Hi. }
  split; [exact Hno|]. split; [reflexivity|].
  destruct (is_sci_fi_technology_reference "" "" []) as (best & _ & _ & _ & _ & H).
  exact (proj1 (H Hno)).
Defined.

(** ** The exclusion pre-check *)

Section ExclusionFacts.
Import ScraperConfig ContentClassifier.

Lemma app_cons (c : ascii) (a b : string) :
  String c a +:+ b = String c (a +:+ b).
Proof. reflexivity. Qed.

Lemma lower_app (a b : string) :
  Str.lower (a +:+ b) = Str.lower a +:+ Str.lower b.
Proof.
  induction a as [|c a IH]; [reflexivity|].
  rewrite app_cons. simpl. rewrite IH. reflexivity.
Qed.

Lemma app_assoc_string (a b c : string) : (a +:+ b) +:+ c = a +:+ (b +:+ c).
Proof.
  induction a as [|x a IH]; [reflexivity|].
  rewrite !app_cons, IH. reflexivity.
Qed.

(** A match that starts right after the character [c] is found by the
    search, whatever precedes. *)
Lemma search_from_skip (p : pattern) (before : string) (c : ascii) (rest : string)
      (prev : option ascii) :
  Re.match_here p (Some c) rest = true ->
  Re.search_from p prev (before +:+ String c rest) = true.
Proof.
  intros Hm.
  assert (Hrest : Re.search_from p (Some c) rest = true)
    by (destruct rest; simpl; rewrite Hm; reflexivity).
  revert prev. induction before as [|y before IH]; intros prev.
  - change (Re.match_here p prev (String c rest)
            || Re.search_from p (Some c) rest = true).
    rewrite Hrest. apply orb_true_r.
  - rewrite app_cons.
    change (Re.match_here p prev (String y (before +:+ String c rest))
            || Re.search_from p (Some y) (before +:+ String c rest) = true).
    rewrite IH. apply orb_true_r.
Qed.

Lemma count_plot (text : string) (l : list pattern) :
  fold_right (fun pattern n => if Re.search pattern text then 1 + n else n) 0 l
  = Z.of_nat (length (List.filter (fun pattern => Re.search pattern text) l)).
Proof.
  induction l as [|p l IH]; simpl; [reflexivity|].
  rewrite IH. destruct (Re.search p text); simpl length; lia.
Qed.
End ExclusionFacts.

(** C4.  For every title and body, [is_excluded_content] returns true exactly
    when the lowercased title+body text matches the list/index-page pattern,
    or at least one biographical-person pattern, or more than two of the
    plot/narrative patterns; otherwise it returns false.  In particular a
    body that contains "is an actor who portrayed by" is excluded, whatever
    the title and whatever else the body contains. *)
Theorem is_excluded_content_spec (title content : string) :
  let text := Str.lower (title +:+ " " +:+ content) in
  (ContentClassifier.is_excluded_content title content = true <->
     (Re.search ScraperConfig.list_pages text = true
      \/ (exists pattern, In pattern ScraperConfig.person_patterns
                          /\ Re.search pattern text = true)
      \/ 2 < Z.of_nat (length (List.filter (fun pattern => Re.search pattern text)
                                           ScraperConfig.plot_patterns))))
  /\ (forall before after,
        ContentClassifier.is_excluded_content title
          (before +:+ "is an actor who portrayed by" +:+ after) = true).
Proof.
  cbv zeta. split.
  - unfold ContentClassifier.is_excluded_content. cbv zeta. rewrite count_plot.
    destruct (Re.search ScraperConfig.list_pages _) eqn:Hlist.
    { split; auto. }
    destruct (existsb _ ScraperConfig.person_patterns) eqn:Hperson.
    { split; auto. intros _. right; left.
      apply existsb_exists in Hperson. exact Hperson. }
    destruct (_ >? 2) eqn:Hplot.
    { split; auto. intros _. right; right. apply Z.gtb_lt in Hplot. exact Hplot. }
    split; [discriminate|].
    intros [H | [(p & Hin & Hp) | H]].
    + discriminate.
    + assert (existsb (fun pattern => Re.search pattern
                (Str.lower (title +:+ " " +:+ content))) ScraperConfig.person_patterns = true)
        as Hex by (apply existsb_exists; eauto).
      congruence.
    + rewrite Z.gtb_ltb in Hplot. apply Z.ltb_ge in Hplot. lia.
  - intros before after. unfold ContentClassifier.is_excluded_content. cbv zeta.
    destruct (Re.search ScraperConfig.list_pages _); [reflexivity|].
    replace (existsb _ ScraperConfig.person_patterns) with true; [reflexivity|].
    symmetry. apply existsb_exists.
    exists [ScraperConfig.Bound;
            ScraperConfig.Alt ["actor"; "actress"; "character"; "person"; "individual"]%string;
            ScraperConfig.Bound].
    split; [simpl; auto|].
    unfold Re.search.
    rewrite !lower_app.
    change (Str.lower "is an actor who portrayed by")
      with ("is an" +:+ String " " "actor who portrayed by")%string.
    change (Str.lower " ") with " "%string.
    rewrite <- !app_assoc_string.
    rewrite (app_assoc_string _ (String " " "actor who portrayed by") (Str.lower after)).
    apply search_from_skip. reflexivity.
Qed.

(** ** Invariants of the crawl *)

Section CrawlInvariant.
Context (E : Env) (C : Settings).
Context (Ppages Pcats : gset string -> Prop) (Pev : event -> Prop).
Hypothesis Ppages_add : forall X t, Ppages X -> Ppages ({[t]} ∪ X).
Hypothesis Pcats_add :
  forall X n d, d <= max_category_depth C -> Pcats X ->
                Pcats ({[WikipediaScraper.category_depth_key n d]} ∪ X).
Hypothesis Pev_other :
  forall ev, match ev with EvGetMembers _ _ _ => True | _ => Pev ev end.
Hypothesis Pev_members :
  forall c l d, d <= max_category_depth C -> Pev (EvGetMembers c l d).

Let Inv := crawl_invariant Ppages Pcats Pev.

Lemma inv_log (ev : event) (s : state) :
  Pev ev -> Inv s -> Inv (log_event ev s).
Proof.
  intros Hev (Hp & Hc & Ht). repeat split; simpl; auto.
  apply Forall_app. split; [exact Ht | constructor; [exact Hev | constructor]].
Qed.

Lemma inv_now : preserves Inv (now E).
Proof. intros s H. apply inv_log; [apply (Pev_other (EvNow _)) | exact H]. Qed.

Lemma inv_blocking : preserves Inv (blocking E).
Proof.
  intros s H. unfold final, blocking. destruct (env_signal E (trace s)); exact H.
Qed.

Lemma inv_sleep : preserves Inv (sleep E).
Proof.
  apply preserves_bind; [|intros _; apply inv_blocking].
  apply preserves_modify. intros s. apply inv_log, (Pev_other EvSleep).
Qed.

Lemma inv_answer {A} (f : state -> A) : preserves Inv (fun s => (Ok (f s), s)).
Proof. intros s H. exact H. Qed.

Lemma inv_get_page_content (title : string) :
  preserves Inv (get_page_content E title).
Proof.
  apply preserves_bind.
  - apply preserves_modify. intros s. apply inv_log, (Pev_other (EvGetPage _)).
  - intros _. apply preserves_try_except; [|apply preserves_ret].
    apply preserves_bind; [apply inv_blocking|]. intros _.
    apply (inv_answer (fun s => env_page E (trace s) title)).
Qed.

Lemma inv_get_category_members (category : string) (limit depth : Z) :
  depth <= max_category_depth C ->
  preserves Inv (get_category_members E category limit depth).
Proof.
  intros Hd. apply preserves_bind.
  - apply preserves_modify. intros s. apply inv_log, Pev_members, Hd.
  - intros _. apply preserves_try_except.
    + apply preserves_bind; [apply inv_blocking|]. intros _.
      apply (inv_answer (fun s => env_members E (trace s) category limit)).
    + apply (inv_answer (fun s => env_members E (trace s) category limit)).
Qed.

Lemma inv_write_files (fault : option nat) (d : CheckpointData) :
  preserves Inv (CheckpointManager.write_files fault d).
Proof.
  intros s H. unfold final, CheckpointManager.write_files.
  destruct fault as [[|[|[|[|k]]]]|]; exact H.
Qed.

Lemma inv_manager_save vp vc es fp :
  preserves Inv (CheckpointManager.save_checkpoint E vp vc es fp).
Proof.
  apply preserves_bind; [apply inv_now|]. intros t.
  apply preserves_bind.
  - apply preserves_modify. intros s. apply inv_log, (Pev_other (EvSave _)).
  - intros _. apply preserves_bind; [apply preserves_get|]. intros s.
    apply inv_write_files.
Qed.

Lemma inv_save_checkpoint : preserves Inv (WikipediaScraper.save_checkpoint E).
Proof.
  apply preserves_bind; [apply preserves_get|]. intros s. apply inv_manager_save.
Qed.

Lemma inv_export_data : preserves Inv (WikipediaScraper.export_data E).
Proof.
  apply preserves_bind; [apply preserves_get|]. intros s.
  apply preserves_bind; [apply inv_now|]. intros t.
  apply preserves_bind.
  - apply preserves_modify. intros s0. apply inv_log, (Pev_other (EvExport _)).
  - intros _. apply preserves_bind; [apply preserves_get|]. intros s0.
    destruct (env_disk_fault E (trace s0)); [apply preserves_raise | apply preserves_ret].
Qed.

Lemma inv_process_page (page_title category : string) :
  preserves Inv (WikipediaScraper.process_page E page_title category).
Proof.
  apply preserves_bind_get. intros s Hs.
  destruct (bool_decide _); [exact Hs|].
  apply preserves_bind; [| |exact Hs].
  - apply preserves_modify. intros s0 (Hp & Hc & Ht). destruct Hs as (Hp' & _).
    repeat split; simpl; auto.
  - intros _. apply preserves_try_except.
    + apply preserves_bind; [apply inv_get_page_content|].
      intros [|p|]; [apply preserves_ret | | apply preserves_raise].
      cbv zeta.
      destruct (len (p_extract p) <? ScraperConfig.MIN_CONTENT_LENGTH);
        [apply preserves_ret|].
      destruct (ContentClassifier.is_excluded_content _ _); [apply preserves_ret|].
      destruct (ContentClassifier.is_sci_fi_technology _ _ _) as [[is_tech tech_type] confidence].
      destruct (negb is_tech); [apply preserves_ret|].
      destruct (negb _); [apply preserves_ret|].
      apply preserves_bind; [apply inv_now | intros t; apply preserves_ret].
    + apply preserves_bind_get. intros s0 Hs0.
      apply preserves_bind; [| intros _; apply preserves_ret | exact Hs0].
      apply preserves_modify. intros s1 H1. exact H1.
Qed.

Lemma inv_cycle_guard (normalized_category : string) (current_depth : Z) :
  current_depth <= max_category_depth C ->
  preserves Inv (WikipediaScraper.cycle_guard normalized_category current_depth).
Proof.
  intros Hd. apply preserves_bind_get. intros s Hs.
  destruct (bool_decide _); [exact Hs|].
  apply preserves_bind; [| |exact Hs].
  - apply preserves_modify. intros s0 (Hp & Hc & Ht). destruct Hs as (_ & Hc' & _).
    repeat split; simpl; auto.
  - intros _. apply preserves_bind_get. intros s0 Hs0.
    destruct ((current_depth >? 0) && _); exact Hs0.
Qed.

Lemma inv_page_unit (category_name : string) (entries_found : Z) (page : Member) :
  preserves Inv (WikipediaScraper.page_unit E category_name entries_found page).
Proof.
  apply preserves_bind; [apply inv_process_page|].
  intros [|e entries]; [apply preserves_ret|].
  apply preserves_bind_get. intros s Hs.
  apply preserves_bind; [| |exact Hs].
  - apply preserves_modify. intros s0 H0. exact H0.
  - intros _. cbv zeta.
    destruct (_ mod 10 =? 0); [|apply preserves_ret].
    apply preserves_try_except; [|apply preserves_ret].
    apply preserves_bind; [apply inv_save_checkpoint | intros _; apply preserves_ret].
Qed.

Lemma inv_subcategory_unit (self_call : string -> Z -> Z -> M Z)
      (current_depth entries_found : Z) (subcat : Member) :
  (forall n p, preserves Inv (self_call n p (current_depth + 1))) ->
  preserves Inv
    (WikipediaScraper.subcategory_unit E C self_call current_depth entries_found subcat).
Proof.
  intros Hself. unfold WikipediaScraper.subcategory_unit.
  destruct (ContentClassifier.is_relevant_subcategory _); [|apply preserves_ret].
  apply preserves_try_except; [|apply preserves_ret].
  apply preserves_bind; [apply Hself|]. intros n.
  apply preserves_try_except; [|apply preserves_ret].
  apply preserves_bind; [apply inv_sleep | intros _; apply preserves_ret].
Qed.

Lemma inv_expand_category (self_call : string -> Z -> Z -> M Z)
      (category_name normalized_category : string) (max_pages current_depth : Z) :
  current_depth <= max_category_depth C ->
  (forall n p, preserves Inv (self_call n p (current_depth + 1))) ->
  preserves Inv
    (WikipediaScraper.expand_category E C self_call category_name
       normalized_category max_pages current_depth).
Proof.
  intros Hd Hself.
  apply preserves_bind; [apply inv_get_category_members, Hd|].
  intros [|m members]; [apply preserves_ret|].
  apply preserves_bind.
  - destruct (List.filter _ _); [apply preserves_ret|].
    destruct (max_workers C <=? 0); [apply preserves_raise|].
    apply preserves_for_each. intros acc x. apply inv_page_unit.
  - intros n. destruct (current_depth <? max_category_depth C); [|apply preserves_ret].
    apply preserves_for_each. intros acc x. apply inv_subcategory_unit, Hself.
Qed.

Lemma inv_scrape_category_body (self_call : string -> Z -> Z -> M Z)
      (category_name : string) (max_pages current_depth : Z) :
  (forall n p, preserves Inv (self_call n p (current_depth + 1))) ->
  preserves Inv
    (WikipediaScraper.scrape_category_body E C self_call category_name max_pages current_depth).
Proof.
  intros Hself. unfold WikipediaScraper.scrape_category_body.
  destruct (current_depth >? max_category_depth C) eqn:Hd; [apply preserves_ret|].
  rewrite Z.gtb_ltb in Hd. apply Z.ltb_ge in Hd.
  apply preserves_bind; [apply inv_cycle_guard, Hd|].
  intros [| |]; try apply preserves_ret.
  apply inv_expand_category; [exact Hd | exact Hself].
Qed.

Lemma inv_scrape_category_rec (fuel : nat) (category_name : string)
      (max_pages current_depth : Z) :
  preserves Inv
    (WikipediaScraper.scrape_category_rec E C fuel category_name max_pages current_depth).
Proof.
  revert category_name max_pages current_depth.
  induction fuel as [|fuel IH]; intros category_name max_pages current_depth; simpl.
  - apply inv_scrape_category_body. intros n p. apply preserves_ret.
  - apply inv_scrape_category_body. intros n p. apply IH.
Qed.

Lemma inv_scrape_category (category_name : string) (max_pages current_depth : Z) :
  preserves Inv (WikipediaScraper.scrape_category E C category_name max_pages current_depth).
Proof. apply inv_scrape_category_rec. Qed.

Lemma inv_seed_loop (start_categories : list string) (max_entries : Z) :
  preserves Inv (WikipediaScraper.seed_loop E C start_categories max_entries).
Proof.
  induction start_categories as [|category rest IH]; simpl; [apply preserves_ret|].
  apply preserves_bind_get. intros s Hs.
  destruct (Z.of_nat _ >=? max_entries); [exact Hs|].
  apply preserves_bind; [| intros _; exact IH | exact Hs].
  apply preserves_try_except; [|apply preserves_ret].
  apply preserves_bind; [apply inv_scrape_category|]. intros n.
  apply preserves_bind; [apply inv_save_checkpoint | intros _; apply inv_sleep].
Qed.

Lemma inv_scrape_all (start_categories : option (list string)) (max_entries : Z) :
  preserves Inv (WikipediaScraper.scrape_all E C start_categories max_entries).
Proof.
  apply preserves_try_finally.
  - intros s Hs. pose proof (inv_seed_loop
      (default ScraperConfig.DEFAULT_CATEGORIES start_categories) max_entries s Hs) as H.
    unfold final in *.
    destruct (WikipediaScraper.seed_loop _ _ _ _ s) as [[u|e] s']; simpl in *; [exact H|].
    destruct (WikipediaScraper.caught_by_scrape_all e); exact H.
  - apply preserves_bind; [apply inv_save_checkpoint | intros _; apply inv_export_data].
Qed.

Lemma trace_load_checkpoint :
  preserves (fun st => Forall Pev (trace st)) (WikipediaScraper.load_checkpoint E).
Proof.
  apply preserves_bind.
  - apply preserves_bind_get. intros s Hs.
    destruct (pickle_file s) as [[d|]|]; [exact Hs | exact Hs |].
    destruct (json_file s) as [[d|]|]; exact Hs.
  - intros [d|]; [|apply preserves_ret].
    apply preserves_bind; [apply preserves_modify; auto|]. intros _.
    apply preserves_bind; [apply preserves_modify; auto|]. intros _.
    apply preserves_bind; [apply preserves_modify; auto|]. intros _.
    apply preserves_bind; [|intros es; apply preserves_modify; auto].
    apply preserves_map_M. intros entry.
    apply preserves_bind; [|intros t; apply preserves_ret].
    intros s Hs. unfold final, now. simpl.
    apply Forall_app. split; [exact Hs|].
    constructor; [apply (Pev_other (EvNow _)) | constructor].
Qed.

Lemma inv_resume (s : state) :
  result (WikipediaScraper.save_checkpoint E) s = Ok tt ->
  Inv s -> Inv (final (save_then_resume E) s).
Proof.
  intros Hok Hs.
  destruct (resume_restores_all_but_scraped_at E s Hok) as (Hvp & Hvc & _ & _).
  destruct Hs as (Hp & Hc & Ht).
  split; [rewrite Hvp; exact Hp|]. split; [rewrite Hvc; exact Hc|].
  pose proof (inv_save_checkpoint s (conj Hp (conj Hc Ht))) as (_ & _ & Ht1).
  unfold result in Hok. unfold final in Ht1 |- *. unfold save_then_resume.
  destruct (WikipediaScraper.save_checkpoint E s) as [r s1] eqn:Hsave.
  simpl in Hok, Ht1. subst r. rewrite (bind_ok _ _ _ _ _ Hsave).
  apply (trace_load_checkpoint (restart s1)). exact Ht1.
Qed.

Lemma inv_step (s s' : state) : step E C s s' -> Inv s -> Inv s'.
Proof.
  intros Hstep Hs. destruct Hstep.
  - apply inv_process_page, Hs.
  - apply inv_scrape_category, Hs.
  - apply inv_save_checkpoint, Hs.
  - apply inv_export_data, Hs.
  - apply inv_scrape_all, Hs.
  - apply inv_resume; assumption.
Qed.

Lemma inv_steps (s s' : state) : rtc (step E C) s s' -> Inv s -> Inv s'.
Proof.
  intros Hsteps. induction Hsteps as [|s s1 s2 Hstep _ IH]; [auto|].
  intros Hs. apply IH, (inv_step _ _ Hstep), Hs.
Qed.
End CrawlInvariant.

(** ** The recursion of [scrape_category] *)

Section Unfolding.
Context (E : Env) (C : Settings).

Lemma bind_ext {A B} (m : M A) (k1 k2 : A -> M B) (s : state) :
  (forall a s', k1 a s' = k2 a s') -> bind m k1 s = bind m k2 s.
Proof. intros H. unfold bind. destruct (m s) as [[a|e] s']; auto. Qed.

Lemma try_except_ext {A} (m1 m2 h : M A) (s : state) :
  m1 s = m2 s -> try_except m1 h s = try_except m2 h s.
Proof. intros H. unfold try_except. rewrite H. reflexivity. Qed.

(** The body only consults the recursive call one level deeper, and only
    below the maximum depth. *)
Lemma scrape_category_body_ext (self1 self2 : string -> Z -> Z -> M Z)
      (category_name : string) (max_pages current_depth : Z) (s : state) :
  (current_depth < max_category_depth C ->
   forall n p s', self1 n p (current_depth + 1) s' = self2 n p (current_depth + 1) s') ->
  WikipediaScraper.scrape_category_body E C self1 category_name max_pages current_depth s
  = WikipediaScraper.scrape_category_body E C self2 category_name max_pages current_depth s.
Proof.
  intros Hself. unfold WikipediaScraper.scrape_category_body.
  destruct (current_depth >? max_category_depth C); [reflexivity|].
  apply bind_ext. intros [| |] s1; try reflexivity.
  unfold WikipediaScraper.expand_category.
  apply bind_ext. intros [|m members] s2; [reflexivity|].
  apply bind_ext. intros n s3.
  destruct (current_depth <? max_category_depth C) eqn:Hlt; [|reflexivity].
  apply Z.ltb_lt in Hlt. apply for_each_ext. intros acc x s4.
  unfold WikipediaScraper.subcategory_unit.
  destruct (ContentClassifier.is_relevant_subcategory _); [|reflexivity].
  apply try_except_ext. unfold bind. rewrite (Hself Hlt). reflexivity.
Qed.

(** [scrape_category] satisfies the recursive equation of the method: the
    levels counted by the model never run out. *)
Lemma scrape_category_unfold (category_name : string) (max_pages current_depth : Z)
      (s : state) :
  WikipediaScraper.scrape_category E C category_name max_pages current_depth s
  = WikipediaScraper.scrape_category_body E C (WikipediaScraper.scrape_category E C)
      category_name max_pages current_depth s.
Proof.
  unfold WikipediaScraper.scrape_category at 1.
  destruct (Z_lt_le_dec current_depth (max_category_depth C)) as [Hlt|Hge].
  - replace (Z.to_nat (max_category_depth C - current_depth))
      with (S (Z.to_nat (max_category_depth C - (current_depth + 1)))) by lia.
    simpl. apply scrape_category_body_ext. intros _ n p s'. reflexivity.
  - replace (Z.to_nat (max_category_depth C - current_depth)) with O by lia.
    simpl. apply scrape_category_body_ext. intros Hlt. lia.
Qed.
End Unfolding.

(** ** Pages are processed at most once *)

Section Pages.
Context (E : Env) (C : Settings).

(** A title of the visited set is not processed again: no entry, and the
    state, its history included, is unchanged. *)
Lemma process_page_visited (page_title category : string) (s : state) :
  page_title ∈ visited_pages s ->
  WikipediaScraper.process_page E page_title category s = (Ok [], s).
Proof.
  intros Hin. unfold WikipediaScraper.process_page, bind, get.
  rewrite (bool_decide_eq_true_2 _ Hin). reflexivity.
Qed.

(** The only change [process_page] makes to the visited set is to add the
    title. *)
Lemma process_page_adds (page_title category : string) (s : state) :
  visited_pages (final (WikipediaScraper.process_page E page_title category) s)
  = {[page_title]} ∪ visited_pages s.
Proof.
  destruct (decide (page_title ∈ visited_pages s)) as [Hin|Hout].
  - unfold final. rewrite (process_page_visited _ _ _ Hin). simpl. set_solver.
  - unfold final, WikipediaScraper.process_page. unfold bind at 1. unfold get at 1.
    rewrite (bool_decide_eq_false_2 _ Hout).
    unfold bind at 1. unfold modify at 1.
    set (s1 := set_visited_pages _ s).
    change ({[page_title]} ∪ visited_pages s) with (visited_pages s1).
    generalize s1. clear. intros s.
    apply (preserves_try_except (fun st => visited_pages st = visited_pages s)); [| |reflexivity].
    + apply preserves_bind.
      * intros s0 H0. unfold final, get_page_content, bind, modify, try_except, blocking.
        simpl. destruct (env_signal E _) as [[| |]|]; simpl; exact H0.
      * intros [|p|]; [apply preserves_ret | | apply preserves_raise].
        cbv zeta.
        destruct (len (p_extract p) <? ScraperConfig.MIN_CONTENT_LENGTH);
          [apply preserves_ret|].
        destruct (ContentClassifier.is_excluded_content _ _); [apply preserves_ret|].
        destruct (ContentClassifier.is_sci_fi_technology _ _ _) as [[is_tech tech_type] confidence].
        destruct (negb is_tech); [apply preserves_ret|].
        destruct (negb _); [apply preserves_ret|].
        apply preserves_bind; [|intros t; apply preserves_ret].
        intros s0 H0. exact H0.
    + apply preserves_bind_get. intros s0 H0. exact H0.
Qed.
End Pages.

(** C5.  [process_page] adds the title to the visited-pages set (and changes
    the set in no other way); the title is recorded before the page is
    requested, so from the state it leaves, after any further activity of
    the session (calls of any method, or a resume in a new process from a
    checkpoint written without a fault), a call of [process_page] with the
    same title returns no entry and leaves the state unchanged, history
    included: no page is requested. *)
Theorem page_processed_at_most_once (E : Env) (C : Settings)
    (page_title category : string) (s : state) :
  let s1 := final (WikipediaScraper.process_page E page_title category) s in
  visited_pages s1 = {[page_title]} ∪ visited_pages s /\
  forall s2, rtc (step E C) s1 s2 ->
    page_title ∈ visited_pages s2 /\
    forall category',
      WikipediaScraper.process_page E page_title category' s2 = (Ok [], s2).
Proof.
  cbv zeta. split; [apply process_page_adds|].
  intros s2 Hsteps.
  assert (Hin : page_title ∈ visited_pages s2).
  { refine (proj1 (inv_steps E C (fun X => page_title ∈ X) (fun _ => True) (fun _ => True)
                     _ _ _ _ _ _ Hsteps _)).
    - intros X t H. set_solver.
    - auto.
    - intros []; exact I.
    - auto.
    - split; [|split; [exact I | apply Forall_true; auto]].
      rewrite process_page_adds. set_solver. }
  split; [exact Hin|]. intros category'. apply process_page_visited, Hin.
Qed.

(** C5, an instance: the page 'Phaser' reached from a second category. *)
Lemma page_processed_at_most_once_witness :
  WikipediaScraper.process_page quiet_env "Phaser" "Fictional robots"
    (final (WikipediaScraper.process_page quiet_env "Phaser" "Fictional technology") initial)
  = (Ok [], final (WikipediaScraper.process_page quiet_env "Phaser" "Fictional technology") initial).
Proof.
  exact (proj2 (proj2 (page_processed_at_most_once quiet_env default_settings
                         "Phaser" "Fictional technology" initial) _ (rtc_refl _ _))
               "Fictional robots"%string).
Defined.

(** ** The guard of [scrape_category] *)

(** Closure conditions of the instances of the crawl invariant. *)
Ltac closure :=
  first [ intros; exact I
        | intros []; exact I
        | intros; apply Forall_true; auto
        | intros; set_solver ].

Section Guard.
Context (E : Env) (C : Settings).

Lemma length_app_string (a b : string) :
  String.length (a +:+ b) = (String.length a + String.length b)%nat.
Proof.
  induction a as [|c a IH]; [reflexivity|].
  rewrite app_cons. simpl. rewrite IH. reflexivity.
Qed.

(** The composite key is never the bare name. *)
Lemma category_depth_key_ne (n : string) (d : Z) :
  WikipediaScraper.category_depth_key n d <> n.
Proof.
  intros H. apply (f_equal String.length) in H.
  unfold WikipediaScraper.category_depth_key in H.
  rewrite !length_app_string in H. simpl in H. lia.
Qed.

(** The block under the lock, as a function of the state. *)
Lemma cycle_guard_run (n : string) (d : Z) (s : state) :
  WikipediaScraper.cycle_guard n d s =
  let key := WikipediaScraper.category_depth_key n d in
  if bool_decide (key ∈ visited_categories s) then (Ok WikipediaScraper.AlreadyVisited, s)
  else
    let s1 := set_visited_categories ({[key]} ∪ visited_categories s) s in
    if (d >? 0) && bool_decide (n ∈ visited_categories s1)
    then (Ok WikipediaScraper.VisitedAtOtherDepth, s1)
    else (Ok WikipediaScraper.Proceed, s1).
Proof.
  unfold WikipediaScraper.cycle_guard, bind, get, modify. cbv zeta.
  destruct (bool_decide _); [reflexivity|]. simpl.
  destruct (_ && _); reflexivity.
Qed.

(** The guard adds the composite key to the set, and nothing else. *)
Lemma cycle_guard_adds (n : string) (d : Z) (s : state) :
  visited_categories (final (WikipediaScraper.cycle_guard n d) s)
  = {[WikipediaScraper.category_depth_key n d]} ∪ visited_categories s.
Proof.
  unfold final. rewrite cycle_guard_run. cbv zeta.
  destruct (bool_decide _) eqn:Hk.
  - apply bool_decide_eq_true in Hk. simpl. set_solver.
  - destruct (_ && _); reflexivity.
Qed.

(** The skip on the bare name happens below the top level and only when
    the name was in the set before the call. *)
Lemma cycle_guard_other_depth (n : string) (d : Z) (s s' : state) :
  WikipediaScraper.cycle_guard n d s = (Ok WikipediaScraper.VisitedAtOtherDepth, s') ->
  0 < d /\ n ∈ visited_categories s.
Proof.
  rewrite cycle_guard_run. cbv zeta.
  destruct (bool_decide _); [discriminate|].
  destruct (d >? 0) eqn:Hd; simpl; [|discriminate].
  destruct (bool_decide _) eqn:Hn; [|discriminate].
  intros _. apply Z.gtb_lt in Hd. split; [lia|].
  apply bool_decide_eq_true in Hn.
  apply elem_of_union in Hn. destruct Hn as [Hn|Hn]; [|exact Hn].
  apply elem_of_singleton in Hn. symmetry in Hn.
  destruct (category_depth_key_ne _ _ Hn).
Qed.

(** What runs first establishes a property, what follows preserves it. *)
Lemma final_bind {A B} (P : state -> Prop) (m : M A) (k : A -> M B) (s : state) :
  P (final m s) -> (forall a, preserves P (k a)) -> P (final (bind m k) s).
Proof.
  intros Hm Hk. unfold final, bind in *.
  destruct (m s) as [[a|e] s1]; simpl in *; [apply Hk, Hm | exact Hm].
Qed.

(** Within the depth bound, a call records the composite key, whatever
    happens afterwards. *)
Lemma scrape_category_records (category_name : string) (max_pages d : Z) (s : state) :
  d <= max_category_depth C ->
  WikipediaScraper.category_depth_key (Str.remove_all "Category:" category_name) d
    ∈ visited_categories (final (WikipediaScraper.scrape_category E C category_name max_pages d) s).
Proof.
  intros Hd. set (key := WikipediaScraper.category_depth_key _ d).
  replace (final (WikipediaScraper.scrape_category E C category_name max_pages d) s)
    with (final (WikipediaScraper.scrape_category_body E C
                   (WikipediaScraper.scrape_category E C) category_name max_pages d) s)
    by (unfold final; now rewrite scrape_category_unfold).
  unfold WikipediaScraper.scrape_category_body.
  replace (d >? max_category_depth C) with false
    by (symmetry; rewrite Z.gtb_ltb; apply Z.ltb_ge, Hd).
  enough (crawl_invariant (fun _ => True) (fun X => key ∈ X) (fun _ => True)
            (final (bind (WikipediaScraper.cycle_guard
                            (Str.remove_all "Category:" category_name) d)
                         (fun v => match v with
                                   | WikipediaScraper.Proceed =>
                                       WikipediaScraper.expand_category E C
                                         (WikipediaScraper.scrape_category E C) category_name
                                         (Str.remove_all "Category:" category_name) max_pages d
                                   | _ => ret 0
                                   end)) s)) as (_ & H & _) by exact H.
  apply final_bind.
  - split; [exact I|]. split; [|apply Forall_true; auto].
    rewrite cycle_guard_adds. set_solver.
  - intros [| |]; try apply preserves_ret.
    apply inv_expand_category; try closure; try exact Hd.
    intros n p. apply inv_scrape_category; closure.
Qed.

(** A call whose composite key is recorded returns 0 and changes nothing. *)
Lemma scrape_category_visited (category_name : string) (max_pages d : Z) (s : state) :
  d <= max_category_depth C ->
  WikipediaScraper.category_depth_key (Str.remove_all "Category:" category_name) d
    ∈ visited_categories s ->
  WikipediaScraper.scrape_category E C category_name max_pages d s = (Ok 0, s).
Proof.
  intros Hd Hin. rewrite scrape_category_unfold.
  unfold WikipediaScraper.scrape_category_body.
  replace (d >? max_category_depth C) with false by (symmetry; rewrite Z.gtb_ltb; apply Z.ltb_ge, Hd).
  unfold bind. rewrite cycle_guard_run. cbv zeta.
  rewrite (bool_decide_eq_true_2 _ Hin). reflexivity.
Qed.

(** Beyond the depth bound a call returns 0 at once. *)
Lemma scrape_category_too_deep (category_name : string) (max_pages d : Z) (s : state) :
  max_category_depth C < d ->
  WikipediaScraper.scrape_category E C category_name max_pages d s = (Ok 0, s).
Proof.
  intros Hd. rewrite scrape_category_unfold.
  unfold WikipediaScraper.scrape_category_body.
  replace (d >? max_category_depth C) with true by (symmetry; apply Z.gtb_lt; lia).
  reflexivity.
Qed.
End Guard.

(** C6.  Within the depth bound, a call of [scrape_category] records the
    composite key of the normalized name and the depth.  From the state it
    leaves, after any further activity of the session, a call with the same
    normalized name and the same depth returns 0 and leaves the state
    unchanged: no entry is added and no category members are requested. *)
Theorem category_expansion_idempotent (E : Env) (C : Settings)
    (category_name : string) (max_pages depth : Z) (s : state) :
  depth <= max_category_depth C ->
  let key := WikipediaScraper.category_depth_key
               (Str.remove_all "Category:" category_name) depth in
  let s1 := final (WikipediaScraper.scrape_category E C category_name max_pages depth) s in
  key ∈ visited_categories s1 /\
  forall s2, rtc (step E C) s1 s2 ->
    forall category_name' max_pages',
      Str.remove_all "Category:" category_name' = Str.remove_all "Category:" category_name ->
      WikipediaScraper.scrape_category E C category_name' max_pages' depth s2 = (Ok 0, s2).
Proof.
  intros Hd. cbv zeta.
  pose proof (scrape_category_records E C category_name max_pages depth s Hd) as Hkey.
  split; [exact Hkey|].
  intros s2 Hsteps category_name' max_pages' Hsame.
  apply scrape_category_visited; [exact Hd|]. rewrite Hsame.
  refine (proj1 (proj2 (inv_steps E C (fun _ => True) (fun X => _ ∈ X) (fun _ => True)
                          _ _ _ _ _ _ Hsteps _))); try closure;
    try solve [split; [exact I|]; split; [exact Hkey | closure]].
Qed.

(** C6, an instance: the same category, named with and without its
    namespace prefix, at depth 0. *)
Lemma category_expansion_idempotent_witness :
  let s1 := final (WikipediaScraper.scrape_category quiet_env default_settings
                     "Category:Fictional robots" 500 0) initial in
  WikipediaScraper.scrape_category quiet_env default_settings "Fictional robots" 300 0 s1
  = (Ok 0, s1).
Proof.
  assert (Hd : 0 <= max_category_depth default_settings) by (simpl; lia).
  exact (proj2 (category_expansion_idempotent quiet_env default_settings
                  "Category:Fictional robots" 500 0 initial Hd)
               _ (rtc_refl _ _) "Fictional robots"%string 300 eq_refl).
Defined.

(** C7.  Beyond the configured maximum depth, [scrape_category] returns 0
    and leaves the state unchanged: no category members are requested and
    nothing is marked visited.  Hence, along any session, every request for
    category members is issued at a depth within the bound. *)
Theorem depth_bound (E : Env) (C : Settings)
    (category_name : string) (max_pages depth : Z) (s : state) :
  max_category_depth C < depth ->
  WikipediaScraper.scrape_category E C category_name max_pages depth s = (Ok 0, s) /\
  forall s0 s', Forall (within_depth C) (trace s0) -> rtc (step E C) s0 s' ->
                Forall (within_depth C) (trace s').
Proof.
  intros Hd. split; [apply scrape_category_too_deep, Hd|].
  intros s0 s' Htrace Hsteps.
  refine (proj2 (proj2 (inv_steps E C (fun _ => True) (fun _ => True) (within_depth C)
                          _ _ _ _ _ _ Hsteps _))); try closure;
    try solve [intros c l d Hle; exact Hle];
    try solve [split; [exact I|]; split; [exact I | exact Htrace]].
Qed.

(** C7, an instance: depth 6 under the default maximum depth 5. *)
Lemma depth_bound_witness :
  WikipediaScraper.scrape_category quiet_env default_settings "Category:Fictional robots" 300 6
    initial = (Ok 0, initial).
Proof.
  assert (Hd : max_category_depth default_settings < 6) by (simpl; lia).
  exact (proj1 (depth_bound quiet_env default_settings "Category:Fictional robots" 300 6
                  initial Hd)).
Defined.

(** C10.  Starting from the empty crawl state, and along any session, every
    string in the visited-categories set is a composite key (a normalized
    name, an underscore, a depth).  The guard of [scrape_category] adds the
    composite key and nothing else, and the composite key differs from the
    bare name, so the bare name is never added.  The lookup of the bare name
    therefore skips a category only below the top level and only when the
    name was in the set before the call, that is, when it coincides with a
    composite key recorded earlier. *)
Theorem cycle_guard_records_composite_keys (E : Env) (C : Settings) :
  composite_keys C initial /\
  (forall s s', composite_keys C s -> rtc (step E C) s s' -> composite_keys C s') /\
  (forall n d s,
     visited_categories (final (WikipediaScraper.cycle_guard n d) s)
     = {[WikipediaScraper.category_depth_key n d]} ∪ visited_categories s /\
     WikipediaScraper.category_depth_key n d <> n) /\
  (forall n d s s',
     WikipediaScraper.cycle_guard n d s = (Ok WikipediaScraper.VisitedAtOtherDepth, s') ->
     0 < d /\ n ∈ visited_categories s /\ (composite_keys C s -> composite C n)).
Proof.
  split; [|split; [|split]].
  - intros k Hk. simpl in Hk. set_solver.
  - intros s s' Hs Hsteps.
    refine (proj1 (proj2 (inv_steps E C (fun _ => True)
                            (fun X => forall k, k ∈ X -> composite C k) (fun _ => True)
                            _ _ _ _ _ _ Hsteps _))); try closure;
      try solve [split; [exact I|]; split; [exact Hs | closure]].
    intros X n d Hd HX k Hk. apply elem_of_union in Hk. destruct Hk as [Hk|Hk].
    + apply elem_of_singleton in Hk. exists n, d. split; [exact Hk | exact Hd].
    + apply HX, Hk.
  - intros n d s. split; [apply cycle_guard_adds | apply category_depth_key_ne].
  - intros n d s s' Hrun.
    destruct (cycle_guard_other_depth n d s s' Hrun) as [Hd Hn].
    split; [exact Hd|]. split; [exact Hn|]. intros Hs. apply Hs, Hn.
Qed.

(** C10, an instance: the name [Foo_1] at depth 2 is skipped because the key
    of [Foo] at depth 1 was recorded. *)
Lemma cycle_guard_records_composite_keys_witness :
  let s := set_visited_categories {["Foo_1"%string]} initial in
  fst (WikipediaScraper.cycle_guard "Foo_1" 2 s) = Ok WikipediaScraper.VisitedAtOtherDepth /\
  "Foo_1"%string ∈ visited_categories s.
Proof.
  cbv zeta.
  assert (Hrun : WikipediaScraper.cycle_guard "Foo_1" 2
                   (set_visited_categories {["Foo_1"%string]} initial)
                 = (Ok WikipediaScraper.VisitedAtOtherDepth,
                    set_visited_categories
                      ({["Foo_1_2"%string]} ∪ {["Foo_1"%string]})
                      (set_visited_categories {["Foo_1"%string]} initial)))
    by (vm_compute; reflexivity).
  split; [rewrite Hrun; reflexivity|].
  exact (proj1 (proj2 (proj2 (proj2 (proj2
           (cycle_guard_records_composite_keys quiet_env default_settings)))
           _ _ _ _ Hrun))).
Defined.

(** ** The driver *)

Section Driver.
Context (E : Env) (C : Settings).

Lemma final_try_finally {A} (m : M A) (f : M unit) (s : state) :
  final (try_finally m f) s = final f (final m s).
Proof.
  unfold final, try_finally. destruct (m s) as [r s1]. simpl.
  destruct (f s1) as [[u|e] s2]; reflexivity.
Qed.

Lemma result_try_finally {A} (m : M A) (f : M unit) (s : state) :
  result (try_finally m f) s =
  match result f (final m s) with
  | Ok _ => result m s
  | Raise e => Raise e
  end.
Proof.
  unfold result, final, try_finally. destruct (m s) as [r s1]. simpl.
  destruct (f s1) as [[u|e] s2]; reflexivity.
Qed.

(** Whether it returns or raises, [save_checkpoint] reads the clock once,
    is recorded with the snapshot of the current state, and leaves the
    scraper object as it was; when it raises, it raises an [Exception]. *)
Lemma save_checkpoint_effect (s : state) :
  let t := env_now E (trace s) in
  let s' := final (WikipediaScraper.save_checkpoint E) s in
  visited_pages s' = visited_pages s /\
  visited_categories s' = visited_categories s /\
  scraped_entries s' = scraped_entries s /\
  failed_pages s' = failed_pages s /\
  trace s' = trace s ++ [EvNow t; EvSave (snapshot s t)] /\
  (result (WikipediaScraper.save_checkpoint E) s = Ok tt \/
   result (WikipediaScraper.save_checkpoint E) s = Raise Exception).
Proof.
  unfold result, final. rewrite save_checkpoint_run. cbv zeta.
  unfold CheckpointManager.write_files.
  destruct (env_disk_fault E _) as [[|[|[|[|k]]]]|]; simpl;
    rewrite <- app_assoc; repeat split; auto.
Qed.

Lemma export_data_effect (s : state) :
  let t := env_now E (trace s) in
  let s' := final (WikipediaScraper.export_data E) s in
  visited_pages s' = visited_pages s /\
  visited_categories s' = visited_categories s /\
  scraped_entries s' = scraped_entries s /\
  failed_pages s' = failed_pages s /\
  trace s' = trace s ++ [EvNow t; EvExport (export_args s)].
Proof.
  unfold final, WikipediaScraper.export_data, DataExporter.export_data,
    bind, get, now, modify. simpl.
  destruct (env_disk_fault E _); simpl; rewrite <- app_assoc; repeat split.
Qed.
End Driver.

(** C8 (the code departs from the claim).  The claim asks that the driver
    performs a final checkpoint flush and a final export on every path, and
    the [finally] block of [scrape_all] attempts both.  On a disk that
    refuses every write, a crawl of one category from the state with the
    single entry [phaser] ends differently: the save inside the loop fails
    and is tolerated by its handler, so the loop ends normally, but the
    final [save_checkpoint] stands unguarded before [export_data], so its
    exception leaves the [finally] block, the driver ends with that
    exception, and [export_data] is never called. *)
Lemma scrape_all_skips_export_when_save_fails :
  let run := WikipediaScraper.scrape_all (faulty_disk_env 0) default_settings
               (Some ["Fictional robots"%string]) 10 in
  result (WikipediaScraper.seed_loop (faulty_disk_env 0) default_settings
            ["Fictional robots"%string] 10) one_entry_state = Ok tt /\
  result run one_entry_state = Raise Exception /\
  existsb is_export (trace (final run one_entry_state)) = false.
Proof. vm_compute. split; [reflexivity|]. split; reflexivity. Qed.

(** X18.  The final path of [scrape_all], on every run.  However the loop
    over the start categories ends (it returns, it is interrupted, or an
    exception escapes it), [scrape_all] then calls [save_checkpoint] on the
    state accumulated so far.  When that call returns, [export_data] is
    called next, on the same accumulated state.  When that call raises,
    [export_data] is not called and the driver ends with the exception.  In
    both cases the visited sets, the accepted entries and the failed pages
    are those the loop left. *)
Theorem scrape_all_final_flush (E : Env) (C : Settings)
    (start_categories : option (list string)) (max_entries : Z) (s : state) :
  let s1 := final (WikipediaScraper.seed_loop E C
                     (default ScraperConfig.DEFAULT_CATEGORIES start_categories)
                     max_entries) s in
  let s' := final (WikipediaScraper.scrape_all E C start_categories max_entries) s in
  let t := env_now E (trace s1) in
  visited_pages s' = visited_pages s1 /\
  visited_categories s' = visited_categories s1 /\
  scraped_entries s' = scraped_entries s1 /\
  failed_pages s' = failed_pages s1 /\
  match result (WikipediaScraper.save_checkpoint E) s1 with
  | Ok _ =>
      exists t', trace s' = trace s1 ++ [EvNow t; EvSave (snapshot s1 t);
                                         EvNow t'; EvExport (export_args s1)]
  | Raise _ =>
      trace s' = trace s1 ++ [EvNow t; EvSave (snapshot s1 t)] /\
      result (WikipediaScraper.scrape_all E C start_categories max_entries) s
      = Raise Exception
  end.
Proof.
  cbv zeta. unfold WikipediaScraper.scrape_all. cbv zeta.
  set (cats := default ScraperConfig.DEFAULT_CATEGORIES start_categories).
  rewrite result_try_finally, final_try_finally.
  match goal with |- context [final ?m s] =>
    match m with
    | WikipediaScraper.seed_loop _ _ _ _ => fail 1
    | _ => replace (final m s) with (final (WikipediaScraper.seed_loop E C cats max_entries) s)
    end
  end.
  2:{ unfold final. destruct (WikipediaScraper.seed_loop E C cats max_entries s) as [[u|e] s1];
        simpl; [reflexivity|]. destruct (WikipediaScraper.caught_by_scrape_all e); reflexivity. }
  set (s1 := final (WikipediaScraper.seed_loop E C cats max_entries) s).
  pose proof (save_checkpoint_effect E s1) as Hsave. cbv zeta in Hsave.
  destruct Hsave as (Hvp & Hvc & Hse & Hfp & Htr & Hres).
  unfold result, final in *.
  destruct (WikipediaScraper.save_checkpoint E s1) as [[u|e] s2] eqn:Hs; simpl in *.
  - rewrite (bind_ok _ _ _ _ _ Hs).
    pose proof (export_data_effect E s2) as Hexp. cbv zeta in Hexp.
    destruct Hexp as (Hvp' & Hvc' & Hse' & Hfp' & Htr').
    unfold final in *.
    rewrite Hvp', Hvc', Hse', Hfp', Hvp, Hvc, Hse, Hfp. repeat split.
    exists (env_now E (trace s2)). rewrite Htr', Htr, <- app_assoc. simpl.
    unfold export_args. rewrite Hvp, Hvc, Hse, Hfp. reflexivity.
  - rewrite (bind_raise _ _ _ _ _ Hs). simpl. repeat split; auto.
    destruct Hres as [Hres|Hres]; [discriminate | exact Hres].
Qed.

(** ** Statistics *)

(** C9.  For a non-empty list of accepted entries, [generate_statistics]
    reports the processing counters (failed pages, processed pages, visited
    categories) and the success rate (processed - failed) / max(processed, 1)
    * 100.  For three entries whose descriptions have 50, 150 and 300
    characters and whose tech types are weapon, weapon and device, it
    reports 3 entries, the tech types weapon: 2 and device: 1, the minimum
    length 50, the maximum length 300, the average length 500/3 (166.67 up
    to rounding) and 2 quality entries. *)
Theorem generate_statistics_report
    (visited_categories visited_pages : gset string) (failed_pages : list string) :
  (forall e entries,
     exists st,
       DataExporter.generate_statistics (e :: entries)
         visited_categories visited_pages failed_pages = Some st /\
       DataExporter.stat_failed_pages st = DataExporter.list_len failed_pages /\
       DataExporter.processed_pages st = DataExporter.set_len visited_pages /\
       DataExporter.stat_visited_categories st = DataExporter.set_len visited_categories /\
       DataExporter.success_rate st
       = (inject_Z (DataExporter.set_len visited_pages - DataExporter.list_len failed_pages)
          / inject_Z (Z.max (DataExporter.set_len visited_pages) 1) * 100)%Q) /\
  (forall e1 e2 e3,
     len (description e1) = 50 -> len (description e2) = 150 ->
     len (description e3) = 300 ->
     tech_type e1 = "weapon"%string -> tech_type e2 = "weapon"%string ->
     tech_type e3 = "device"%string ->
     exists st,
       DataExporter.generate_statistics [e1; e2; e3]
         visited_categories visited_pages failed_pages = Some st /\
       DataExporter.total_entries st = 3 /\
       DataExporter.tech_types st = <["weapon"%string := 2]> {["device"%string := 1]} /\
       DataExporter.min_length st = 50 /\
       DataExporter.max_length st = 300 /\
       (DataExporter.avg_length st == 500 # 3)%Q /\
       (Qabs (DataExporter.avg_length st - (16667 # 100)) <= 5 # 1000)%Q /\
       DataExporter.quality_entries st = 2).
Proof.
  split.
  - intros e entries. unfold DataExporter.generate_statistics.
    destruct (fold_left _ _ _) as [[cats types] lengths].
    eexists. split; [reflexivity|]. simpl. repeat split.
  - intros e1 e2 e3 H1 H2 H3 T1 T2 T3.
    unfold DataExporter.generate_statistics. simpl fold_left.
    rewrite H1, H2, H3, T1, T2, T3.
    eexists. split; [reflexivity|].
    cbn [DataExporter.total_entries DataExporter.tech_types DataExporter.min_length
         DataExporter.max_length DataExporter.avg_length DataExporter.quality_entries].
    split; [reflexivity|]. split.
    { apply map_eq. intros k. unfold DataExporter.count_up.
      destruct (decide (k = "weapon"%string)) as [->|Hw]; [vm_compute; reflexivity|].
      destruct (decide (k = "device"%string)) as [->|Hd]; [vm_compute; reflexivity|].
      rewrite !lookup_insert_ne by congruence.
      rewrite lookup_empty, lookup_singleton_ne by congruence. reflexivity. }
    split; [reflexivity|]. split; [reflexivity|].
    split; [vm_compute; reflexivity|].
    split; [vm_compute; intros H; discriminate H|].
    unfold DataExporter.list_len.
    rewrite !filter_cons, filter_nil, H1, H2, H3.
    repeat case_decide; try lia. reflexivity.
Qed.

(** C9, an instance: three entries with descriptions of 50, 150 and 300
    characters. *)
Lemma generate_statistics_report_witness :
  let entries := [entry_of_length 50 "weapon"; entry_of_length 150 "weapon";
                  entry_of_length 300 "device"] in
  exists st,
    DataExporter.generate_statistics entries ∅ ∅ [] = Some st /\
    DataExporter.total_entries st = 3 /\
    DataExporter.tech_types st = <["weapon"%string := 2]> {["device"%string := 1]} /\
    DataExporter.min_length st = 50 /\
    DataExporter.max_length st = 300 /\
    (DataExporter.avg_length st == 500 # 3)%Q /\
    (Qabs (DataExporter.avg_length st - (16667 # 100)) <= 5 # 1000)%Q /\
    DataExporter.quality_entries st = 2.
Proof.
  exact (proj2 (generate_statistics_report ∅ ∅ [])
           (entry_of_length 50 "weapon") (entry_of_length 150 "weapon")
           (entry_of_length 300 "device")
           eq_refl eq_refl eq_refl eq_refl eq_refl eq_refl).
Defined.

(** * Further properties of the code *)

Import Coverage.

(** ** The classifier: decisions and confidence *)

Section ClassifierCoverage.
Import ScraperConfig ContentClassifier Reference.

(** The result of [is_sci_fi_technology] in terms of the two scores. *)
Lemma is_sci_fi_technology_scores (title content : string) (categories : list string) :
  let text := Str.lower (title +:+ " " +:+ content) in
  let category_text := Str.lower (Str.join " " categories) in
  let best := fold_left keep_best (label_scores text) ("technology"%string, 0) in
  is_sci_fi_technology title content categories
  = ((domain_score text category_text >=? 2) && (snd best >=? 2), fst best,
     Qmin 1 (inject_Z (domain_score text category_text + snd best) / 8)).
Proof.
  cbv zeta. unfold is_sci_fi_technology. cbv zeta.
  rewrite !score_either, score_text, best_label_fold.
  fold (label_scores (Str.lower (title +:+ " " +:+ content))).
  destruct (fold_left keep_best _ _) as [label best]. simpl.
  replace (0 + 3 * how_many strong [Str.lower (title +:+ " " +:+ content);
                                    Str.lower (Str.join " " categories)]
           + 4 * how_many franchises [Str.lower (title +:+ " " +:+ content);
                                      Str.lower (Str.join " " categories)]
           + 2 * how_many tech_context [Str.lower (title +:+ " " +:+ content)])
    with (domain_score (Str.lower (title +:+ " " +:+ content))
                       (Str.lower (Str.join " " categories)))
    by (unfold domain_score; lia).
  reflexivity.
Qed.

(** A winner with a positive score is one of the labels of the table. *)
Lemma positive_winner_is_label (text : string) :
  let best := fold_left keep_best (label_scores text) ("technology"%string, 0) in
  0 < snd best -> In (fst best) labels.
Proof.
  cbv zeta. intros Hpos.
  destruct (keep_best_fold (label_scores text) "technology" 0)
    as [[_ Heq] | (before & after & Hsplit & _)].
  - cbv zeta in Heq. rewrite Heq in Hpos. simpl in Hpos. lia.
  - cbv zeta in Hsplit. unfold labels.
    replace (map fst TECH_CLASSIFIERS) with (map fst (label_scores text))
      by (unfold label_scores; rewrite map_map; reflexivity).
    rewrite Hsplit at 2. rewrite map_app. apply in_or_app. right. now left.
Qed.
End ClassifierCoverage.

(** X1.  Whenever [is_sci_fi_technology] decides that a page is a target, its
    confidence is at least 1/2, so it passes the minimum confidence of the
    configuration, and the label is one of the six labels of the table, never
    the default label. *)
Theorem target_is_confident (title content : string) (categories : list string)
    (label : string) (confidence : Q) :
  ContentClassifier.is_sci_fi_technology title content categories
  = (true, label, confidence) ->
  (1 # 2 <= confidence)%Q /\
  Qle_bool ScraperConfig.MIN_CONFIDENCE_SCORE confidence = true /\
  In label labels /\ label <> "technology"%string.
Proof.
  rewrite is_sci_fi_technology_scores. cbv zeta.
  set (text := Str.lower (title +:+ " " +:+ content)).
  set (category_text := Str.lower (Str.join " " categories)).
  pose proof (positive_winner_is_label text) as Hlabel. cbv zeta in Hlabel.
  destruct (fold_left Reference.keep_best _ _) as [l b]. simpl in *.
  intros H. injection H as Hdec Hl Hc. subst l.
  apply andb_true_iff in Hdec. destruct Hdec as [Hd Hb].
  rewrite Z.geb_leb in Hd, Hb. apply Z.leb_le in Hd, Hb.
  assert (Hhalf : (1 # 2 <= confidence)%Q).
  { subst confidence. apply Q.min_glb; [discriminate|].
    unfold Qle, Qdiv, Qmult, Qinv, inject_Z. simpl. lia. }
  split; [exact Hhalf|]. split.
  - apply Qle_bool_iff. eapply Qle_trans; [|exact Hhalf]. discriminate.
  - assert (Hin : In label labels) by (apply Hlabel; lia).
    split; [exact Hin|]. intros ->. vm_compute in Hin.
    repeat (destruct Hin as [Hin|Hin]; [discriminate Hin|]). exact Hin.
Qed.

(** An instance: the page of the test of the repository. *)
Lemma target_is_confident_witness :
  In "weapon"%string labels /\ (1 # 2 <= 1)%Q.
Proof.
  assert (H : ContentClassifier.is_sci_fi_technology "Lightsaber"
                "A lightsaber is a fictional energy sword featured in the Star Wars universe."
                ["Category:Star Wars weapons"%string] = (true, "weapon"%string, 1%Q))
    by (vm_compute; reflexivity).
  destruct (target_is_confident _ _ _ _ _ H) as (Hc & _ & Hl & _).
  exact (conj Hl Hc).
Defined.

(** ** The classifier: letter case, and the subcategory filter *)

Section CaseCoverage.
Import ScraperConfig ContentClassifier.

Lemma lower_char_idempotent (c : ascii) :
  Str.lower_char (Str.lower_char c) = Str.lower_char c.
Proof.
  destruct c as [[] [] [] [] [] [] [] []]; reflexivity.
Qed.

Lemma lower_idempotent (s : string) : Str.lower (Str.lower s) = Str.lower s.
Proof.
  induction s as [|c s IH]; simpl; [reflexivity|].
  now rewrite lower_char_idempotent, IH.
Qed.

Lemma lower_join (l : list string) :
  Str.lower (Str.join " " (map Str.lower l)) = Str.lower (Str.join " " l).
Proof.
  induction l as [|x l IH]; [reflexivity|].
  destruct l as [|y l]; [apply lower_idempotent|].
  change (Str.join " " (map Str.lower (x :: y :: l)))
    with (Str.lower x +:+ " " +:+ Str.join " " (map Str.lower (y :: l))).
  change (Str.join " " (x :: y :: l)) with (x +:+ " " +:+ Str.join " " (y :: l)).
  rewrite !lower_app, lower_idempotent, IH. reflexivity.
Qed.

Lemma lower_text (title content : string) :
  Str.lower (Str.lower title +:+ " " +:+ Str.lower content)
  = Str.lower (title +:+ " " +:+ content).
Proof. rewrite !lower_app, !lower_idempotent. reflexivity. Qed.

Lemma prefix_trans (a b s : string) :
  String.prefix a b = true -> String.prefix b s = true -> String.prefix a s = true.
Proof.
  revert b s. induction a as [|x a IH]; intros b s Hab Hbs; [destruct s; reflexivity|].
  destruct b as [|y b]; [discriminate|]. destruct s as [|z s]; [discriminate|].
  simpl in *. destruct (ascii_dec x y) as [->|]; [|discriminate].
  destruct (ascii_dec y z) as [->|]; [|discriminate].
  destruct (ascii_dec z z) as [_|Hne]; [|destruct Hne; reflexivity].
  eapply IH; eassumption.
Qed.

(** A text that contains [b] contains every prefix of [b]. *)
Lemma contains_prefix (a b s : string) :
  String.prefix a b = true -> Str.contains b s = true -> Str.contains a s = true.
Proof.
  intros Hab. induction s as [|c s IH]; intros H.
  - unfold Str.contains in *. rewrite orb_false_r in *.
    eapply prefix_trans; eassumption.
  - change (String.prefix b (String c s) || Str.contains b s = true) in H.
    change (String.prefix a (String c s) || Str.contains a s = true).
    apply orb_true_iff in H. apply orb_true_iff. destruct H as [H|H].
    + left. eapply prefix_trans; eassumption.
    + right. apply IH, H.
Qed.

Lemma any_in_member (p : string) (patterns : list string) (s : string) :
  In p patterns -> Str.contains p s = true -> any_in patterns s = true.
Proof. intros Hin Hc. apply existsb_exists. exists p. auto. Qed.
End CaseCoverage.

(** X2.  The three functions of the classifier ignore letter case: lowering
    the title, the body, the category titles or the category name does not
    change their results. *)
Theorem classifier_ignores_case (title content name : string) (categories : list string) :
  ContentClassifier.is_sci_fi_technology (Str.lower title) (Str.lower content)
    (map Str.lower categories)
  = ContentClassifier.is_sci_fi_technology title content categories /\
  ContentClassifier.is_excluded_content (Str.lower title) (Str.lower content)
  = ContentClassifier.is_excluded_content title content /\
  ContentClassifier.is_relevant_subcategory (Str.lower name)
  = ContentClassifier.is_relevant_subcategory name.
Proof.
  split; [|split].
  - unfold ContentClassifier.is_sci_fi_technology.
    rewrite lower_text, lower_join. reflexivity.
  - unfold ContentClassifier.is_excluded_content. rewrite lower_text. reflexivity.
  - unfold ContentClassifier.is_relevant_subcategory. rewrite lower_idempotent.
    reflexivity.
Qed.

(** X3.  The subcategory filter accepts a name exactly when, in lower case, it
    contains no administrative marker, contains a biographical marker only
    together with one of the six technology terms, contains a media marker
    only together with one of those terms or "fictional", and contains a
    technology pattern.  The separate test for "fictional" and "science
    fiction" never changes the result, since both contain a technology
    pattern. *)
Theorem is_relevant_subcategory_spec (category_name : string) :
  let category_lower := Str.lower category_name in
  ContentClassifier.is_relevant_subcategory category_name
  = negb (ContentClassifier.any_in ScraperConfig.skip_patterns category_lower)
    && (negb (ContentClassifier.any_in ScraperConfig.biographical_patterns category_lower)
        || ContentClassifier.any_in
             ["technology"; "weapon"; "device"; "equipment"; "vehicle"; "robot"]%string
             category_lower)
    && (negb (ContentClassifier.any_in ScraperConfig.media_patterns category_lower)
        || ContentClassifier.any_in
             ["technology"; "weapon"; "device"; "equipment"; "vehicle"; "robot";
              "fictional"]%string category_lower)
    && ContentClassifier.any_in ScraperConfig.tech_patterns category_lower.
Proof.
  cbv zeta. unfold ContentClassifier.is_relevant_subcategory. cbv zeta.
  set (s := Str.lower category_name).
  assert (Hfic : Str.contains "fictional" s || Str.contains "science fiction" s = true ->
                 ContentClassifier.any_in ScraperConfig.tech_patterns s = true).
  { intros H. apply orb_true_iff in H. destruct H as [H|H].
    - apply (any_in_member "fictional"); [|exact H]. vm_compute. tauto.
    - apply (any_in_member "science").
      + vm_compute. tauto.
      + apply (contains_prefix "science" "science fiction"); [reflexivity | exact H]. }
  set (sk := ContentClassifier.any_in ScraperConfig.skip_patterns s).
  set (bio := ContentClassifier.any_in ScraperConfig.biographical_patterns s).
  set (t6 := ContentClassifier.any_in
               ["technology"; "weapon"; "device"; "equipment"; "vehicle"; "robot"]%string s).
  set (med := ContentClassifier.any_in ScraperConfig.media_patterns s).
  set (t7 := ContentClassifier.any_in
               ["technology"; "weapon"; "device"; "equipment"; "vehicle"; "robot";
                "fictional"]%string s).
  set (tp := ContentClassifier.any_in ScraperConfig.tech_patterns s) in *.
  set (fic := Str.contains "fictional" s || Str.contains "science fiction" s) in *.
  clearbody sk bio t6 med t7 tp fic.
  destruct sk, bio, t6, med, t7, tp, fic; simpl; try reflexivity;
    discriminate (Hfic eq_refl).
Qed.

(** ** Statistics and export contents *)

Section StatisticsCoverage.
Import DataExporter.

Lemma count_up_lookup (k k' : string) (d : gmap string Z) :
  default 0 (count_up k d !! k')
  = default 0 (d !! k') + (if String.eqb k k' then 1 else 0).
Proof.
  unfold count_up. destruct (String.eqb_spec k k') as [->|Hne].
  - rewrite lookup_insert_eq. reflexivity.
  - rewrite lookup_insert_ne by exact Hne. lia.
Qed.

(** The loop of [generate_statistics], from any intermediate value of its
    three local variables. *)
Lemma statistics_loop (entries : list TechEntry)
      (cats types : gmap string Z) (lengths : list Z) :
  let '(cats', types', lengths') :=
    fold_left (fun acc entry =>
                 let '(categories, tech_types, description_lengths) := acc in
                 (count_up (category entry) categories,
                  count_up (tech_type entry) tech_types,
                  description_lengths ++ [len (description entry)]))
              entries (cats, types, lengths) in
  (forall k, default 0 (cats' !! k) = default 0 (cats !! k) + count_by category k entries) /\
  (forall k, default 0 (types' !! k) = default 0 (types !! k) + count_by tech_type k entries) /\
  lengths' = lengths ++ map (fun e => len (description e)) entries.
Proof.
  revert cats types lengths. induction entries as [|e entries IH]; intros cats types lengths.
  - simpl. unfold count_by. simpl. repeat split; intros; try lia. now rewrite app_nil_r.
  - simpl fold_left.
    specialize (IH (count_up (category e) cats) (count_up (tech_type e) types)
                   (lengths ++ [len (description e)])).
    destruct (fold_left _ entries _) as [[cats' types'] lengths'].
    destruct IH as (Hc & Ht & Hl). split; [|split].
    + intros k. rewrite Hc, count_up_lookup. unfold count_by. simpl.
      destruct (String.eqb (category e) k); simpl length; lia.
    + intros k. rewrite Ht, count_up_lookup. unfold count_by. simpl.
      destruct (String.eqb (tech_type e) k); simpl length; lia.
    + rewrite Hl, <- app_assoc. reflexivity.
Qed.

Lemma fold_min_bound (l : list Z) (a : Z) :
  fold_left Z.min l a <= a /\ forall y, In y l -> fold_left Z.min l a <= y.
Proof.
  revert a. induction l as [|x l IH]; intros a; simpl.
  - split; [lia | intros y []].
  - destruct (IH (Z.min a x)) as [Ha Hl]. split; [lia|].
    intros y [<-|Hy]; [lia | apply Hl, Hy].
Qed.

Lemma fold_max_bound (l : list Z) (a : Z) :
  a <= fold_left Z.max l a /\ forall y, In y l -> y <= fold_left Z.max l a.
Proof.
  revert a. induction l as [|x l IH]; intros a; simpl.
  - split; [lia | intros y []].
  - destruct (IH (Z.max a x)) as [Ha Hl]. split; [lia|].
    intros y [<-|Hy]; [lia | apply Hl, Hy].
Qed.

Lemma quality_filter (entries : list TechEntry) :
  length (filter (fun e => 100 ≤ len (description e)) entries)
  = length (TrainingExport.training_lines entries).
Proof.
  unfold TrainingExport.training_lines. rewrite length_map.
  induction entries as [|e entries IH]; [reflexivity|].
  rewrite filter_cons. simpl List.filter.
  rewrite Z.geb_leb.
  destruct (100 <=? len (description e)) eqn:Hq; case_decide; simpl; lia.
Qed.
End StatisticsCoverage.

(** X4.  [generate_statistics] returns nothing for an empty list.  For a
    non-empty list it reports the number of entries, for every origin
    category and every tech type the number of entries that carry it (a key
    that no entry carries is absent), a minimum and a maximum length that
    bound the description length of every entry, and as quality entries the
    number of lines [export_data] writes to the training file. *)
Theorem generate_statistics_counts
    (visited_categories visited_pages : gset string) (failed_pages : list string) :
  DataExporter.generate_statistics [] visited_categories visited_pages failed_pages = None /\
  forall e entries,
    exists st,
      DataExporter.generate_statistics (e :: entries)
        visited_categories visited_pages failed_pages = Some st /\
      DataExporter.total_entries st = Z.of_nat (length (e :: entries)) /\
      (forall k, default 0 (DataExporter.categories st !! k)
                 = count_by category k (e :: entries)) /\
      (forall k, default 0 (DataExporter.tech_types st !! k)
                 = count_by tech_type k (e :: entries)) /\
      (forall x, In x (e :: entries) ->
                 DataExporter.min_length st <= len (description x)
                 <= DataExporter.max_length st) /\
      DataExporter.quality_entries st
      = Z.of_nat (length (TrainingExport.training_lines (e :: entries))).
Proof.
  split; [reflexivity|]. intros e entries.
  unfold DataExporter.generate_statistics.
  pose proof (statistics_loop (e :: entries) ∅ ∅ []) as Hloop.
  destruct (fold_left _ (e :: entries) _) as [[cats types] lengths].
  destruct Hloop as (Hc & Ht & Hl). simpl in Hl.
  eexists. split; [reflexivity|].
  cbn [DataExporter.total_entries DataExporter.categories DataExporter.tech_types
       DataExporter.min_length DataExporter.max_length DataExporter.quality_entries].
  split; [reflexivity|].
  split; [intros k; rewrite Hc, lookup_empty; simpl; lia|].
  split; [intros k; rewrite Ht, lookup_empty; simpl; lia|].
  split.
  - intros x Hx. subst lengths. unfold DataExporter.min_or_zero, DataExporter.max_or_zero.
    destruct (fold_min_bound (map (fun e => len (description e)) entries) (len (description e)))
      as [Hmin0 Hmin].
    destruct (fold_max_bound (map (fun e => len (description e)) entries) (len (description e)))
      as [Hmax0 Hmax].
    destruct Hx as [<-|Hx]; [lia|].
    assert (Hin : In (len (description x)) (map (fun e => len (description e)) entries))
      by (apply in_map_iff; eauto).
    split; [apply Hmin, Hin | apply Hmax, Hin].
  - unfold DataExporter.list_len. now rewrite quality_filter.
Qed.

(** ** Checkpoints: what a resume restores *)

(** A resume from a checkpoint written without a fault returns. *)
Lemma resume_returns (E : Env) (s : state) :
  result (WikipediaScraper.save_checkpoint E) s = Ok tt ->
  result (save_then_resume E) s = Ok tt.
Proof.
  intros Hok. pose proof (save_checkpoint_returns E s Hok) as Hs. cbv zeta in Hs.
  destruct Hs as (Hpk & _). unfold result in *. unfold final in Hpk.
  destruct (WikipediaScraper.save_checkpoint E s) as [r s1] eqn:Hsave.
  simpl in Hok, Hpk. subst r.
  unfold save_then_resume. rewrite (bind_ok _ _ _ _ _ Hsave).
  unfold bind at 1. unfold modify at 1.
  rewrite (load_checkpoint_run E (restart s1) _ Hpk). cbv zeta.
  match goal with |- context [map_M ?f ?ds ?st] =>
    destruct (rebuild_entries E ds st) as (es & s2 & Hrun & _)
  end.
  rewrite Hrun. reflexivity.
Qed.

(** X5.  Saving a progress state and resuming from it in a new process, when
    the save meets no write fault, succeeds and restores the visited pages,
    the visited categories and the failed pages exactly, and the accepted
    entries in the same order with every field but [scraped_at]; the content
    length of each reloaded entry is the length of its description. *)
Theorem checkpoint_round_trip (E : Env) (s : state) :
  result (WikipediaScraper.save_checkpoint E) s = Ok tt ->
  let s' := final (save_then_resume E) s in
  result (save_then_resume E) s = Ok tt /\
  visited_pages s' = visited_pages s /\
  visited_categories s' = visited_categories s /\
  failed_pages s' = failed_pages s /\
  Forall2 same_but_scraped_at (scraped_entries s) (scraped_entries s').
Proof.
  intros Hok. cbv zeta. split; [apply resume_returns, Hok|].
  exact (resume_restores_all_but_scraped_at E s Hok).
Qed.

(** An instance: the state with the entry [phaser]. *)
Lemma checkpoint_round_trip_witness :
  let s' := final (save_then_resume quiet_env) one_entry_state in
  result (save_then_resume quiet_env) one_entry_state = Ok tt /\
  visited_pages s' = visited_pages one_entry_state /\
  visited_categories s' = visited_categories one_entry_state /\
  failed_pages s' = failed_pages one_entry_state /\
  Forall2 same_but_scraped_at (scraped_entries one_entry_state) (scraped_entries s').
Proof.
  assert (Hok : result (WikipediaScraper.save_checkpoint quiet_env) one_entry_state = Ok tt)
    by (vm_compute; reflexivity).
  exact (checkpoint_round_trip quiet_env one_entry_state Hok).
Defined.

(** ** The visited sets only grow *)

(** X6.  Along a session, a resume included, no page title and no category key
    leaves the visited sets. *)
Theorem visited_sets_grow (E : Env) (C : Settings) (s s' : state) :
  rtc (step E C) s s' ->
  visited_pages s ⊆ visited_pages s' /\
  visited_categories s ⊆ visited_categories s'.
Proof.
  intros Hsteps.
  assert (H : crawl_invariant (fun X => visited_pages s ⊆ X)
                (fun X => visited_categories s ⊆ X) (fun _ => True) s').
  { refine (inv_steps E C _ _ _ _ _ _ _ _ _ Hsteps _); try closure.
    split; [reflexivity|]. split; [reflexivity | closure]. }
  destruct H as (Hp & Hc & _). split; assumption.
Qed.

(** An instance: one crawl of a category from the empty state. *)
Lemma visited_sets_grow_witness :
  visited_pages initial ⊆ visited_pages crawled_state /\
  visited_categories initial ⊆ visited_categories crawled_state.
Proof.
  refine (visited_sets_grow lightsaber_env default_settings initial crawled_state _).
  apply rtc_once.
  exact (step_scrape_category lightsaber_env default_settings
           "Category:Fictional technology" 500 0 initial).
Defined.

(** ** One page: what [process_page] returns and changes *)

Section PageCoverage.
Context (E : Env).

(** The run of [process_page] on a title that was not visited, by the answer
    of the API. *)
Lemma process_page_run (page_title category : string) (s : state) :
  page_title ∉ visited_pages s ->
  let s1 := log_event (EvGetPage page_title)
              (set_visited_pages ({[page_title]} ∪ visited_pages s) s) in
  WikipediaScraper.process_page E page_title category s =
  match env_signal E (trace s1) with
  | Some Exception => (Ok [], s1)
  | Some e => (Raise e, s1)
  | None =>
      match env_page E (trace s1) page_title with
      | NoPage => (Ok [], s1)
      | Malformed => (Ok [], set_failed_pages (failed_pages s1 ++ [page_title]) s1)
      | Page p =>
          let verdict := ContentClassifier.is_sci_fi_technology
                           (p_title p) (p_extract p) (p_categories p) in
          if (len (p_extract p) <? ScraperConfig.MIN_CONTENT_LENGTH)
             || ContentClassifier.is_excluded_content (p_title p) (p_extract p)
             || negb (fst (fst verdict))
             || negb (Qle_bool ScraperConfig.MIN_CONFIDENCE_SCORE (snd verdict))
          then (Ok [], s1)
          else (Ok [new_TechEntry (env_now E (trace s1)) (p_title p) (p_extract p)
                      (p_url p) category "" 0 "" (snd (fst verdict))],
                log_event (EvNow (env_now E (trace s1))) s1)
      end
  end.
Proof.
  intros Hout. cbv zeta.
  unfold WikipediaScraper.process_page. unfold bind at 1. unfold get at 1.
  rewrite (bool_decide_eq_false_2 _ Hout).
  unfold bind at 1. unfold modify at 1.
  unfold try_except at 1. unfold bind at 1.
  unfold get_page_content, bind, modify, try_except, blocking. simpl.
  destruct (env_signal E _) as [[| |]|]; simpl; try reflexivity.
  destruct (env_page E _ page_title) as [|p|]; simpl; try reflexivity.
  destruct (len (p_extract p) <? ScraperConfig.MIN_CONTENT_LENGTH); simpl; [reflexivity|].
  destruct (ContentClassifier.is_excluded_content _ _); simpl; [reflexivity|].
  destruct (ContentClassifier.is_sci_fi_technology _ _ _) as [[b ty] conf]. simpl.
  destruct b; simpl; [|reflexivity].
  destruct (Qle_bool _ conf); reflexivity.
Qed.
End PageCoverage.

Section PageFacts.
Context (E : Env).

(** [process_page] never touches the accepted entries: merging them is left
    to the caller. *)
Lemma process_page_keeps_entries (page_title category : string) (s : state) :
  scraped_entries (final (WikipediaScraper.process_page E page_title category) s)
  = scraped_entries s.
Proof.
  destruct (decide (page_title ∈ visited_pages s)) as [Hin|Hout].
  - unfold final. now rewrite (process_page_visited E _ category _ Hin).
  - unfold final. rewrite (process_page_run E _ category _ Hout). cbv zeta.
    destruct (env_signal E _) as [[| |]|]; try reflexivity.
    destruct (env_page E _ page_title) as [|p|]; try reflexivity.
    destruct (_ || _); reflexivity.
Qed.

Lemma process_page_keeps_categories (page_title category : string) (s : state) :
  visited_categories (final (WikipediaScraper.process_page E page_title category) s)
  = visited_categories s.
Proof.
  destruct (decide (page_title ∈ visited_pages s)) as [Hin|Hout].
  - unfold final. now rewrite (process_page_visited E _ category _ Hin).
  - unfold final. rewrite (process_page_run E _ category _ Hout). cbv zeta.
    destruct (env_signal E _) as [[| |]|]; try reflexivity.
    destruct (env_page E _ page_title) as [|p|]; try reflexivity.
    destruct (_ || _); reflexivity.
Qed.

(** A failure is recorded by appending the title, and only for a title that
    was not visited before. *)
Lemma process_page_failed (page_title category : string) (s : state) :
  let s' := final (WikipediaScraper.process_page E page_title category) s in
  failed_pages s' = failed_pages s \/
  ((page_title ∉ visited_pages s) /\ failed_pages s' = failed_pages s ++ [page_title] /\
   result (WikipediaScraper.process_page E page_title category) s = Ok []).
Proof.
  cbv zeta. destruct (decide (page_title ∈ visited_pages s)) as [Hin|Hout].
  - left. unfold final. now rewrite (process_page_visited E _ category _ Hin).
  - unfold final, result. rewrite (process_page_run E _ category _ Hout). cbv zeta.
    destruct (env_signal E _) as [[| |]|]; try (left; reflexivity).
    destruct (env_page E _ page_title) as [|p|]; try (left; reflexivity).
    + destruct (_ || _); left; reflexivity.
    + right. repeat split. exact Hout.
Qed.

(** An exception met while a page is processed never leaves [process_page]
    as an [Exception]. *)
Lemma process_page_no_exception (page_title category : string) (s : state) :
  result (WikipediaScraper.process_page E page_title category) s <> Raise Exception.
Proof.
  destruct (decide (page_title ∈ visited_pages s)) as [Hin|Hout].
  - unfold result. now rewrite (process_page_visited E _ category _ Hin).
  - unfold result. rewrite (process_page_run E _ category _ Hout). cbv zeta.
    destruct (env_signal E _) as [[| |]|]; try discriminate.
    destruct (env_page E _ page_title) as [|p|]; try discriminate.
    destruct (_ || _); discriminate.
Qed.

(** A target label is one of the labels of the table. *)
Lemma target_label (title content : string) (categories : list string)
      (label : string) (confidence : Q) :
  ContentClassifier.is_sci_fi_technology title content categories
  = (true, label, confidence) -> In label labels.
Proof.
  rewrite is_sci_fi_technology_scores. cbv zeta.
  pose proof (positive_winner_is_label (Str.lower (title +:+ " " +:+ content))) as Hlabel.
  cbv zeta in Hlabel.
  destruct (fold_left Reference.keep_best _ _) as [l b]. simpl in *.
  intros H. injection H as Hdec Hl _. subst l.
  apply andb_true_iff in Hdec. destruct Hdec as [_ Hb].
  rewrite Z.geb_leb in Hb. apply Z.leb_le in Hb. apply Hlabel. lia.
Qed.

(** What [process_page] returns: nothing, or the single entry built from the
    page that the API answered. *)
Lemma process_page_returns (page_title category : string) (s s' : state)
      (es : list TechEntry) :
  WikipediaScraper.process_page E page_title category s = (Ok es, s') ->
  es = [] \/
  exists p confidence t,
    es = [new_TechEntry t (p_title p) (p_extract p) (p_url p) category "" 0 ""
            (snd (fst (ContentClassifier.is_sci_fi_technology
                         (p_title p) (p_extract p) (p_categories p))))] /\
    (page_title ∉ visited_pages s) /\
    ScraperConfig.MIN_CONTENT_LENGTH <= len (p_extract p) /\
    ContentClassifier.is_excluded_content (p_title p) (p_extract p) = false /\
    ContentClassifier.is_sci_fi_technology (p_title p) (p_extract p) (p_categories p)
    = (true,
       snd (fst (ContentClassifier.is_sci_fi_technology
                   (p_title p) (p_extract p) (p_categories p))),
       confidence).
Proof.
  destruct (decide (page_title ∈ visited_pages s)) as [Hin|Hout].
  - rewrite (process_page_visited E _ category _ Hin). intros H. injection H as <- _.
    now left.
  - rewrite (process_page_run E _ category _ Hout). cbv zeta.
    destruct (env_signal E _) as [[| |]|]; try discriminate;
      try (intros H; injection H as <- _; now left).
    destruct (env_page E _ page_title) as [|p|];
      try (intros H; injection H as <- _; now left).
    destruct (len (p_extract p) <? ScraperConfig.MIN_CONTENT_LENGTH) eqn:Hlen;
      [intros H; injection H as <- _; now left|].
    destruct (ContentClassifier.is_excluded_content _ _) eqn:Hex;
      [intros H; injection H as <- _; now left|].
    destruct (ContentClassifier.is_sci_fi_technology _ _ _) as [[b ty] conf] eqn:Hcl.
    simpl. destruct b; simpl; [|intros H; injection H as <- _; now left].
    destruct (Qle_bool _ conf); simpl; [|intros H; injection H as <- _; now left].
    intros H. injection H as <- _. right.
    exists p, conf, (env_now E
      (trace (log_event (EvGetPage page_title)
                (set_visited_pages ({[page_title]} ∪ visited_pages s) s)))).
    apply Z.ltb_ge in Hlen. rewrite Hcl. simpl. repeat split; auto.
Qed.

Lemma process_page_accepts (page_title category : string) (s s' : state)
      (es : list TechEntry) :
  WikipediaScraper.process_page E page_title category s = (Ok es, s') ->
  Forall accepted_shape es.
Proof.
  intros Hrun. destruct (process_page_returns _ _ _ _ _ Hrun)
    as [->|(p & conf & t & -> & _ & Hlen & _ & Hcl)]; [constructor|].
  constructor; [|constructor].
  unfold accepted_shape. simpl. repeat split; [exact Hlen|].
  eapply target_label. exact Hcl.
Qed.
End PageFacts.

(** X7.  [process_page] returns at most one entry.  When it returns one, the
    title was not visited before, no signal interrupted the request, and the
    API answered the request for that title with a page [p]; the entry is
    built from that answer: it carries the title, the text and the URL of
    [p], the category it was called with, the label the classifier gave to
    [p] (its title, text and categories), the clock reading taken after the
    request, an empty subcategory and a content length equal to the length
    of the text, which is at least the minimum content length.  The page [p]
    is not excluded and is classified as a target, with a confidence that
    passes the minimum.  The scraper is left with the title recorded as
    visited, the request and the clock reading in the trace, and nothing else
    changed. *)
Theorem process_page_entry (E : Env) (page_title origin : string) (s s' : state)
    (e : TechEntry) (es : list TechEntry) :
  WikipediaScraper.process_page E page_title origin s = (Ok (e :: es), s') ->
  let s1 := log_event (EvGetPage page_title)
              (set_visited_pages ({[page_title]} ∪ visited_pages s) s) in
  es = [] /\ accepted_shape e /\ category e = origin /\
  (page_title ∉ visited_pages s) /\
  exists p confidence,
    env_page E (trace s1) page_title = Page p /\
    name e = p_title p /\ description e = p_extract p /\ url e = p_url p /\
    scraped_at e = env_now E (trace s1) /\
    ContentClassifier.is_excluded_content (p_title p) (p_extract p) = false /\
    ContentClassifier.is_sci_fi_technology (p_title p) (p_extract p) (p_categories p)
    = (true, tech_type e, confidence) /\
    Qle_bool ScraperConfig.MIN_CONFIDENCE_SCORE confidence = true /\
    s' = log_event (EvNow (env_now E (trace s1))) s1.
Proof.
  intros Hrun. cbv zeta.
  destruct (decide (page_title ∈ visited_pages s)) as [Hin|Hout].
  { rewrite (process_page_visited E _ origin _ Hin) in Hrun. discriminate Hrun. }
  revert Hrun. rewrite (process_page_run E _ origin _ Hout). cbv zeta.
  destruct (env_signal E _) as [[| |]|]; try discriminate.
  destruct (env_page E _ page_title) as [|p|] eqn:Hpage; try discriminate.
  destruct (len (p_extract p) <? ScraperConfig.MIN_CONTENT_LENGTH) eqn:Hlen;
    [discriminate|].
  destruct (ContentClassifier.is_excluded_content _ _) eqn:Hex; [discriminate|].
  destruct (ContentClassifier.is_sci_fi_technology _ _ _) as [[b ty] conf] eqn:Hcl.
  simpl. destruct b; simpl; [|discriminate].
  destruct (Qle_bool _ conf) eqn:Hconf; simpl; [|discriminate].
  intros H. injection H as <- <- <-.
  apply Z.ltb_ge in Hlen.
  split; [reflexivity|]. split.
  { unfold accepted_shape. simpl. repeat split; [exact Hlen|].
    eapply target_label. exact Hcl. }
  split; [reflexivity|]. split; [exact Hout|].
  exists p, conf. simpl. repeat split; auto.
Qed.

(** An instance: the page [Lightsaber], as the API of [lightsaber_env]
    answers it, is accepted. *)
Lemma process_page_entry_witness :
  let e := new_TechEntry "1" "Lightsaber" lightsaber_text
             "https://en.wikipedia.org/wiki/Lightsaber" "Fictional technology" "" 0 ""
             "weapon" in
  let s1 := log_event (EvGetPage "Lightsaber")
              (set_visited_pages ({["Lightsaber"%string]} ∪ visited_pages initial) initial) in
  accepted_shape e /\ Models.category e = "Fictional technology"%string /\
  exists p confidence,
    env_page lightsaber_env (trace s1) "Lightsaber" = Page p /\
    name e = p_title p /\ description e = p_extract p /\ url e = p_url p /\
    scraped_at e = env_now lightsaber_env (trace s1) /\
    ContentClassifier.is_excluded_content (p_title p) (p_extract p) = false /\
    ContentClassifier.is_sci_fi_technology (p_title p) (p_extract p) (p_categories p)
    = (true, tech_type e, confidence).
Proof.
  cbv zeta.
  assert (H : WikipediaScraper.process_page lightsaber_env "Lightsaber"
                "Fictional technology" initial
              = (Ok [new_TechEntry "1" "Lightsaber" lightsaber_text
                       "https://en.wikipedia.org/wiki/Lightsaber" "Fictional technology"
                       "" 0 "" "weapon"],
                 final (WikipediaScraper.process_page lightsaber_env "Lightsaber"
                          "Fictional technology") initial))
    by (vm_compute; reflexivity).
  pose proof (process_page_entry _ _ _ _ _ _ _ H) as P. cbv zeta in P.
  destruct P as (_ & Hs & Hc & _ & p & conf & Hp & Hn & Hd & Hu & Ht & Hex & Hcl & _).
  split; [exact Hs|]. split; [exact Hc|].
  exists p, conf. repeat split; assumption.
Defined.

(** X8.  [process_page] leaves the accepted entries and the visited categories
    as they are, never ends with an [Exception], and changes the failed pages
    only by appending the title it was called with, which happens only for a
    title that was not visited before and together with an empty result. *)
Theorem process_page_contains_failures (E : Env) (page_title category : string)
    (s : state) :
  let s' := final (WikipediaScraper.process_page E page_title category) s in
  let r := result (WikipediaScraper.process_page E page_title category) s in
  scraped_entries s' = scraped_entries s /\
  visited_categories s' = visited_categories s /\
  r <> Raise Exception /\
  (failed_pages s' = failed_pages s \/
   ((page_title ∉ visited_pages s) /\ failed_pages s' = failed_pages s ++ [page_title] /\
    r = Ok [])).
Proof.
  cbv zeta. split; [apply process_page_keeps_entries|].
  split; [apply process_page_keeps_categories|].
  split; [apply process_page_no_exception | apply process_page_failed].
Qed.

(** ** Invariants of a session, for any property of the state *)

Section PageUnit.
Context (E : Env).

(** One unit of the page pool, by the outcome of [process_page]. *)
Lemma page_unit_run (category_name : string) (entries_found : Z) (page : Member)
      (s : state) :
  WikipediaScraper.page_unit E category_name entries_found page s =
  match WikipediaScraper.process_page E (m_title page) category_name s with
  | (Ok [], s1) => (Ok entries_found, s1)
  | (Ok es, s1) =>
      let found := entries_found + Z.of_nat (length es) in
      (if found mod 10 =? 0
       then try_except (bind (WikipediaScraper.save_checkpoint E) (fun _ => ret found))
                       (ret found)
       else ret found)
        (set_scraped_entries (scraped_entries s1 ++ es) s1)
  | (Raise e, s1) => (Raise e, s1)
  end.
Proof.
  unfold WikipediaScraper.page_unit. unfold bind at 1.
  destruct (WikipediaScraper.process_page E _ _ s) as [[[|e es]|e] s1]; reflexivity.
Qed.
End PageUnit.

Section SessionInvariant.
Context (E : Env) (C : Settings) (P : state -> Prop).
Hypothesis P_log : forall ev s, within_page_cap C ev -> P s -> P (log_event ev s).
Hypothesis P_json : forall v s, P s -> P (set_json_file v s).
Hypothesis P_pickle : forall v s, P s -> P (set_pickle_file v s).
Hypothesis P_category : forall X s, P s -> P (set_visited_categories X s).
Hypothesis P_page :
  0 < max_workers C ->
  forall t c s, P s -> P (final (WikipediaScraper.process_page E t c) s).
Hypothesis P_merge :
  0 < max_workers C ->
  forall t c s es,
    P s -> result (WikipediaScraper.process_page E t c) s = Ok es ->
    P (set_scraped_entries
         (scraped_entries (final (WikipediaScraper.process_page E t c) s) ++ es)
         (final (WikipediaScraper.process_page E t c) s)).

Lemma keep_now : preserves P (now E).
Proof. intros s H. apply (P_log (EvNow _)); [exact I | exact H]. Qed.

Lemma keep_blocking : preserves P (blocking E).
Proof.
  intros s H. unfold final, blocking. destruct (env_signal E (trace s)); exact H.
Qed.

Lemma keep_sleep : preserves P (sleep E).
Proof.
  apply preserves_bind; [|intros _; apply keep_blocking].
  apply preserves_modify. intros s. apply (P_log EvSleep). exact I.
Qed.

Lemma keep_get_category_members (category : string) (limit depth : Z) :
  limit <= max_pages_per_category C ->
  preserves P (get_category_members E category limit depth).
Proof.
  intros Hl. apply preserves_bind.
  - apply preserves_modify. intros s. apply (P_log (EvGetMembers _ _ _)). exact Hl.
  - intros _. apply preserves_try_except.
    + apply preserves_bind; [apply keep_blocking|]. intros _ s H. exact H.
    + intros s H. exact H.
Qed.

Lemma keep_write_files (fault : option nat) (d : CheckpointData) :
  preserves P (CheckpointManager.write_files fault d).
Proof.
  intros s H. unfold final, CheckpointManager.write_files.
  destruct fault as [[|[|[|[|k]]]]|]; simpl;
    repeat first [exact H | apply P_json | apply P_pickle].
Qed.

Lemma keep_manager_save vp vc es fp :
  preserves P (CheckpointManager.save_checkpoint E vp vc es fp).
Proof.
  apply preserves_bind; [apply keep_now|]. intros t.
  apply preserves_bind.
  - apply preserves_modify. intros s0. apply (P_log (EvSave _)). exact I.
  - intros _. apply preserves_bind_get. intros s0 H0. apply keep_write_files, H0.
Qed.

Lemma keep_save_checkpoint : preserves P (WikipediaScraper.save_checkpoint E).
Proof.
  apply preserves_bind_get. intros s Hs. apply keep_manager_save, Hs.
Qed.

Lemma keep_exporter_export es vc vp fp :
  preserves P (DataExporter.export_data E es vc vp fp).
Proof.
  apply preserves_bind; [apply keep_now|]. intros t.
  apply preserves_bind.
  - apply preserves_modify. intros s0. apply (P_log (EvExport _)). exact I.
  - intros _. apply preserves_bind_get. intros s0 H0.
    destruct (env_disk_fault E (trace s0)); exact H0.
Qed.

Lemma keep_export_data : preserves P (WikipediaScraper.export_data E).
Proof.
  apply preserves_bind_get. intros s Hs. apply keep_exporter_export, Hs.
Qed.

Lemma keep_cycle_guard (normalized_category : string) (current_depth : Z) :
  preserves P (WikipediaScraper.cycle_guard normalized_category current_depth).
Proof.
  intros s Hs. unfold final. rewrite cycle_guard_run. cbv zeta.
  destruct (bool_decide _); [exact Hs|].
  destruct (_ && _); simpl; apply P_category, Hs.
Qed.

Lemma keep_page_unit (category_name : string) (entries_found : Z) (page : Member) :
  0 < max_workers C ->
  preserves P (WikipediaScraper.page_unit E category_name entries_found page).
Proof.
  intros Hw s Hs. unfold final. rewrite page_unit_run.
  pose proof (P_page Hw (m_title page) category_name s Hs) as Hp.
  pose proof (P_merge Hw (m_title page) category_name s) as Hm.
  unfold final, result in Hp, Hm.
  destruct (WikipediaScraper.process_page E _ _ s) as [[[|e es]|e] s1]; simpl in *;
    try exact Hp.
  specialize (Hm (e :: es) Hs eq_refl). cbv zeta.
  destruct (_ mod 10 =? 0); [|exact Hm].
  apply (preserves_try_except P); [|apply preserves_ret|exact Hm].
  apply preserves_bind; [apply keep_save_checkpoint | intros _; apply preserves_ret].
Qed.

Lemma keep_subcategory_unit (self_call : string -> Z -> Z -> M Z)
      (current_depth entries_found : Z) (subcat : Member) :
  (forall n p, preserves P (self_call n p (current_depth + 1))) ->
  preserves P
    (WikipediaScraper.subcategory_unit E C self_call current_depth entries_found subcat).
Proof.
  intros Hself. unfold WikipediaScraper.subcategory_unit.
  destruct (ContentClassifier.is_relevant_subcategory _); [|apply preserves_ret].
  apply preserves_try_except; [|apply preserves_ret].
  apply preserves_bind; [apply Hself|]. intros n.
  apply preserves_try_except; [|apply preserves_ret].
  apply preserves_bind; [apply keep_sleep | intros _; apply preserves_ret].
Qed.

Lemma keep_expand_category (self_call : string -> Z -> Z -> M Z)
      (category_name normalized_category : string) (max_pages current_depth : Z) :
  (forall n p, preserves P (self_call n p (current_depth + 1))) ->
  preserves P
    (WikipediaScraper.expand_category E C self_call category_name
       normalized_category max_pages current_depth).
Proof.
  intros Hself.
  apply preserves_bind; [apply keep_get_category_members; lia|].
  intros [|m members]; [apply preserves_ret|].
  apply preserves_bind.
  - destruct (List.filter _ _); [apply preserves_ret|].
    destruct (max_workers C <=? 0) eqn:Hw; [apply preserves_raise|].
    apply Z.leb_gt in Hw.
    apply preserves_for_each. intros acc x. apply keep_page_unit, Hw.
  - intros n. destruct (current_depth <? max_category_depth C); [|apply preserves_ret].
    apply preserves_for_each. intros acc x. apply keep_subcategory_unit, Hself.
Qed.

Lemma keep_scrape_category_rec (fuel : nat) (category_name : string)
      (max_pages current_depth : Z) :
  preserves P
    (WikipediaScraper.scrape_category_rec E C fuel category_name max_pages current_depth).
Proof.
  revert category_name max_pages current_depth.
  assert (Hbody : forall self_call category_name max_pages current_depth,
             (forall n p d, preserves P (self_call n p d)) ->
             preserves P (WikipediaScraper.scrape_category_body E C self_call
                            category_name max_pages current_depth)).
  { intros self_call category_name max_pages current_depth Hself.
    unfold WikipediaScraper.scrape_category_body.
    destruct (current_depth >? max_category_depth C); [apply preserves_ret|].
    apply preserves_bind; [apply keep_cycle_guard|].
    intros [| |]; try apply preserves_ret.
    apply keep_expand_category. intros n p. apply Hself. }
  induction fuel as [|fuel IH]; intros category_name max_pages current_depth; simpl.
  - apply Hbody. intros n p d. apply preserves_ret.
  - apply Hbody. intros n p d. apply IH.
Qed.

Lemma keep_scrape_category (category_name : string) (max_pages current_depth : Z) :
  preserves P (WikipediaScraper.scrape_category E C category_name max_pages current_depth).
Proof. apply keep_scrape_category_rec. Qed.

Lemma keep_seed_loop (start_categories : list string) (max_entries : Z) :
  preserves P (WikipediaScraper.seed_loop E C start_categories max_entries).
Proof.
  induction start_categories as [|category rest IH]; simpl; [apply preserves_ret|].
  apply preserves_bind_get. intros s Hs.
  destruct (Z.of_nat _ >=? max_entries); [exact Hs|].
  apply preserves_bind; [| intros _; exact IH | exact Hs].
  apply preserves_try_except; [|apply preserves_ret].
  apply preserves_bind; [apply keep_scrape_category|]. intros n.
  apply preserves_bind; [apply keep_save_checkpoint | intros _; apply keep_sleep].
Qed.

Lemma keep_scrape_all (start_categories : option (list string)) (max_entries : Z) :
  preserves P (WikipediaScraper.scrape_all E C start_categories max_entries).
Proof.
  apply preserves_try_finally.
  - intros s Hs. pose proof (keep_seed_loop
      (default ScraperConfig.DEFAULT_CATEGORIES start_categories) max_entries s Hs) as H.
    unfold final in *.
    destruct (WikipediaScraper.seed_loop _ _ _ _ s) as [[u|e] s']; simpl in *; [exact H|].
    destruct (WikipediaScraper.caught_by_scrape_all e); exact H.
  - apply preserves_bind; [apply keep_save_checkpoint | intros _; apply keep_export_data].
Qed.

(** Along a session, given that a direct call of [process_page] and a resume
    keep the property as well. *)
Lemma keep_steps (s s' : state) :
  (forall t c, preserves P (WikipediaScraper.process_page E t c)) ->
  (forall s0, result (WikipediaScraper.save_checkpoint E) s0 = Ok tt ->
              P s0 -> P (final (save_then_resume E) s0)) ->
  rtc (step E C) s s' -> P s -> P s'.
Proof.
  intros Hpage Hresume Hsteps.
  induction Hsteps as [|s s1 s2 Hstep _ IH]; [auto|].
  intros Hs. apply IH. destruct Hstep.
  - apply Hpage, Hs.
  - apply keep_scrape_category, Hs.
  - apply keep_save_checkpoint, Hs.
  - apply keep_export_data, Hs.
  - apply keep_scrape_all, Hs.
  - apply Hresume; assumption.
Qed.
End SessionInvariant.

(** ** Failed pages, and the success rate *)

Section FailureCoverage.
Context (E : Env) (C : Settings).

Lemma failures_page (t c : string) :
  preserves failures_recorded (WikipediaScraper.process_page E t c).
Proof.
  intros s [Hnd Hsub]. unfold failures_recorded.
  rewrite process_page_adds.
  destruct (process_page_failed E t c s) as [Hsame|(Hout & Happ & _)].
  - rewrite Hsame. split; [exact Hnd|]. intros x Hx. specialize (Hsub x Hx). set_solver.
  - rewrite Happ. split.
    + apply NoDup_app. split; [exact Hnd|]. split; [|apply NoDup_singleton].
      intros x Hx Hx'. apply list_elem_of_singleton in Hx'. subst x.
      apply Hout, Hsub, list_elem_of_In, Hx.
    + intros x Hx. apply in_app_or in Hx. destruct Hx as [Hx|[<-|[]]].
      * specialize (Hsub x Hx). set_solver.
      * set_solver.
Qed.

Lemma failures_steps (s s' : state) :
  rtc (step E C) s s' -> failures_recorded s -> failures_recorded s'.
Proof.
  apply (keep_steps E C failures_recorded); try (intros; assumption).
  - intros _ t c s0 H0. apply failures_page, H0.
  - intros _ t c s0 es H0 _. apply (failures_page t c s0 H0).
  - intros t c. apply failures_page.
  - intros s0 Hok [Hnd Hsub].
    destruct (resume_restores_all_but_scraped_at E s0 Hok) as (Hvp & _ & Hfp & _).
    unfold failures_recorded. rewrite Hvp, Hfp. split; assumption.
Qed.

Lemma failures_bounded (s : state) :
  failures_recorded s ->
  DataExporter.list_len (failed_pages s) <= DataExporter.set_len (visited_pages s).
Proof.
  intros [Hnd Hsub]. unfold DataExporter.list_len, DataExporter.set_len.
  apply inj_le. rewrite <- (size_list_to_set (C := gset string) (failed_pages s) Hnd).
  apply subseteq_size. intros x Hx. apply elem_of_list_to_set in Hx.
  apply Hsub, list_elem_of_In, Hx.
Qed.

Lemma rate_bounds (p f : Z) :
  0 <= f <= p ->
  (0 <= inject_Z (p - f) / inject_Z (Z.max p 1) * 100 <= 100)%Q.
Proof.
  intros Hf. assert (Hm : 0 < Z.max p 1) by lia.
  destruct (Z.max p 1) as [|m|m] eqn:Hmax; try lia.
  unfold Qle, Qdiv, Qmult, Qinv, inject_Z. simpl. split; [lia|].
  assert (p - f <= Z.pos m) by lia. nia.
Qed.
End FailureCoverage.

(** X9.  Along a session that starts from a state in which every failed page
    is recorded once and is a visited page (the empty state is one), this
    stays true; so the failed pages are never more than the processed pages,
    and the success rate that [generate_statistics] reports lies between 0
    and 100. *)
Theorem success_rate_within_bounds (E : Env) (C : Settings) (s s' : state) :
  rtc (step E C) s s' -> failures_recorded s ->
  failures_recorded s' /\
  DataExporter.list_len (failed_pages s') <= DataExporter.set_len (visited_pages s') /\
  forall st,
    DataExporter.generate_statistics (scraped_entries s') (visited_categories s')
      (visited_pages s') (failed_pages s') = Some st ->
    (0 <= DataExporter.success_rate st <= 100)%Q.
Proof.
  intros Hsteps Hs. pose proof (failures_steps E C s s' Hsteps Hs) as Hs'.
  pose proof (failures_bounded s' Hs') as Hb.
  split; [exact Hs'|]. split; [exact Hb|].
  intros st Hst. unfold DataExporter.generate_statistics in Hst.
  destruct (scraped_entries s') as [|e es]; [discriminate|].
  destruct (fold_left _ _ _) as [[cats types] lengths].
  injection Hst as <-. cbn [DataExporter.success_rate].
  apply rate_bounds. split; [|exact Hb]. unfold DataExporter.list_len. lia.
Qed.

(** An instance: a crawl in which the only page fails. *)
Lemma success_rate_within_bounds_witness :
  let s' := final (WikipediaScraper.scrape_category malformed_env default_settings
                     "Category:Fictional technology" 500 0) initial in
  failures_recorded s' /\
  DataExporter.list_len (failed_pages s') <= DataExporter.set_len (visited_pages s').
Proof.
  cbv zeta.
  assert (H0 : failures_recorded initial).
  { split; [constructor | intros t []]. }
  destruct (success_rate_within_bounds malformed_env default_settings initial _
              (rtc_once _ _ (step_scrape_category malformed_env default_settings
                               "Category:Fictional technology" 500 0 initial)) H0)
    as (H1 & H2 & _).
  exact (conj H1 H2).
Defined.

(** ** Accepted entries, and what the exporter makes of them *)

Section EntryCoverage.
Context (E : Env) (C : Settings).

Lemma accepted_steps (s s' : state) :
  rtc (step E C) s s' -> entries_accepted s -> entries_accepted s'.
Proof.
  apply (keep_steps E C entries_accepted); try (intros; assumption).
  - intros _ t c s0 H0. unfold entries_accepted.
    now rewrite process_page_keeps_entries.
  - intros _ t c s0 es H0 Hres. unfold entries_accepted. simpl.
    rewrite process_page_keeps_entries. apply Forall_app. split; [exact H0|].
    unfold result in Hres.
    destruct (WikipediaScraper.process_page E t c s0) as [r s1] eqn:Hrun.
    simpl in Hres. subst r. eapply process_page_accepts. exact Hrun.
  - intros t c s0 H0. unfold entries_accepted.
    now rewrite process_page_keeps_entries.
  - intros s0 Hok H0.
    destruct (resume_restores_all_but_scraped_at E s0 Hok) as (_ & _ & _ & Hall).
    unfold entries_accepted in *. revert H0 Hall.
    generalize (scraped_entries s0) (scraped_entries (final (save_then_resume E) s0)).
    intros l l' Hl Hall. induction Hall as [|e e' l l' He _ IH]; [constructor|].
    inversion Hl as [|? ? Hshape Hrest]; subst. constructor; [|apply IH, Hrest].
    destruct He as (_ & Hd & _ & _ & Hsub & Hcl & Hty).
    destruct Hshape as (_ & Hlen & Hlab & Hs).
    unfold accepted_shape. rewrite Hd, Hty, Hsub, Hcl. auto.
Qed.

Lemma fold_min_lower (l : list Z) (a b : Z) :
  b <= a -> Forall (fun y => b <= y) l -> b <= fold_left Z.min l a.
Proof.
  revert a. induction l as [|x l IH]; intros a Ha Hl; simpl; [exact Ha|].
  inversion Hl; subst. apply IH; [lia | assumption].
Qed.

Lemma training_lines_all (l : list TechEntry) :
  Forall accepted_shape l ->
  length (TrainingExport.training_lines l) = length l.
Proof.
  intros Hl. unfold TrainingExport.training_lines. rewrite length_map.
  induction Hl as [|e l He _ IH]; [reflexivity|].
  destruct He as (_ & Hlen & _). simpl.
  replace (len (description e) >=? 100) with true.
  - simpl. now rewrite IH.
  - symmetry. rewrite Z.geb_leb. apply Z.leb_le.
    unfold ScraperConfig.MIN_CONTENT_LENGTH in Hlen. lia.
Qed.
End EntryCoverage.

(** X10.  Along a session that starts from a state whose accepted entries all
    have the accepted shape (the empty state is one), every accepted entry
    keeps it: a content length equal to the length of its description, a
    description of at least the minimum content length, one of the six labels
    as tech type and an empty subcategory.  Hence the length filter of the
    training export drops no entry, and the statistics report as many quality
    entries as entries and a minimum length of at least the minimum content
    length. *)
Theorem accepted_entries_keep_shape (E : Env) (C : Settings) (s s' : state) :
  rtc (step E C) s s' -> entries_accepted s ->
  entries_accepted s' /\
  length (TrainingExport.training_lines (scraped_entries s')) = length (scraped_entries s') /\
  forall st,
    DataExporter.generate_statistics (scraped_entries s') (visited_categories s')
      (visited_pages s') (failed_pages s') = Some st ->
    DataExporter.quality_entries st = DataExporter.total_entries st /\
    ScraperConfig.MIN_CONTENT_LENGTH <= DataExporter.min_length st.
Proof.
  intros Hsteps Hs. pose proof (accepted_steps E C s s' Hsteps Hs) as Hs'.
  split; [exact Hs'|]. split; [apply training_lines_all, Hs'|].
  intros st Hst. unfold entries_accepted in Hs'.
  unfold DataExporter.generate_statistics in Hst.
  destruct (scraped_entries s') as [|e es] eqn:Hes; [discriminate|].
  pose proof (statistics_loop (e :: es) ∅ ∅ []) as Hloop.
  destruct (fold_left _ (e :: es) _) as [[cats types] lengths].
  destruct Hloop as (_ & _ & Hl). simpl in Hl.
  injection Hst as <-.
  cbn [DataExporter.quality_entries DataExporter.total_entries DataExporter.min_length].
  split.
  - unfold DataExporter.list_len. rewrite quality_filter.
    now rewrite (training_lines_all (e :: es) Hs').
  - subst lengths. unfold DataExporter.min_or_zero.
    inversion Hs' as [|? ? He Hrest]; subst.
    apply fold_min_lower; [apply He|].
    apply Forall_map. eapply Forall_impl; [exact Hrest|].
    intros x Hx. apply Hx.
Qed.

(** An instance: the state after one crawl of a category. *)
Lemma accepted_entries_keep_shape_witness :
  entries_accepted crawled_state /\
  length (TrainingExport.training_lines (scraped_entries crawled_state))
  = length (scraped_entries crawled_state).
Proof.
  assert (H0 : entries_accepted initial) by constructor.
  destruct (accepted_entries_keep_shape lightsaber_env default_settings initial crawled_state
              (rtc_once _ _ (step_scrape_category lightsaber_env default_settings
                               "Category:Fictional technology" 500 0 initial)) H0)
    as (H1 & H2 & _).
  exact (conj H1 H2).
Defined.

(** ** Requests stay within the per-category cap *)

(** X11.  Along a session, every request for category members asks for at most
    the configured maximum of pages per category, whatever page budget
    [scrape_category] is called with. *)
Theorem member_requests_within_cap (E : Env) (C : Settings) (s s' : state) :
  rtc (step E C) s s' ->
  Forall (within_page_cap C) (trace s) -> Forall (within_page_cap C) (trace s').
Proof.
  assert (Hother : forall ev, match ev with
                              | EvGetMembers _ _ _ => True
                              | _ => within_page_cap C ev
                              end) by (intros []; exact I).
  assert (Hpage : forall t c,
             preserves (fun st => Forall (within_page_cap C) (trace st))
                       (WikipediaScraper.process_page E t c)).
  { intros t c s0 H0.
    refine (proj2 (proj2 (inv_process_page E (fun _ => True) (fun _ => True)
                            (within_page_cap C) _ Hother t c s0 _))); [auto|].
    split; [exact I|]. split; [exact I | exact H0]. }
  apply (keep_steps E C (fun st => Forall (within_page_cap C) (trace st)));
    try (intros; assumption).
  - intros ev s0 Hev H0. simpl. apply Forall_app. split; [exact H0|].
    constructor; [exact Hev | constructor].
  - intros _ t c. apply Hpage.
  - intros _ t c s0 es H0 _. apply (Hpage t c s0 H0).
  - exact Hpage.
  - intros s0 Hok H0.
    refine (proj2 (proj2 (inv_resume E (fun _ => True) (fun _ => True)
                            (within_page_cap C) Hother s0 Hok _))).
    split; [exact I|]. split; [exact I | exact H0].
Qed.

(** An instance: a call with a budget above the cap. *)
Lemma member_requests_within_cap_witness :
  Forall (within_page_cap default_settings)
    (trace (final (WikipediaScraper.scrape_category lightsaber_env default_settings
                     "Category:Fictional technology" 9000 0) initial)).
Proof.
  refine (member_requests_within_cap lightsaber_env default_settings initial _
            (rtc_once _ _ (step_scrape_category lightsaber_env default_settings
                             "Category:Fictional technology" 9000 0 initial)) _).
  constructor.
Defined.

(** ** A pool without workers *)

(** X12.  When the configured number of workers is zero or negative, a crawl
    processes no page: [scrape_category] and [scrape_all] leave the visited
    pages, the accepted entries and the failed pages as they were. *)
Theorem no_workers_no_pages (E : Env) (C : Settings) (s : state) :
  max_workers C <= 0 ->
  (forall category_name max_pages depth,
     let s' := final (WikipediaScraper.scrape_category E C category_name max_pages depth) s in
     visited_pages s' = visited_pages s /\ scraped_entries s' = scraped_entries s /\
     failed_pages s' = failed_pages s) /\
  (forall start_categories max_entries,
     let s' := final (WikipediaScraper.scrape_all E C start_categories max_entries) s in
     visited_pages s' = visited_pages s /\ scraped_entries s' = scraped_entries s /\
     failed_pages s' = failed_pages s).
Proof.
  intros Hw.
  set (P := fun st : state =>
              visited_pages st = visited_pages s /\ scraped_entries st = scraped_entries s /\
              failed_pages st = failed_pages s).
  assert (H0 : P s) by (repeat split).
  split.
  - intros category_name max_pages depth. cbv zeta.
    apply (keep_scrape_category E C P); try (intros; assumption); try (intros; lia).
  - intros start_categories max_entries. cbv zeta.
    apply (keep_scrape_all E C P); try (intros; assumption); try (intros; lia).
Qed.

(** An instance: a crawl of a category with one page, without workers. *)
Lemma no_workers_no_pages_witness :
  let C := {| max_workers := 0; max_category_depth := 5;
              max_subcategories_per_category := 5; max_pages_per_category := 5000 |} in
  let s' := final (WikipediaScraper.scrape_all lightsaber_env C None 10) initial in
  visited_pages s' = visited_pages initial /\ scraped_entries s' = scraped_entries initial /\
  failed_pages s' = failed_pages initial.
Proof.
  cbv zeta.
  refine (proj2 (no_workers_no_pages lightsaber_env
                   {| max_workers := 0; max_category_depth := 5;
                      max_subcategories_per_category := 5;
                      max_pages_per_category := 5000 |} initial _) None 10).
  simpl. lia.
Defined.

(** ** What [scrape_category] returns *)

Section Counting.
Context (E : Env) (C : Settings).

Lemma counts_from_ret (acc : Z) : counts_from acc (ret acc).
Proof.
  intros s. exists []. rewrite app_nil_r. split; [reflexivity|].
  split; [discriminate|]. intros n H. injection H as <-. simpl. lia.
Qed.

Lemma counts_from_for_each {A} (body : Z -> A -> M Z) (l : list A) :
  (forall acc x, counts_from acc (body acc x)) ->
  forall acc, counts_from acc (for_each l body acc).
Proof.
  intros Hb. induction l as [|x l IH]; intros acc; simpl; [apply counts_from_ret|].
  intros s. destruct (Hb acc x s) as (new1 & He1 & Hne1 & Hn1).
  unfold final, result, bind in *.
  destruct (body acc x s) as [[acc'|e] s1]; simpl in *.
  - destruct (IH acc' s1) as (new2 & He2 & Hne2 & Hn2).
    exists (new1 ++ new2). unfold final, result in *.
    rewrite He2, He1, app_assoc. split; [reflexivity|]. split; [exact Hne2|].
    intros n Hn. rewrite (Hn2 n Hn), (Hn1 acc' eq_refl), length_app. lia.
  - exists new1. split; [exact He1|]. split; [exact Hne1|]. intros n H. discriminate.
Qed.

(** The accepted entries are left alone by the calls that only talk to the
    outside world or write the checkpoint. *)
Lemma entries_kept_by_save (s : state) :
  scraped_entries (final (WikipediaScraper.save_checkpoint E) s) = scraped_entries s.
Proof. exact (proj1 (proj2 (proj2 (save_checkpoint_effect E s)))). Qed.

Lemma save_result (s : state) :
  result (WikipediaScraper.save_checkpoint E) s = Ok tt \/
  result (WikipediaScraper.save_checkpoint E) s = Raise Exception.
Proof. exact (proj2 (proj2 (proj2 (proj2 (proj2 (save_checkpoint_effect E s)))))). Qed.

Lemma entries_kept_by_sleep (s : state) :
  scraped_entries (final (sleep E) s) = scraped_entries s.
Proof.
  unfold final, sleep, bind, modify, blocking. simpl.
  destruct (env_signal E _); reflexivity.
Qed.

Lemma members_run (category : string) (limit depth : Z) (s : state) :
  scraped_entries (final (get_category_members E category limit depth) s)
  = scraped_entries s /\
  result (get_category_members E category limit depth) s <> Raise Exception.
Proof.
  unfold final, result, get_category_members, bind, modify, try_except, blocking. simpl.
  destruct (env_signal E _) as [[| |]|]; simpl; split; try reflexivity; discriminate.
Qed.

Lemma counts_from_page_unit (category_name : string) (acc : Z) (page : Member) :
  counts_from acc (WikipediaScraper.page_unit E category_name acc page).
Proof.
  intros s. unfold final, result.
  destruct (WikipediaScraper.page_unit E category_name acc page s) as [r s'] eqn:Hrun.
  rewrite page_unit_run in Hrun. cbn [fst snd].
  pose proof (process_page_keeps_entries E (m_title page) category_name s) as Hkeep.
  pose proof (process_page_no_exception E (m_title page) category_name s) as Hne.
  unfold final, result in Hkeep, Hne.
  destruct (WikipediaScraper.process_page E _ _ s) as [[[|e es]|e] s1];
    cbn [fst snd] in Hkeep, Hne.
  - injection Hrun as <- <-. exists []. rewrite app_nil_r.
    split; [exact Hkeep|]. split; [discriminate|].
    intros n H. injection H as <-. simpl. lia.
  - exists (e :: es). cbv zeta in Hrun.
    remember (acc + Z.of_nat (length (e :: es))) as found eqn:Hfound.
    remember (set_scraped_entries (scraped_entries s1 ++ e :: es) s1) as s2 eqn:Hs2.
    assert (He2 : scraped_entries s2 = scraped_entries s ++ e :: es)
      by (subst s2; simpl; now rewrite Hkeep).
    clear Hs2.
    destruct (found mod 10 =? 0).
    + pose proof (entries_kept_by_save s2) as Hs. pose proof (save_result s2) as Hr.
      unfold final, result in Hs, Hr. unfold try_except, bind in Hrun.
      destruct (WikipediaScraper.save_checkpoint E s2) as [[u|x] s3];
        cbn [fst snd] in Hs, Hr.
      * injection Hrun as <- <-. split; [now rewrite Hs|]. split; [discriminate|].
        intros n H. injection H as <-. reflexivity.
      * destruct Hr as [Hr|Hr]; [discriminate|]. injection Hr as ->.
        injection Hrun as <- <-.
        split; [now rewrite Hs|]. split; [discriminate|].
        intros n H. injection H as <-. reflexivity.
    + injection Hrun as <- <-. split; [exact He2|]. split; [discriminate|].
      intros n H. injection H as <-. reflexivity.
  - injection Hrun as <- <-. exists []. rewrite app_nil_r.
    split; [exact Hkeep|]. split.
    + intros H. injection H as ->. now apply Hne.
    + intros n H. discriminate.
Qed.

Lemma counts_from_subcategory_unit (self_call : string -> Z -> Z -> M Z)
      (current_depth acc : Z) (subcat : Member) :
  (forall n p, counts (self_call n p (current_depth + 1))) ->
  counts_from acc (WikipediaScraper.subcategory_unit E C self_call current_depth acc subcat).
Proof.
  intros Hself. unfold WikipediaScraper.subcategory_unit.
  destruct (ContentClassifier.is_relevant_subcategory _); [|apply counts_from_ret].
  intros s. unfold final, result.
  match goal with |- context [(?m s).2] => destruct (m s) as [r s'] eqn:Hrun end.
  cbn [fst snd].
  destruct (Hself (m_title subcat) (Z.min 300 (max_pages_per_category C / 2)) s)
    as (new & He & Hex & Hn).
  unfold final, result in He, Hex, Hn. unfold try_except, bind in Hrun.
  destruct (self_call _ _ _ s) as [[n|e] s1]; cbn [fst snd] in He, Hex, Hn.
  - exists new. pose proof (entries_kept_by_sleep s1) as Hs. unfold final in Hs.
    destruct (sleep E s1) as [[u|x] s2]; cbn [fst snd] in Hs.
    + injection Hrun as <- <-. split; [now rewrite Hs|]. split; [discriminate|].
      intros k H. injection H as <-. rewrite (Hn n eq_refl). reflexivity.
    + destruct x; injection Hrun as <- <-;
        (split; [now rewrite Hs|]; split; [discriminate|]);
        intros k H; try discriminate.
      injection H as <-. rewrite (Hn n eq_refl). reflexivity.
  - destruct e; injection Hrun as <- <-.
    + exists []. rewrite (Hex eq_refl) in He. split; [exact He|].
      split; [discriminate|]. intros k H. injection H as <-. simpl. lia.
    + exists new. split; [exact He|]. split; [discriminate|]. intros k H. discriminate.
    + exists new. split; [exact He|]. split; [discriminate|]. intros k H. discriminate.
Qed.

Lemma counts_expand_category (self_call : string -> Z -> Z -> M Z)
      (category_name normalized_category : string) (max_pages current_depth : Z) :
  (forall n p, counts (self_call n p (current_depth + 1))) ->
  counts (WikipediaScraper.expand_category E C self_call category_name
            normalized_category max_pages current_depth).
Proof.
  intros Hself s. unfold final, result.
  match goal with |- context [(?m s).2] => destruct (m s) as [r s'] eqn:Hrun end.
  cbn [fst snd]. unfold WikipediaScraper.expand_category in Hrun.
  unfold bind at 1 in Hrun.
  destruct (members_run normalized_category
              (Z.min max_pages (max_pages_per_category C)) current_depth s)
    as [Hm Hmne].
  unfold final, result in Hm, Hmne.
  destruct (get_category_members E _ _ _ s) as [[members|e] s1]; cbn [fst snd] in Hm, Hmne.
  2:{ injection Hrun as <- <-. exists []. rewrite app_nil_r. split; [exact Hm|].
      split; [intros H; injection H as ->; now destruct Hmne | intros n H; discriminate]. }
  destruct members as [|m members].
  { injection Hrun as <- <-. exists []. rewrite app_nil_r. split; [exact Hm|].
    split; [discriminate|]. intros n H. injection H as <-. reflexivity. }
  cbv zeta in Hrun. unfold bind at 1 in Hrun.
  set (pages := List.filter (WikipediaScraper.in_namespace 0) (m :: members)) in Hrun.
  set (subcategories := WikipediaScraper.slice_to _ _) in Hrun.
  assert (Hsub : forall acc,
             counts_from acc
               (if current_depth <? max_category_depth C
                then for_each subcategories
                       (WikipediaScraper.subcategory_unit E C self_call current_depth) acc
                else ret acc)).
  { intros acc. destruct (current_depth <? max_category_depth C);
      [|apply counts_from_ret].
    apply counts_from_for_each. intros a x.
    apply counts_from_subcategory_unit, Hself. }
  assert (Hpages : counts_from 0 (for_each pages
                      (WikipediaScraper.page_unit E category_name) 0)).
  { apply counts_from_for_each. intros a x. apply counts_from_page_unit. }
  assert (Hfinish : forall n1 s2 new1,
             scraped_entries s2 = scraped_entries s ++ new1 ->
             n1 = Z.of_nat (length new1) ->
             (if current_depth <? max_category_depth C
              then for_each subcategories
                     (WikipediaScraper.subcategory_unit E C self_call current_depth) n1
              else ret n1) s2 = (r, s') ->
             exists new, scraped_entries s' = scraped_entries s ++ new /\
                         (r = Raise Exception -> new = []) /\
                         (forall n, r = Ok n -> n = Z.of_nat (length new))).
  { intros n1 s2 new1 He1 Hn1 Hrun2.
    destruct (Hsub n1 s2) as (new2 & He2 & Hne2 & Hn2).
    unfold final, result in He2, Hne2, Hn2. rewrite Hrun2 in He2, Hne2, Hn2.
    cbn [fst snd] in He2, Hne2, Hn2.
    exists (new1 ++ new2). rewrite He2, He1, app_assoc. split; [reflexivity|].
    split; [intros H; destruct (Hne2 H)|].
    intros n H. rewrite (Hn2 n H), Hn1, length_app. lia. }
  destruct pages as [|pg pages'] eqn:Hpg.
  - unfold ret at 1 in Hrun. apply (Hfinish 0 s1 []); [now rewrite app_nil_r | reflexivity|].
    exact Hrun.
  - destruct (max_workers C <=? 0).
    + unfold raise in Hrun. injection Hrun as <- <-. exists []. rewrite app_nil_r.
      split; [exact Hm|]. split; [reflexivity | intros n H; discriminate].
    + destruct (Hpages s1) as (new1 & He1 & Hne1 & Hn1).
      unfold final, result in He1, Hne1, Hn1.
      destruct (for_each (pg :: pages') _ 0 s1) as [[n1|e] s2]; cbn [fst snd] in He1, Hne1, Hn1.
      * apply (Hfinish n1 s2 new1); [now rewrite He1, Hm | |exact Hrun].
        rewrite (Hn1 n1 eq_refl). lia.
      * injection Hrun as <- <-. exists new1. split; [now rewrite He1, Hm|].
        split; [intros H; destruct (Hne1 H) | intros n H; discriminate].
Qed.

Lemma counts_scrape_category_body (self_call : string -> Z -> Z -> M Z)
      (category_name : string) (max_pages current_depth : Z) :
  (forall n p d, counts (self_call n p d)) ->
  counts (WikipediaScraper.scrape_category_body E C self_call
            category_name max_pages current_depth).
Proof.
  intros Hself s. unfold final, result.
  match goal with |- context [(?m s).2] => destruct (m s) as [r s'] eqn:Hrun end.
  cbn [fst snd]. unfold WikipediaScraper.scrape_category_body in Hrun. cbv zeta in Hrun.
  destruct (current_depth >? max_category_depth C).
  { injection Hrun as <- <-. exists []. rewrite app_nil_r. split; [reflexivity|].
    split; [discriminate|]. intros n H. injection H as <-. reflexivity. }
  unfold bind in Hrun. rewrite cycle_guard_run in Hrun. cbv zeta in Hrun.
  destruct (bool_decide _).
  { injection Hrun as <- <-. exists []. rewrite app_nil_r. split; [reflexivity|].
    split; [discriminate|]. intros n H. injection H as <-. reflexivity. }
  destruct ((current_depth >? 0) && _).
  { injection Hrun as <- <-. exists []. rewrite app_nil_r. split; [reflexivity|].
    split; [discriminate|]. intros n H. injection H as <-. reflexivity. }
  match type of Hrun with ?m ?s1 = _ =>
    destruct (counts_expand_category self_call category_name
                (Str.remove_all "Category:" category_name) max_pages current_depth
                (fun n p => Hself n p (current_depth + 1)) s1)
      as (new & He & Hex & Hn)
  end.
  unfold final, result in He, Hex, Hn. rewrite Hrun in He, Hex, Hn.
  cbn [fst snd] in He, Hex, Hn. exists new. auto.
Qed.

Lemma counts_scrape_category_rec (fuel : nat) (category_name : string)
      (max_pages current_depth : Z) :
  counts (WikipediaScraper.scrape_category_rec E C fuel category_name max_pages current_depth).
Proof.
  revert category_name max_pages current_depth.
  induction fuel as [|fuel IH]; intros category_name max_pages current_depth; simpl.
  - apply counts_scrape_category_body. intros n p d s. exists []. rewrite app_nil_r.
    split; [reflexivity|]. split; [discriminate|].
    intros k H. injection H as <-. reflexivity.
  - apply counts_scrape_category_body. intros n p d. apply IH.
Qed.
End Counting.

(** X13.  [scrape_category] only appends to the accepted entries.  When it
    returns, the number it returns is the number of entries it appended, its
    own pages and those of the subcategories it visited; when it ends with an
    [Exception], it appended nothing. *)
Theorem scrape_category_counts_entries (E : Env) (C : Settings)
    (category_name : string) (max_pages depth : Z) (s : state) :
  let run := WikipediaScraper.scrape_category E C category_name max_pages depth in
  exists new,
    scraped_entries (final run s) = scraped_entries s ++ new /\
    (forall n, result run s = Ok n -> n = Z.of_nat (length new)) /\
    (result run s = Raise Exception -> new = []).
Proof.
  cbv zeta.
  destruct (counts_scrape_category_rec E C
              (Z.to_nat (max_category_depth C - depth)) category_name max_pages depth s)
    as (new & He & Hex & Hn).
  exists new. split; [exact He|]. split; [exact Hn | exact Hex].
Qed.

(** ** Category names and keys *)

Section KeyCoverage.

Lemma digits_without_underscore (u : Decimal.uint) :
  occurs "_" (NilEmpty.string_of_uint u) = false.
Proof. induction u; simpl; auto. Qed.

Lemma of_Z_without_underscore (d : Z) : occurs "_" (Str.of_Z d) = false.
Proof.
  unfold Str.of_Z. destruct (Z.to_int d) as [u|u]; simpl.
  - destruct u; try apply (digits_without_underscore (Decimal.D0 Decimal.Nil));
      apply digits_without_underscore.
  - destruct u; try reflexivity; apply digits_without_underscore.
Qed.

Lemma occurs_app (c : ascii) (a b : string) :
  occurs c (a +:+ b) = occurs c a || occurs c b.
Proof.
  induction a as [|x a IH]; [reflexivity|].
  rewrite app_cons. simpl. rewrite IH. apply orb_assoc.
Qed.

Lemma of_Z_inj (d d' : Z) : Str.of_Z d = Str.of_Z d' -> d = d'.
Proof.
  unfold Str.of_Z. intros H.
  assert (Hnn : forall z, Z.to_int z <> Decimal.Pos Decimal.Nil /\
                          Z.to_int z <> Decimal.Neg Decimal.Nil).
  { intros [|p|p]; simpl; split; try discriminate;
      intros Hp; injection Hp as Hp; now apply (DecimalPos.Unsigned.to_uint_nonnil p). }
  apply DecimalZ.to_int_inj.
  assert (Hs : Some (Z.to_int d) = Some (Z.to_int d')).
  { rewrite <- (NilZero.isi (Z.to_int d)) by apply Hnn.
    rewrite <- (NilZero.isi (Z.to_int d')) by apply Hnn. now rewrite H. }
  now injection Hs.
Qed.

(** A text is split in one way only at an underscore that is followed by no
    other underscore. *)
Lemma split_at_last_underscore (a a' b b' : string) :
  occurs "_" b = false -> occurs "_" b' = false ->
  a +:+ "_" +:+ b = a' +:+ "_" +:+ b' -> a = a' /\ b = b'.
Proof.
  intros Hb Hb'. revert a'. induction a as [|c a IH]; intros [|c' a'] H.
  - injection H as H. auto.
  - change ("" +:+ "_" +:+ b) with (String "_" b) in H.
    rewrite app_cons in H. injection H as _ H.
    rewrite H, occurs_app in Hb. change ("_" +:+ b') with (String "_" b') in Hb.
    simpl in Hb. rewrite orb_true_r in Hb. discriminate.
  - change ("" +:+ "_" +:+ b') with (String "_" b') in H.
    rewrite app_cons in H. injection H as _ H.
    rewrite <- H, occurs_app in Hb'. change ("_" +:+ b) with (String "_" b) in Hb'.
    simpl in Hb'. rewrite orb_true_r in Hb'. discriminate.
  - rewrite !app_cons in H. injection H as -> H.
    destruct (IH a' H) as [-> ->]. auto.
Qed.

Lemma remove_all_identity (pat x : string) :
  Str.contains pat x = false -> Str.remove_all pat x = x.
Proof.
  unfold Str.remove_all. induction x as [|c x IH]; [reflexivity|].
  intros H.
  change (String.prefix pat (String c x) || Str.contains pat x = false) in H.
  apply orb_false_iff in H. destruct H as [Hp Hc].
  change (Str.remove_from pat 0 (String c x))
    with (if String.prefix pat (String c x)
          then Str.remove_from pat (Nat.pred (String.length pat)) x
          else String c (Str.remove_from pat 0 x)).
  rewrite Hp, (IH Hc). reflexivity.
Qed.
End KeyCoverage.

(** X14.  The key of the cycle guard identifies the normalized name and the
    depth: two visits share a key only when both agree. *)
Theorem category_depth_key_injective (n n' : string) (d d' : Z) :
  WikipediaScraper.category_depth_key n d = WikipediaScraper.category_depth_key n' d' ->
  n = n' /\ d = d'.
Proof.
  unfold WikipediaScraper.category_depth_key. intros H.
  destruct (split_at_last_underscore n n' (Str.of_Z d) (Str.of_Z d')
              (of_Z_without_underscore d) (of_Z_without_underscore d') H) as [Hn Hd].
  split; [exact Hn | apply of_Z_inj, Hd].
Qed.

(** An instance: a name that itself ends in an underscore and digits. *)
Lemma category_depth_key_injective_witness :
  "Foo_1"%string = "Foo_1"%string /\ 2 = 2.
Proof.
  exact (category_depth_key_injective "Foo_1" "Foo_1" 2 2 eq_refl).
Defined.

(** X15.  The normalization of a category name removes a leading namespace
    marker and leaves a name without marker unchanged, so a category named
    with and without the marker has the same key at a given depth. *)
Theorem normalization_strips_marker (x : string) (d : Z) :
  Str.remove_all "Category:" ("Category:" +:+ x) = Str.remove_all "Category:" x /\
  WikipediaScraper.category_depth_key (Str.remove_all "Category:" ("Category:" +:+ x)) d
  = WikipediaScraper.category_depth_key (Str.remove_all "Category:" x) d /\
  (Str.contains "Category:" x = false -> Str.remove_all "Category:" x = x).
Proof.
  assert (H : Str.remove_all "Category:" ("Category:" +:+ x) = Str.remove_all "Category:" x).
  { unfold Str.remove_all.
    change ("Category:" +:+ x)
      with (String "C" (String "a" (String "t" (String "e" (String "g" (String "o"
             (String "r" (String "y" (String ":" x))))))))).
    destruct x; reflexivity. }
  split; [exact H|]. split; [now rewrite H | apply remove_all_identity].
Qed.

(** An instance: a seed category of the default configuration. *)
Lemma normalization_strips_marker_witness :
  Str.remove_all "Category:" "Fictional robots" = "Fictional robots"%string.
Proof.
  exact (proj2 (proj2 (normalization_strips_marker "Fictional robots" 0)) eq_refl).
Defined.

(** ** The cap on the number of entries *)

(** X16.  When the accepted entries already reach the maximum, [scrape_all]
    starts no category: it makes no request to the API, leaves the visited
    sets and the accepted entries as they are, and only performs the final
    save and export. *)
Theorem scrape_all_at_capacity (E : Env) (C : Settings)
    (start_categories : option (list string)) (max_entries : Z) (s : state) :
  max_entries <= Z.of_nat (length (scraped_entries s)) ->
  let s' := final (WikipediaScraper.scrape_all E C start_categories max_entries) s in
  visited_pages s' = visited_pages s /\
  visited_categories s' = visited_categories s /\
  scraped_entries s' = scraped_entries s /\
  exists new, trace s' = trace s ++ new /\ existsb is_request new = false.
Proof.
  intros Hcap. cbv zeta. unfold WikipediaScraper.scrape_all. cbv zeta.
  rewrite final_try_finally.
  set (cats := default ScraperConfig.DEFAULT_CATEGORIES start_categories).
  assert (Hloop : WikipediaScraper.seed_loop E C cats max_entries s = (Ok tt, s)).
  { destruct cats as [|c cats]; [reflexivity|]. simpl. unfold bind, get.
    replace (Z.of_nat (length (scraped_entries s)) >=? max_entries) with true;
      [reflexivity|]. symmetry. rewrite Z.geb_leb. apply Z.leb_le, Hcap. }
  match goal with |- context [final ?m s] =>
    match m with
    | bind _ _ => fail 1
    | _ => replace (final m s) with s by (unfold final; now rewrite Hloop)
    end
  end.
  pose proof (save_checkpoint_effect E s) as Hsave. cbv zeta in Hsave.
  destruct Hsave as (Hvp & Hvc & Hse & Hfp & Htr & _).
  unfold final in *. unfold bind.
  destruct (WikipediaScraper.save_checkpoint E s) as [[u|e] s1]; simpl in *.
  - pose proof (export_data_effect E s1) as Hexp. cbv zeta in Hexp.
    destruct Hexp as (Hvp' & Hvc' & Hse' & _ & Htr'). unfold final in *.
    rewrite Hvp', Hvc', Hse', Hvp, Hvc, Hse. repeat split.
    eexists. rewrite Htr', Htr, <- app_assoc. split; reflexivity.
  - rewrite Hvp, Hvc, Hse. repeat split. eexists. rewrite Htr. split; reflexivity.
Qed.

(** An instance: one accepted entry and a maximum of one. *)
Lemma scrape_all_at_capacity_witness :
  let s' := final (WikipediaScraper.scrape_all quiet_env default_settings None 1)
              one_entry_state in
  visited_pages s' = visited_pages one_entry_state /\
  visited_categories s' = visited_categories one_entry_state /\
  scraped_entries s' = scraped_entries one_entry_state /\
  exists new, trace s' = trace one_entry_state ++ new /\ existsb is_request new = false.
Proof.
  refine (scrape_all_at_capacity quiet_env default_settings None 1 one_entry_state _).
  simpl. lia.
Defined.

(** ** Where a resume reads the checkpoint from *)

(** X17.  [load_checkpoint] reads the pickle file when there is one and the
    JSON file otherwise.  Without any file the scraper is left as it is; a
    pickle file that does not load leaves it as it is as well, even when the
    JSON file holds a complete snapshot; a complete JSON file alone restores
    the visited sets and the failed pages of its snapshot. *)
Theorem load_checkpoint_source (E : Env) (s : state) :
  (pickle_file s = None -> json_file s = None ->
   WikipediaScraper.load_checkpoint E s = (Ok tt, s)) /\
  (pickle_file s = Some Partial ->
   WikipediaScraper.load_checkpoint E s = (Ok tt, s)) /\
  (forall d, pickle_file s = None -> json_file s = Some (Complete d) ->
     let s' := final (WikipediaScraper.load_checkpoint E) s in
     result (WikipediaScraper.load_checkpoint E) s = Ok tt /\
     visited_pages s' = list_to_set (cd_visited_pages d) /\
     visited_categories s' = list_to_set (cd_visited_categories d) /\
     failed_pages s' = cd_failed_pages d /\
     length (scraped_entries s') = length (cd_scraped_entries d)).
Proof.
  split; [|split].
  - intros Hp Hj. unfold WikipediaScraper.load_checkpoint, bind.
    rewrite manager_load_checkpoint_run, Hp, Hj. reflexivity.
  - intros Hp. unfold WikipediaScraper.load_checkpoint, bind.
    rewrite manager_load_checkpoint_run, Hp. reflexivity.
  - intros d Hp Hj. cbv zeta. unfold final, result.
    destruct (rebuild_entries E (cd_scraped_entries d)
                (set_failed_pages (cd_failed_pages d)
                   (set_visited_categories (list_to_set (cd_visited_categories d))
                      (set_visited_pages (list_to_set (cd_visited_pages d)) s))))
      as (es & s2 & Hrun & Hall & Hvp & Hvc & Hfp & _).
    assert (Hload : WikipediaScraper.load_checkpoint E s =
                    (Ok tt, set_scraped_entries es s2)).
    { unfold WikipediaScraper.load_checkpoint. unfold bind at 1.
      rewrite manager_load_checkpoint_run, Hp, Hj.
      unfold bind at 1. unfold modify at 1.
      unfold bind at 1. unfold modify at 1.
      unfold bind at 1. unfold modify at 1.
      unfold bind at 1. rewrite Hrun. reflexivity. }
    rewrite Hload. simpl. rewrite Hvp, Hvc, Hfp. simpl.
    repeat split. symmetry. eapply Forall2_length. exact Hall.
Qed.

(** An instance: a pickle file cut short beside a complete JSON file. *)
Lemma load_checkpoint_source_witness :
  json_file (restart (set_pickle_file (Some Partial) saved_state)) =
    Some (Complete (snapshot one_entry_state "0")) /\
  WikipediaScraper.load_checkpoint quiet_env
    (restart (set_pickle_file (Some Partial) saved_state)) =
    (Ok tt, restart (set_pickle_file (Some Partial) saved_state)).
Proof.
  split; [vm_compute; reflexivity|].
  exact (proj1 (proj2 (load_checkpoint_source quiet_env
                         (restart (set_pickle_file (Some Partial) saved_state))))
               eq_refl).
Defined.
